(** * MaiMai Trainer: note engine, scoring and hit mapping

    A shallow embedding of the game logic of the MaiMai Trainer
    (src/game/scoring.py, src/game/notes.py, src/game/note_generator.py,
    src/utils/config.py, src/utils/coordinate_mapper.py,
    src/vision/hand_tracker.py, src/vision/video_analyzer.py, src/main.py).

    Conventions of the embedding:
    - Python [int] values are [Z]; a Python [float] is the rational [Q]
      it stands for.  The operations of the module [Float] round as
      binary64 does; they are used where a constant of the code is no
      binary64 number and meets whole numbers (0.1 in [detect_gesture],
      0.7 and 0.9 times the screen radius in [check_button_hit] and
      [detect_buttons]).  Elsewhere the arithmetic is that of the
      rationals: the constants 7.5, 22.5 and 300 * 0.6 are binary64
      numbers, and the differences of clock readings are exact;
    - a Python [dict] with string keys is a [gmap string _]; where the
      insertion order of the dict is observed it is an association list;
    - [Note] objects live in an object store and the note list holds
      references, so that in-place mutation and [list.remove] (identity
      comparison) behave as in Python;
    - calls into [math], NumPy and OpenCV are operations of the
      interfaces [Libm] and [OpenCV]; the wall clock is an argument. *)

From Stdlib Require Import ZArith QArith Qround Qabs Qminmax Qpower Lia Lqa List Bool.
From Stdlib Require Import Permutation Sorted.
From Stdlib Require Import Decimal DecimalString DecimalZ DecimalPos.
From stdpp Require Import base strings gmap list.

Import ListNotations.

(** * Part I: the program *)

(** ** Python arithmetic *)

Module Py.

Definition Qltb (a b : Q) : bool := negb (Qle_bool b a).

(** [x % m] on numbers: the result has the sign of [m]. *)
Definition mod_ (x m : Q) : Q := (x - inject_Z (Qfloor (x / m)) * m)%Q.

(** [int(x)]: truncation towards zero. *)
Definition int (x : Q) : Z := if Qle_bool 0 x then Qfloor x else Qceiling x.

(** [str(z)] of an integer, as an f-string prints it. *)
Definition str (z : Z) : string := NilZero.string_of_int (Z.to_int z).

(** [sum(xs)] *)
Definition sum (xs : list Q) : Q := fold_left Qplus xs 0%Q.

(** [len(xs)] as a number *)
Definition len {A} (xs : list A) : Q := inject_Z (Z.of_nat (length xs)).

(** [xs.remove(x)] on a list of references: drops the first occurrence. *)
Fixpoint remove (x : nat) (xs : list nat) : list nat :=
  match xs with
  | [] => []
  | y :: ys => if Nat.eqb y x then ys else y :: remove x ys
  end.

(** The outcome of a call that may raise. *)
Inductive result (A : Type) :=
| Returned (a : A)
| Raised.
Arguments Returned {A} a.
Arguments Raised {A}.

End Py.

(** ** Binary64 arithmetic

    A Python float is kept as the rational it stands for; [round]
    gives the binary64 number nearest to a rational, and the four
    operations round their exact result.  The exponent has no upper
    bound here: the overflow to infinity is not part of the model. *)

Module Float.

(** 2 to the power [e] *)
Definition pow2 (e : Z) : Q := Qpower 2 e.

(** The integer part of the binary logarithm of a positive number. *)
Definition ilog2 (q : Q) : Z :=
  let e := (Z.log2 (Qnum q) - Z.log2 (Zpos (Qden q)))%Z in
  if Qle_bool (pow2 e) q then e else (e - 1)%Z.

(** The nearest integer, a tie going to the even one. *)
Definition rint (q : Q) : Z :=
  let f := Qfloor q in
  match Qcompare (q - inject_Z f) (1 # 2) with
  | Lt => f
  | Gt => (f + 1)%Z
  | Eq => if Z.even f then f else (f + 1)%Z
  end.

(** The nearest binary64 number to a positive number: 53 significant
    bits, steps of 2^-1074 at the bottom of the range. *)
Definition round_pos (q : Q) : Q :=
  let e := Z.max (ilog2 q - 52) (-1074) in
  (inject_Z (rint (q / pow2 e)) * pow2 e)%Q.

(** Rounding to nearest, ties to even: the value of a decimal literal,
    and of the exact result of an operation. *)
Definition round (q : Q) : Q :=
  match Qcompare q 0 with
  | Eq => 0
  | Gt => round_pos q
  | Lt => - round_pos (- q)
  end.

Definition add (x y : Q) : Q := round (x + y).
Definition sub (x y : Q) : Q := round (x - y).
Definition mul (x y : Q) : Q := round (x * y).
Definition div (x y : Q) : Q := round (x / y).

(** [float(z)], the conversion of an int that meets a float. *)
Definition of_int (z : Z) : Q := round (inject_Z z).

End Float.

(** ** External libraries *)

(** [math] and NumPy: the transcendental functions the code calls. *)
Class Libm := {
  (** [math.degrees(math.atan2(y, x))], also [np.degrees(np.arctan2(y, x))] *)
  degrees_atan2 : Q -> Q -> Q;
  (** [math.sqrt], [np.sqrt] *)
  sqrt : Q -> Q;
  (** [math.cos(math.radians(a))] and [math.sin(math.radians(a))] *)
  cos_deg : Q -> Q;
  sin_deg : Q -> Q;
  (** [np.pi] *)
  pi : Q
}.

(** OpenCV: frames, contours and the calls made on them.  A call that
    raises [cv2.error] yields [None]. *)
Class OpenCV := {
  Frame : Type;
  Contour : Type;
  Matrix : Type;
  (** cvtColor, GaussianBlur, Canny, then findContours(RETR_EXTERNAL) *)
  edge_contours : Frame -> list Contour;
  contourArea : Contour -> Q;
  arcLength : Contour -> Q;
  minEnclosingCircle : Contour -> (Q * Q) * Q;
  getPerspectiveTransform : list (Q * Q) -> list (Q * Q) -> option Matrix
}.

(** ** utils/config.py *)

Module Config.

Definition WINDOW_WIDTH : Z := 1200.
Definition WINDOW_HEIGHT : Z := 600.
Definition CIRCLE_RADIUS : Z := 300.
Definition NOTE_SPEED : Q := 15 # 2.
Definition NOTE_SIZE : Z := 30.

Definition TIMING_WINDOWS : gmap string Z :=
  <["PERFECT" := 50%Z]> (<["GREAT" := 100%Z]> (<["GOOD" := 150%Z]> (<["BAD" := 200%Z]> ∅))).

Definition WEBCAM_SETTINGS : gmap string Z :=
  <["DEVICE_ID" := 0%Z]> (<["WIDTH" := 640%Z]> (<["HEIGHT" := 480%Z]> (<["FPS" := 30%Z]> ∅))).

End Config.

(** ** game/scoring.py *)

Module Scoring.
Import Config.

Record ScoreManager := mkScore {
  score : Z;
  combo : Z;
  max_combo : Z;
  perfects : Z;
  greats : Z;
  goods : Z;
  misses : Z
}.

(** [ScoreManager.__init__] *)
Definition init : ScoreManager := mkScore 0 0 0 0 0 0 0.

(** [TIMING_WINDOWS[k]] as a number to compare a timing with *)
Definition window (k : string) : Q := inject_Z (TIMING_WINDOWS !!! k).

(** [ScoreManager.add_hit]: the tier cascade, then the max-combo update
    that every branch falls through to. *)
Definition add_hit (self : ScoreManager) (timing : Q) : ScoreManager :=
  let self :=
    if Qle_bool timing (window "PERFECT") then
      mkScore (score self + 100) (combo self + 1) (max_combo self)
              (perfects self + 1) (greats self) (goods self) (misses self)
    else if Qle_bool timing (window "GREAT") then
      mkScore (score self + 80) (combo self + 1) (max_combo self)
              (perfects self) (greats self + 1) (goods self) (misses self)
    else if Qle_bool timing (window "GOOD") then
      mkScore (score self + 50) (combo self + 1) (max_combo self)
              (perfects self) (greats self) (goods self + 1) (misses self)
    else
      mkScore (score self) 0 (max_combo self)
              (perfects self) (greats self) (goods self) (misses self + 1) in
  mkScore (score self) (combo self) (Z.max (max_combo self) (combo self))
          (perfects self) (greats self) (goods self) (misses self).

(** [ScoreManager.add_miss] *)
Definition add_miss (self : ScoreManager) : ScoreManager :=
  mkScore (score self) 0 (max_combo self)
          (perfects self) (greats self) (goods self) (misses self + 1).

(** [ScoreManager.get_accuracy]: a percentage, 0 when nothing was
    judged. *)
Definition get_accuracy (self : ScoreManager) : Q :=
  let total_notes := (perfects self + greats self + goods self + misses self)%Z in
  if (total_notes =? 0)%Z then 0%Q
  else (inject_Z (perfects self + greats self + goods self) / inject_Z total_notes * 100)%Q.

(** A call made on a score manager, and the run of a sequence of calls. *)
Inductive call := AddHit (timing : Q) | AddMiss.

Definition step (s : ScoreManager) (c : call) : ScoreManager :=
  match c with
  | AddHit t => add_hit s t
  | AddMiss => add_miss s
  end.

Definition run (s : ScoreManager) (cs : list call) : ScoreManager :=
  fold_left step cs s.

End Scoring.

(** ** game/notes.py *)

Module Notes.
Import Config.

(** A reference to a [Note] object. *)
Abbreviation loc := nat (only parsing).

(** The fields of a [Note]; [color] is a function of [type] and only
    read when drawing. *)
Record Note := mkNote {
  type : string;
  angle : Q;
  radius : Q;
  creation_time : Q;
  active : bool;
  hit : bool
}.

(** The object store: the notes allocated so far. *)
Record Store := mkStore {
  cell : loc -> Note;
  next : loc
}.

Definition store_set (st : Store) (l : loc) (n : Note) : Store :=
  mkStore (fun k => if Nat.eqb k l then n else cell st k) (next st).

Definition alloc (st : Store) (n : Note) : loc * Store :=
  (next st, mkStore (fun k => if Nat.eqb k (next st) then n else cell st k) (S (next st))).

(** The store before any note is created; its cells are not read before
    [alloc] fills them. *)
Definition empty_store : Store :=
  mkStore (fun _ => mkNote "" 0 0 0 false false) 0.

(** [Note.__init__] at wall-clock time [now] (milliseconds) *)
Definition Note_init (note_type : string) (angle radius now : Q) : Note :=
  mkNote note_type angle radius now true false.

(** [Note.update] *)
Definition Note_update (self : Note) : Note :=
  if active self then
    let r := (radius self - NOTE_SPEED)%Q in
    mkNote (type self) (angle self) r (creation_time self)
           (if Py.Qltb r 0 then false else active self) (hit self)
  else self.

Record NoteManager := mkNoteManager {
  notes : list loc;
  last_spawn_time : Q;
  spawn_interval : Z;
  note_speed : Z;
  note_size : Z
}.

(** [NoteManager.__init__] at wall-clock time [now] *)
Definition NoteManager_init (now : Q) : NoteManager :=
  mkNoteManager [] now 2000 1 20.

Definition set_notes (self : NoteManager) (ns : list loc) : NoteManager :=
  mkNoteManager ns (last_spawn_time self) (spawn_interval self)
                (note_speed self) (note_size self).

(** [NoteManager.add_note] *)
Definition add_note (st : Store) (self : NoteManager) (note_type : string)
    (angle now : Q) : Store * NoteManager :=
  let radius := (inject_Z CIRCLE_RADIUS * (3 # 2))%Q in
  let '(l, st) := alloc st (Note_init note_type angle radius now) in
  (st, set_notes self (notes self ++ [l])).

(** The loop of [NoteManager.update] over the copy [self.notes[:]]:
    [ns] is the live list the loop removes from. *)
Fixpoint update_loop (copy : list loc) (st : Store) (ns : list loc)
    : Store * list loc :=
  match copy with
  | [] => (st, ns)
  | note :: rest =>
      let st := store_set st note (Note_update (cell st note)) in
      if Py.Qltb (radius (cell st note)) 0
      then update_loop rest st (Py.remove note ns)
      else update_loop rest st ns
  end.

(** [NoteManager.update] *)
Definition update (st : Store) (self : NoteManager) : Store * NoteManager :=
  let '(st, ns) := update_loop (notes self) st (notes self) in
  (st, set_notes self ns).

Section CheckHits.
Context `{Libm}.

(** The angle of a hit position as seen from the centre of the play
    field, normalised to be non-negative. *)
Definition hit_angle_of (pos : Q * Q) : Q :=
  let dx := (fst pos - inject_Z (WINDOW_WIDTH / 4))%Q in
  let dy := (snd pos - inject_Z (WINDOW_HEIGHT / 2))%Q in
  let hit_angle := degrees_atan2 dy dx in
  if Py.Qltb hit_angle 0 then (hit_angle + 360)%Q else hit_angle.

(** The test made in the inner loop for one note and one position. *)
Definition in_hit_window (note : Note) (pos : Q * Q) : bool :=
  let hit_angle := hit_angle_of pos in
  let angle_diff := Qabs (hit_angle - angle note) in
  let angle_diff := if Py.Qltb 180 angle_diff then (360 - angle_diff)%Q else angle_diff in
  Py.Qltb angle_diff 60
  && (Py.Qltb (inject_Z CIRCLE_RADIUS * (6 # 10)) (radius note)
      && Py.Qltb (radius note) (inject_Z CIRCLE_RADIUS * (14 # 10))).

(** The inner loop over [zip(gestures, positions)]: [true] when it
    leaves through [break]. *)
Fixpoint gesture_loop {G} (note : Note) (zipped : list (G * (Q * Q))) : bool :=
  match zipped with
  | [] => false
  | (_, pos) :: rest =>
      if in_hit_window note pos then true else gesture_loop note rest
  end.

(** The outer loop over the copy [self.notes[:]]. *)
Fixpoint check_hits_loop {G} (st : Store) (zipped : list (G * (Q * Q)))
    (copy : list loc) (hits ns : list loc) : list loc * list loc :=
  match copy with
  | [] => (hits, ns)
  | note :: rest =>
      if gesture_loop (cell st note) zipped
      then check_hits_loop st zipped rest (hits ++ [note]) (Py.remove note ns)
      else check_hits_loop st zipped rest hits ns
  end.

(** [NoteManager.check_hits]: the notes hit, and the manager afterwards. *)
Definition check_hits {G} (st : Store) (self : NoteManager)
    (gestures : list G) (positions : list (Q * Q)) : list loc * NoteManager :=
  let '(hits, ns) :=
    check_hits_loop st (combine gestures positions) (notes self) [] (notes self) in
  (hits, set_notes self ns).

End CheckHits.

End Notes.

(** ** game/note_generator.py *)

Module NoteGenerator.

(** [NoteGenerator.region_angles]: region names to spawn angles. *)
Definition region_angles : gmap string Z :=
  <["TOP" := 90%Z]> (<["TOP_RIGHT" := 45%Z]> (<["RIGHT" := 0%Z]>
  (<["BOTTOM_RIGHT" := 315%Z]> (<["BOTTOM" := 270%Z]> (<["BOTTOM_LEFT" := 225%Z]>
  (<["LEFT" := 180%Z]> (<["TOP_LEFT" := 135%Z]> ∅))))))).

(** The first component of a motion region: a tuple or list of
    numbers, or a value of another kind. *)
Inductive region_center :=
| Sequence (coords : list Q)
| Other.

Record NoteGenerator := mkGenerator {
  last_note_time : Q;
  note_cooldown : Z;
  center_x : Z;
  center_y : Z
}.

(** [NoteGenerator.__init__] *)
Definition init : NoteGenerator :=
  mkGenerator 0 500 (Config.WEBCAM_SETTINGS !!! "WIDTH" / 2)%Z
              (Config.WEBCAM_SETTINGS !!! "HEIGHT" / 2)%Z.

(** [NoteGenerator.reset] *)
Definition reset (self : NoteGenerator) : NoteGenerator :=
  mkGenerator 0 (note_cooldown self) (center_x self) (center_y self).

Section Motion.
Context `{Libm}.

(** The angle given to a region: the table's when the name is known,
    else the angle of the position seen from the centre.  The position
    is a pair of floats, and the differences and the sum are those of
    binary64 (on whole numbers of the size of pixel positions the
    differences are exact). *)
Definition region_angle (self : NoteGenerator) (x y : Q) (region_name : string) : Q :=
  match region_angles !! region_name with
  | Some angle => inject_Z angle
  | None =>
      let dx := Float.sub x (Float.of_int (center_x self)) in
      let dy := Float.sub y (Float.of_int (center_y self)) in
      let angle := degrees_atan2 dy dx in
      if Py.Qltb angle 0 then Float.add angle 360 else angle
  end.

(** [NoteGenerator.motion_to_notes]: an entry whose centre is not a
    sequence of two numbers is skipped. *)
Fixpoint motion_to_notes (self : NoteGenerator)
    (motion_regions : list (region_center * string)) : list (string * Q) :=
  match motion_regions with
  | [] => []
  | (center, region_name) :: rest =>
      match center with
      | Sequence [x; y] =>
          ("TAP", region_angle self x y region_name) :: motion_to_notes self rest
      | _ => motion_to_notes self rest
      end
  end.

End Motion.

End NoteGenerator.

(** ** utils/coordinate_mapper.py *)

Module CoordinateMapper.
Section Mapper.
Context `{OpenCV}.

Record CoordinateMapper := mkMapper {
  calibration_points : list ((Q * Q) * (Q * Q));
  transformation_matrix : option Matrix
}.

(** [CoordinateMapper.__init__] *)
Definition init : CoordinateMapper := mkMapper [] None.

(** [CoordinateMapper.add_calibration_point] *)
Definition add_calibration_point (self : CoordinateMapper)
    (webcam_point screen_point : Q * Q) : CoordinateMapper :=
  mkMapper (calibration_points self ++ [(webcam_point, screen_point)])
           (transformation_matrix self).

(** [CoordinateMapper.calculate_transformation]: every stored pair is
    handed to [cv2.getPerspectiveTransform]; when that call raises, the
    exception leaves the method before the assignment. *)
Definition calculate_transformation (self : CoordinateMapper)
    : Py.result bool * CoordinateMapper :=
  if (length (calibration_points self) <? 4)%nat then (Py.Returned false, self)
  else
    let src_points := map fst (calibration_points self) in
    let dst_points := map snd (calibration_points self) in
    match getPerspectiveTransform src_points dst_points with
    | Some m => (Py.Returned true, mkMapper (calibration_points self) (Some m))
    | None => (Py.Raised, self)
    end.

(** [CoordinateMapper.is_calibrated] *)
Definition is_calibrated (self : CoordinateMapper) : bool :=
  match transformation_matrix self with
  | Some _ => true
  | None => false
  end.

End Mapper.

Section Mapping.
Context `{OpenCV}.

(** [cv2.perspectiveTransform] applied to one point. *)
Variable perspectiveTransform : Matrix -> Q * Q -> Q * Q.

(** [CoordinateMapper.map_coordinates] *)
Definition map_coordinates (self : CoordinateMapper) (webcam_point : Q * Q) : Z * Z :=
  match transformation_matrix self with
  | None =>
      let x := Py.int (fst webcam_point * inject_Z Config.WINDOW_WIDTH
                       / inject_Z (Config.WEBCAM_SETTINGS !!! "WIDTH")) in
      let y := Py.int (snd webcam_point * inject_Z Config.WINDOW_HEIGHT
                       / inject_Z (Config.WEBCAM_SETTINGS !!! "HEIGHT")) in
      (x, y)
  | Some m =>
      let transformed := perspectiveTransform m webcam_point in
      (Py.int (fst transformed), Py.int (snd transformed))
  end.

End Mapping.
End CoordinateMapper.

(** ** vision/hand_tracker.py *)

Module HandTracker.
Section Tracker.
Context `{Libm}.

(** The gesture-detection state of a [HandTracker].  A position is a
    triple of floats. *)
Record HandTracker := mkTracker {
  prev_positions : gmap string (Q * Q * Q);
  slide_threshold : Q;
  tap_threshold : Q
}.

(** [HandTracker.__init__] *)
Definition init : HandTracker := mkTracker ∅ 30 (Float.round (1 # 10)).

Definition set_prev (self : HandTracker) (finger_id : string) (finger_pos : Q * Q * Q)
    : HandTracker :=
  mkTracker (<[finger_id := finger_pos]> (prev_positions self))
            (slide_threshold self) (tap_threshold self).

(** A gesture: [("SLIDE", angle)] or [("TAP", None)]. *)
Definition Gesture : Type := string * option Q.

(** [HandTracker.detect_gesture] *)
Definition detect_gesture (self : HandTracker) (finger_pos : Q * Q * Q)
    (finger_id : string) : option Gesture * HandTracker :=
  match prev_positions self !! finger_id with
  | None => (None, set_prev self finger_id finger_pos)
  | Some prev_pos =>
      let '(x, y, z) := finger_pos in
      let '(px, py, pz) := prev_pos in
      let dx := Float.sub x px in
      let dy := Float.sub y py in
      let dz := Float.sub z pz in
      let self := set_prev self finger_id finger_pos in
      let movement := sqrt (Float.add (Float.mul dx dx) (Float.mul dy dy)) in
      if Py.Qltb (slide_threshold self) movement then
        let angle := degrees_atan2 dy dx in
        (Some ("SLIDE", Some angle), self)
      else if Py.Qltb (tap_threshold self) (Qabs dz) then
        (Some ("TAP", None), self)
      else (None, self)
  end.

End Tracker.

Section Border.
Context `{Libm} `{OpenCV}.

(** A detected circle: integer centre and radius. *)
Definition circle : Type := (Z * Z) * Z.

(** The contour loop of [detect_machine_border], carrying
    [max_circle] and [max_radius]. *)
Fixpoint border_loop (contours : list Contour) (max_circle : option circle)
    (max_radius : Q) : option circle * Q :=
  match contours with
  | [] => (max_circle, max_radius)
  | contour :: rest =>
      let perimeter := arcLength contour in
      let area := contourArea contour in
      if Qeq_bool perimeter 0 then border_loop rest max_circle max_radius
      else
        let circularity := (4 * pi * area / (perimeter * perimeter))%Q in
        if Py.Qltb (8 # 10) circularity then
          let '((x, y), radius) := minEnclosingCircle contour in
          if Py.Qltb max_radius radius
          then border_loop rest (Some ((Py.int x, Py.int y), Py.int radius)) radius
          else border_loop rest max_circle max_radius
        else border_loop rest max_circle max_radius
  end.

(** [HandTracker.detect_machine_border], from the field
    [machine_circle] and the contours found in the thresholded
    foreground mask of the frame: the new value of the field, which is
    also what the method returns. *)
Definition detect_machine_border (machine_circle : option circle)
    (contours : list Contour) : option circle :=
  match fst (border_loop contours None 0) with
  | Some max_circle => Some max_circle
  | None => machine_circle
  end.

End Border.
End HandTracker.

(** ** vision/video_analyzer.py *)

Module VideoAnalyzer.
Import Config.
Section Analyzer.
Context `{Libm} `{OpenCV}.

Record VideoAnalyzer := mkAnalyzer {
  min_radius : Z;
  max_radius : Z;
  button_positions : gmap string (Z * Z);
  screen_center : option (Z * Z);
  screen_radius : option Z;
  mapping_mode : bool;
  manual_buttons : list (string * option (Z * Z));
  current_mapping_button : option string
}.

Definition webcam_short_side : Z :=
  Z.min (WEBCAM_SETTINGS !!! "WIDTH") (WEBCAM_SETTINGS !!! "HEIGHT").

(** [VideoAnalyzer.__init__], before [load_button_mapping] reads the
    mapping file. *)
Definition init : VideoAnalyzer :=
  mkAnalyzer (Py.int (inject_Z webcam_short_side * (3 # 10)))
             (Py.int (inject_Z webcam_short_side * (45 # 100)))
             ∅ None None false
             [("TOP", None); ("TOP_RIGHT", None); ("RIGHT", None); ("BOTTOM_RIGHT", None);
              ("BOTTOM", None); ("BOTTOM_LEFT", None); ("LEFT", None); ("TOP_LEFT", None)]
             None.

Definition set_screen (self : VideoAnalyzer) (c : Z * Z) (r : Z) : VideoAnalyzer :=
  mkAnalyzer (min_radius self) (max_radius self) (button_positions self)
             (Some c) (Some r) (mapping_mode self) (manual_buttons self)
             (current_mapping_button self).

(** [all(v is not None for v in self.manual_buttons.values())] *)
Definition all_mapped (self : VideoAnalyzer) : bool :=
  forallb (fun kv => match snd kv with Some _ => true | None => false end)
          (manual_buttons self).

(** [self.manual_buttons.values()], read once every value is a point *)
Definition button_points (self : VideoAnalyzer) : list (Z * Z) :=
  omap snd (manual_buttons self).

(** [sorted(contours, key=cv2.contourArea, reverse=True)]: a stable
    sort, largest area first. *)
Fixpoint insert_desc (c : Contour) (cs : list Contour) : list Contour :=
  match cs with
  | [] => [c]
  | d :: ds =>
      if Py.Qltb (contourArea d) (contourArea c) then c :: d :: ds
      else d :: insert_desc c ds
  end.

Definition sorted_desc (cs : list Contour) : list Contour :=
  fold_left (fun acc c => insert_desc c acc) cs [].

Definition circularity (c : Contour) : Q :=
  let area := contourArea c in
  let perimeter := arcLength c in
  if Py.Qltb 0 perimeter then (4 * pi * area / (perimeter * perimeter))%Q else 0%Q.

(** The test of the contour loop: circular enough and inside the
    radius band. *)
Definition qualifies (self : VideoAnalyzer) (c : Contour) : bool :=
  let implied := sqrt (contourArea c / pi)%Q in
  Py.Qltb (7 # 10) (circularity c)
  && (Py.Qltb (inject_Z (min_radius self)) implied
      && Py.Qltb implied (inject_Z (max_radius self))).

(** The contour loop: the first contour that qualifies sets the screen. *)
Fixpoint contour_loop (self : VideoAnalyzer) (cs : list Contour)
    : bool * VideoAnalyzer :=
  match cs with
  | [] => (false, self)
  | c :: rest =>
      if qualifies self c then
        let '((x, y), radius) := minEnclosingCircle c in
        (true, set_screen self (Py.int x, Py.int y) (Py.int radius))
      else contour_loop self rest
  end.

(** [VideoAnalyzer.detect_screen]; [frame] is [None] or a frame. *)
Definition detect_screen (self : VideoAnalyzer) (frame : option Frame)
    : bool * VideoAnalyzer :=
  match frame with
  | None => (false, self)
  | Some frame =>
      if all_mapped self then
        let pts := button_points self in
        let x_coords := map (fun p => inject_Z (fst p)) pts in
        let y_coords := map (fun p => inject_Z (snd p)) pts in
        let center_x := (Py.sum x_coords / Py.len x_coords)%Q in
        let center_y := (Py.sum y_coords / Py.len y_coords)%Q in
        let distances :=
          map (fun p => sqrt ((inject_Z (fst p) - center_x) * (inject_Z (fst p) - center_x)
                              + (inject_Z (snd p) - center_y) * (inject_Z (snd p) - center_y))%Q)
              pts in
        (true, set_screen self (Py.int center_x, Py.int center_y)
                          (Py.int (Py.sum distances / Py.len distances)))
      else
        match edge_contours frame with
        | [] => (false, self)
        | contours => contour_loop self (sorted_desc contours)
        end
  end.

End Analyzer.

(** *** Manual mapping and the mapping file *)

(** The document kept in the mapping file, in the form
    [save_button_mapping] writes it: the buttons in the order of the
    dictionary (each name once), and the screen when it is known. *)
Record MappingData := mkMapping {
  buttons : list (string * option (Z * Z));
  screen : option ((Z * Z) * Z)
}.

(** The mapping file: its document when the file exists, and whether
    it can be written. *)
Record MappingFile := mkFile {
  content : option MappingData;
  writable : bool
}.

(** [d[k] = v] on a dictionary kept in insertion order. *)
Fixpoint dict_set {V} (k : string) (v : V) (d : list (string * V)) : list (string * V) :=
  match d with
  | [] => [(k, v)]
  | (k', v') :: rest =>
      if String.eqb k' k then (k, v) :: rest else (k', v') :: dict_set k v rest
  end.

(** [keys.index(k)]: [None] stands for the ValueError. *)
Fixpoint list_index (k : string) (keys : list string) : option nat :=
  match keys with
  | [] => None
  | k' :: rest =>
      if String.eqb k' k then Some 0%nat
      else match list_index k rest with
           | Some i => Some (S i)
           | None => None
           end
  end.

Definition set_mapping (self : VideoAnalyzer) (mode : bool)
    (current : option string) : VideoAnalyzer :=
  mkAnalyzer (min_radius self) (max_radius self) (button_positions self)
             (screen_center self) (screen_radius self) mode (manual_buttons self)
             current.

Definition set_manual_buttons (self : VideoAnalyzer)
    (mb : list (string * option (Z * Z))) : VideoAnalyzer :=
  mkAnalyzer (min_radius self) (max_radius self) (button_positions self)
             (screen_center self) (screen_radius self) (mapping_mode self) mb
             (current_mapping_button self).

(** [VideoAnalyzer.save_button_mapping]: a failure to write is caught
    and leaves the file as it was. *)
Definition save_button_mapping (self : VideoAnalyzer) (file : MappingFile) : MappingFile :=
  let mapping_data :=
    mkMapping (manual_buttons self)
              (match screen_center self, screen_radius self with
               | Some c, Some r => if (r =? 0)%Z then None else Some (c, r)
               | _, _ => None
               end) in
  if writable file then mkFile (Some mapping_data) true else file.

(** [VideoAnalyzer.load_button_mapping] *)
Definition load_button_mapping (self : VideoAnalyzer) (file : MappingFile)
    : bool * VideoAnalyzer :=
  match content file with
  | None => (false, self)
  | Some mapping_data =>
      let mb :=
        fold_left (fun mb bp =>
                     match snd bp with
                     | Some pos => dict_set (fst bp) (Some pos) mb
                     | None => mb
                     end)
                  (buttons mapping_data) (manual_buttons self) in
      let self := set_manual_buttons self mb in
      let self :=
        match screen mapping_data with
        | Some (c, r) => set_screen self c r
        | None => self
        end in
      (true, self)
  end.

(** [VideoAnalyzer.start_mapping_mode]: the mode is switched on before
    the first key is taken. *)
Definition start_mapping_mode (self : VideoAnalyzer) : Py.result unit * VideoAnalyzer :=
  let self := set_mapping self true (current_mapping_button self) in
  match manual_buttons self with
  | [] => (Py.Raised, self)
  | (k, _) :: _ => (Py.Returned tt, set_mapping self true (Some k))
  end.

(** [VideoAnalyzer.stop_mapping_mode] *)
Definition stop_mapping_mode (self : VideoAnalyzer) (file : MappingFile)
    : VideoAnalyzer * MappingFile :=
  let self := set_mapping self false None in
  (self, save_button_mapping self file).

(** [VideoAnalyzer.handle_mapping_click] *)
Definition handle_mapping_click (self : VideoAnalyzer) (file : MappingFile) (x y : Z)
    : Py.result bool * VideoAnalyzer * MappingFile :=
  match mapping_mode self, current_mapping_button self with
  | true, Some current =>
      let self := set_manual_buttons self (dict_set current (Some (x, y)) (manual_buttons self)) in
      let button_keys := map fst (manual_buttons self) in
      match list_index current button_keys with
      | None => (Py.Raised, self, file)
      | Some current_index =>
          if (Z.of_nat current_index <? Z.of_nat (length button_keys) - 1)%Z then
            (Py.Returned true,
             set_mapping self (mapping_mode self)
                         (Some (nth (current_index + 1) button_keys "")),
             file)
          else
            let '(self, file) := stop_mapping_mode self file in
            (Py.Returned true, self, file)
      end
  | _, _ => (Py.Returned false, self, file)
  end.

(** *** Button detection and the analysis of a frame *)

(** The fields [button_min_area] and [button_max_area], set once in
    [__init__]. *)
Definition button_min_area : Q := 100.
Definition button_max_area : Q := 1000.

Definition set_button_positions (self : VideoAnalyzer)
    (positions : gmap string (Z * Z)) : VideoAnalyzer :=
  mkAnalyzer (min_radius self) (max_radius self) positions
             (screen_center self) (screen_radius self) (mapping_mode self)
             (manual_buttons self) (current_mapping_button self).

(** [self.screen_center and self.screen_radius] as a truth value:
    [None] and the radius 0 are false; a centre tuple is true. *)
Definition screen_known (self : VideoAnalyzer) : bool :=
  match screen_center self, screen_radius self with
  | Some _, Some r => negb (r =? 0)%Z
  | _, _ => false
  end.

(** The dictionary [analyze_frame] returns. *)
Record Results := mkResults {
  results_screen_center : option (Z * Z);
  results_screen_radius : option Z;
  results_button_positions : gmap string (Z * Z)
}.

Section Buttons.
Context `{Libm} `{OpenCV}.

(** the two thresholds combined, opened and closed, then
    findContours(RETR_EXTERNAL) *)
Variable button_contours : Frame -> list Contour.
(** [cv2.moments]: m00, m10 and m01 *)
Variable moments : Contour -> Q * Q * Q.

(** The loop of [detect_buttons] over [enumerate(contours)] from index
    [i] on; it writes [button_positions] only, and reads the screen
    centre and radius, which the guard of [detect_buttons] has found
    set.  The moments are floats and their quotients are rounded; the
    bounds of the ring are the binary64 products
    [0.7 * self.screen_radius] and [0.9 * self.screen_radius]. *)
Fixpoint button_loop (screen_center : Z * Z) (screen_radius : Z) (i : nat)
    (contours : list Contour) (button_positions : gmap string (Z * Z))
    : gmap string (Z * Z) :=
  match contours with
  | [] => button_positions
  | contour :: rest =>
      let area := contourArea contour in
      let button_positions :=
        if Py.Qltb button_min_area area && Py.Qltb area button_max_area then
          let '(m00, m10, m01) := moments contour in
          if negb (Qeq_bool m00 0) then
            let cx := Py.int (Float.div m10 m00) in
            let cy := Py.int (Float.div m01 m00) in
            let dx := (cx - fst screen_center)%Z in
            let dy := (cy - snd screen_center)%Z in
            let distance := sqrt (inject_Z (dx * dx + dy * dy)) in
            if Py.Qltb (Float.mul (Float.round (7 # 10)) (Float.of_int screen_radius))
                       distance
               && Py.Qltb distance
                          (Float.mul (Float.round (9 # 10)) (Float.of_int screen_radius))
            then <[("BUTTON_" ++ Py.str (Z.of_nat i))%string := (cx, cy)]> button_positions
            else button_positions
          else button_positions
        else button_positions in
      button_loop screen_center screen_radius (S i) rest button_positions
  end.

(** [VideoAnalyzer.detect_buttons] *)
Definition detect_buttons (self : VideoAnalyzer) (frame : Frame) : VideoAnalyzer :=
  match screen_center self, screen_radius self with
  | Some c, Some r =>
      if (r =? 0)%Z then self
      else set_button_positions self (button_loop c r 0 (button_contours frame) ∅)
  | _, _ => self
  end.

(** [VideoAnalyzer.analyze_frame]: the results (the frame it also
    returns, a copy with the drawings, is left out) and the analyzer
    after the call. *)
Definition analyze_frame (self : VideoAnalyzer) (frame : option Frame)
    : option Results * VideoAnalyzer :=
  match frame with
  | None => (None, self)
  | Some f =>
      let '(found, self) := detect_screen self (Some f) in
      if negb found && negb (all_mapped self) then (None, self)
      else
        let self := if screen_known self then detect_buttons self f else self in
        (Some (mkResults (screen_center self) (screen_radius self)
                         (button_positions self)),
         self)
  end.

End Buttons.

End VideoAnalyzer.

(** ** main.py *)

Module Trainer.
Import Config.

(** The table [sections] of [get_hit_section]. *)
Definition sections : list (string * Q * Q) :=
  [ ("TOP", 675 # 2, 45 # 2);
    ("TOP_RIGHT", 45 # 2, 135 # 2);
    ("RIGHT", 135 # 2, 225 # 2);
    ("BOTTOM_RIGHT", 225 # 2, 315 # 2);
    ("BOTTOM", 315 # 2, 405 # 2);
    ("BOTTOM_LEFT", 405 # 2, 495 # 2);
    ("LEFT", 495 # 2, 585 # 2);
    ("TOP_LEFT", 585 # 2, 675 # 2) ]%Q.

(** The loop of [get_hit_section] over the table: [Some name] when an
    iteration returns, [None] when the loop runs to its end.  The [if]
    has no [else] inside its first branch, so an iteration whose first
    test holds and whose inner test fails goes on to the next row; the
    [elif] is tried only when the first test fails. *)
Fixpoint section_loop (adjusted_angle : Q) (rows : list (string * Q * Q))
    : option string :=
  match rows with
  | [] => None
  | (section_name, start_angle, end_angle) :: rest =>
      if Qle_bool start_angle adjusted_angle || Py.Qltb adjusted_angle end_angle then
        if String.eqb section_name "TOP"
           && (Qle_bool (675 # 2) adjusted_angle || Py.Qltb adjusted_angle (45 # 2))
        then Some section_name
        else section_loop adjusted_angle rest
      else if Qle_bool start_angle adjusted_angle && Py.Qltb adjusted_angle end_angle
      then Some section_name
      else section_loop adjusted_angle rest
  end.

(** [MaiMaiTrainer.get_hit_section] *)
Definition get_hit_section (angle : Q) : string :=
  let adjusted_angle := Py.mod_ (angle - 90) 360 in
  match section_loop adjusted_angle sections with
  | Some section_name => section_name
  | None => "TOP"
  end.

(** The dictionary of [MaiMaiTrainer.region_to_angle]. *)
Definition region_angles : gmap string Z :=
  <["TOP" := 270%Z]> (<["TOP_RIGHT" := 315%Z]> (<["RIGHT" := 0%Z]>
  (<["BOTTOM_RIGHT" := 45%Z]> (<["BOTTOM" := 90%Z]> (<["BOTTOM_LEFT" := 135%Z]>
  (<["LEFT" := 180%Z]> (<["TOP_LEFT" := 225%Z]> ∅))))))).

(** [MaiMaiTrainer.region_to_angle]: [dict.get], [None] on other names. *)
Definition region_to_angle (region_name : string) : option Z :=
  region_angles !! region_name.

Section Game.
Context `{Libm} `{OpenCV}.

(** The state of a [MaiMaiTrainer] that the game logic reads and
    writes (display surfaces, fonts and the frame counters are left
    out). *)
Record MaiMaiTrainer := mkTrainer {
  note_manager : Notes.NoteManager;
  score_manager : Scoring.ScoreManager;
  video_analyzer : VideoAnalyzer.VideoAnalyzer;
  last_hit_time : Q;
  hit_cooldown : Q;
  min_movement_threshold : Q;
  last_finger_positions : gmap Z (Z * Z);
  center : Z * Z;
  hit_dots : list ((Z * Z) * Q * (Z * Z * Z));
  last_dot_time : Q;
  dot_cooldown : Q;
  hit_stats : gmap string Z
}.

(** [MaiMaiTrainer.__init__] at wall-clock time [now], around a video
    analyzer [va] that has read its mapping file. *)
Definition init (now : Q) (va : VideoAnalyzer.VideoAnalyzer) : MaiMaiTrainer :=
  mkTrainer (Notes.NoteManager_init now) Scoring.init va
            0 50 10 ∅ ((WINDOW_WIDTH / 4)%Z, (WINDOW_HEIGHT / 2)%Z) [] 0 100
            (<["TOP" := 0%Z]> (<["TOP_RIGHT" := 0%Z]> (<["RIGHT" := 0%Z]>
             (<["BOTTOM_RIGHT" := 0%Z]> (<["BOTTOM" := 0%Z]> (<["BOTTOM_LEFT" := 0%Z]>
             (<["LEFT" := 0%Z]> (<["TOP_LEFT" := 0%Z]> ∅)))))))).

Definition set_finger (self : MaiMaiTrainer) (finger_id : Z) (p : Z * Z) : MaiMaiTrainer :=
  mkTrainer (note_manager self) (score_manager self) (video_analyzer self)
            (last_hit_time self) (hit_cooldown self) (min_movement_threshold self)
            (<[finger_id := p]> (last_finger_positions self)) (center self)
            (hit_dots self) (last_dot_time self) (dot_cooldown self) (hit_stats self).

Definition set_last_hit_time (self : MaiMaiTrainer) (t : Q) : MaiMaiTrainer :=
  mkTrainer (note_manager self) (score_manager self) (video_analyzer self)
            t (hit_cooldown self) (min_movement_threshold self)
            (last_finger_positions self) (center self)
            (hit_dots self) (last_dot_time self) (dot_cooldown self) (hit_stats self).

(** [if section in self.hit_stats: self.hit_stats[section] += 1] *)
Definition count_section (self : MaiMaiTrainer) (section : string) : MaiMaiTrainer :=
  match hit_stats self !! section with
  | Some n =>
      mkTrainer (note_manager self) (score_manager self) (video_analyzer self)
                (last_hit_time self) (hit_cooldown self) (min_movement_threshold self)
                (last_finger_positions self) (center self)
                (hit_dots self) (last_dot_time self) (dot_cooldown self)
                (<[section := (n + 1)%Z]> (hit_stats self))
  | None => self
  end.

(** [MaiMaiTrainer.add_hit_dot] at wall-clock time [current_time] *)
Definition add_hit_dot (self : MaiMaiTrainer) (current_time angle : Q) : MaiMaiTrainer :=
  if Py.Qltb (current_time - last_dot_time self) (dot_cooldown self) then self
  else
    let x := (fst (center self) + Py.int (cos_deg angle * inject_Z CIRCLE_RADIUS))%Z in
    let y := (snd (center self) + Py.int (sin_deg angle * inject_Z CIRCLE_RADIUS))%Z in
    let section := get_hit_section angle in
    let self := count_section self section in
    let color := (0, 255, 255)%Z in
    mkTrainer (note_manager self) (score_manager self) (video_analyzer self)
              (last_hit_time self) (hit_cooldown self) (min_movement_threshold self)
              (last_finger_positions self) (center self)
              (hit_dots self ++ [((x, y), current_time, color)]) current_time
              (dot_cooldown self) (hit_stats self).

(** [not screen_center or not screen_radius]: [None] and the radius 0
    are false; a centre tuple is true. *)
Definition geometry (va : VideoAnalyzer.VideoAnalyzer) : option ((Z * Z) * Z) :=
  match VideoAnalyzer.screen_center va, VideoAnalyzer.screen_radius va with
  | Some c, Some r => if (r =? 0)%Z then None else Some (c, r)
  | _, _ => None
  end.

(** [MaiMaiTrainer.check_button_hit]; [current_time] is the clock read
    on entry and [dot_time] the clock read inside [add_hit_dot].  The
    finger and the screen are given in whole pixels, so the offsets and
    their squares are ints; the bounds of the ring are the binary64
    products [0.7 * screen_radius] and [0.9 * screen_radius]. *)
Definition check_button_hit (self : MaiMaiTrainer) (current_time dot_time : Q)
    (finger_x finger_y finger_id : Z) : bool * MaiMaiTrainer :=
  if Py.Qltb (current_time - last_hit_time self) (hit_cooldown self) then (false, self)
  else
    match last_finger_positions self !! finger_id with
    | None => (false, set_finger self finger_id (finger_x, finger_y))
    | Some last_pos =>
        let dx := (finger_x - fst last_pos)%Z in
        let dy := (finger_y - snd last_pos)%Z in
        let movement := sqrt (inject_Z (dx * dx + dy * dy)) in
        let self := set_finger self finger_id (finger_x, finger_y) in
        match geometry (video_analyzer self) with
        | None => (false, self)
        | Some (screen_center, screen_radius) =>
            let center_dx := (finger_x - fst screen_center)%Z in
            let center_dy := (finger_y - snd screen_center)%Z in
            let distance_from_center :=
              sqrt (inject_Z (center_dx * center_dx + center_dy * center_dy)) in
            if Py.Qltb (Float.mul (Float.round (7 # 10)) (Float.of_int screen_radius))
                       distance_from_center
               && Py.Qltb distance_from_center
                          (Float.mul (Float.round (9 # 10)) (Float.of_int screen_radius))
            then
              let angle :=
                Py.mod_ (degrees_atan2 (inject_Z center_dy) (inject_Z center_dx)) 360 in
              if Py.Qltb (min_movement_threshold self) movement then
                let self := add_hit_dot self dot_time angle in
                let self := set_last_hit_time self current_time in
                let section := get_hit_section angle in
                let self := count_section self section in
                (true, self)
              else (false, self)
            else (false, self)
        end
    end.

(** The call [self.note_manager.update()] as a step of the whole
    program state: the note manager holds no reference to the score
    manager, and the method touches only the notes and its own list. *)
Definition note_manager_update (st : Notes.Store) (self : MaiMaiTrainer)
    : Notes.Store * MaiMaiTrainer :=
  let '(st, nm) := Notes.update st (note_manager self) in
  (st, mkTrainer nm (score_manager self) (video_analyzer self)
                 (last_hit_time self) (hit_cooldown self) (min_movement_threshold self)
                 (last_finger_positions self) (center self)
                 (hit_dots self) (last_dot_time self) (dot_cooldown self) (hit_stats self)).

(** The field [dot_duration], set once in [__init__]. *)
Definition dot_duration : Q := 500.

(** [MaiMaiTrainer.update_hit_dots] at wall-clock time [current_time] *)
Definition update_hit_dots (self : MaiMaiTrainer) (current_time : Q) : MaiMaiTrainer :=
  mkTrainer (note_manager self) (score_manager self) (video_analyzer self)
            (last_hit_time self) (hit_cooldown self) (min_movement_threshold self)
            (last_finger_positions self) (center self)
            (List.filter (fun dot => Py.Qltb (current_time - snd (fst dot)) dot_duration)
                         (hit_dots self))
            (last_dot_time self) (dot_cooldown self) (hit_stats self).

End Game.
End Trainer.

(** ** utils/dev_mode.py *)

Module DevMode.

(** The state of a [DevModeHandler] that motion detection and note
    queueing read and write (the video source, the cached surfaces and
    the analyzer used for display are left out; [prev_frame] is passed
    to [detect_hand_motion] and returned by it). *)
Record DevModeHandler := mkDev {
  generated_notes : list (string * Q);
  note_cooldown : gmap string Q;
  cooldown_time : Q;
  center : Z * Z;
  min_motion_area : Q;
  max_motion_area : Q
}.

(** [DevModeHandler.__init__] *)
Definition init : DevModeHandler :=
  mkDev [] ∅ 500
        ((Config.WEBCAM_SETTINGS !!! "WIDTH" / 2)%Z, (Config.WEBCAM_SETTINGS !!! "HEIGHT" / 2)%Z)
        100 1000.

(** [DevModeHandler.get_generated_notes]: the queue, and the handler
    with the queue cleared. *)
Definition get_generated_notes (self : DevModeHandler)
    : list (string * Q) * DevModeHandler :=
  (generated_notes self,
   mkDev [] (note_cooldown self) (cooldown_time self) (center self)
         (min_motion_area self) (max_motion_area self)).

(** The key of the cooldown table for an angle: its 45-degree sector. *)
Definition angle_key (angle : Q) : string :=
  "motion_" ++ Py.str (Py.int (angle / 45) * 45).

(** One iteration of the loop of [handle_keyboard_input] over the
    motion hits, at wall-clock time [current_time]. *)
Definition queue_hit (self : DevModeHandler) (current_time : Q) (hit : string * Q)
    : DevModeHandler :=
  let '(hit_type, angle) := hit in
  let key := angle_key angle in
  if match note_cooldown self !! key with
     | None => true
     | Some t => Py.Qltb (cooldown_time self) (current_time - t)
     end
  then mkDev (generated_notes self ++ [(hit_type, angle)])
             (<[key := current_time]> (note_cooldown self))
             (cooldown_time self) (center self)
             (min_motion_area self) (max_motion_area self)
  else self.

(** The loop of [handle_keyboard_input] over [motion_hits]. *)
Definition queue_motion_hits (self : DevModeHandler) (current_time : Q)
    (motion_hits : list (string * Q)) : DevModeHandler :=
  fold_left (fun self hit => queue_hit self current_time hit) motion_hits self.

Section Motion.
Context `{Libm} `{OpenCV}.

(** [cv2.cvtColor(frame, COLOR_BGR2GRAY)] *)
Variable gray : Frame -> Frame.
(** absdiff of two gray frames, threshold, open and close, then
    findContours(RETR_EXTERNAL) *)
Variable motion_contours : Frame -> Frame -> list Contour.
(** [cv2.moments]: m00, m10 and m01 *)
Variable moments : Contour -> Q * Q * Q.

(** The loop of [detect_hand_motion] over the contours. *)
Fixpoint motion_loop (self : DevModeHandler) (contours : list Contour)
    : list (string * Q) :=
  match contours with
  | [] => []
  | contour :: rest =>
      let area := contourArea contour in
      if Py.Qltb (min_motion_area self) area && Py.Qltb area (max_motion_area self) then
        let '(m00, m10, m01) := moments contour in
        if negb (Qeq_bool m00 0) then
          let cx := Py.int (m10 / m00) in
          let cy := Py.int (m01 / m00) in
          let angle :=
            Py.mod_ (degrees_atan2 (inject_Z (cy - snd (center self)))
                                   (inject_Z (cx - fst (center self)))) 360 in
          ("TAP", angle) :: motion_loop self rest
        else motion_loop self rest
      else motion_loop self rest
  end.

(** [DevModeHandler.detect_hand_motion]: the motion regions, and the
    new [prev_frame]. *)
Definition detect_hand_motion (self : DevModeHandler) (prev_frame : option Frame)
    (frame : Frame) : list (string * Q) * option Frame :=
  match prev_frame with
  | None => ([], Some (gray frame))
  | Some prev =>
      let g := gray frame in
      (motion_loop self (motion_contours prev g), Some g)
  end.

End Motion.

End DevMode.

(** * Part II: vocabulary of the properties *)

Module Spec.

(** The tier a timing falls in, read off the cascade of [add_hit]. *)
Inductive tier := PERFECT | GREAT | GOOD | MISS.

Definition tier_of (t : Q) : tier :=
  if Qle_bool t 50 then PERFECT
  else if Qle_bool t 100 then GREAT
  else if Qle_bool t 150 then GOOD
  else MISS.

(** A call that scores: a hit inside the GOOD window. *)
Definition scores (c : Scoring.call) : bool :=
  match c with
  | Scoring.AddHit t => Qle_bool t 150
  | Scoring.AddMiss => false
  end.

(** The number of scoring calls at the head of a sequence, and at its
    end. *)
Fixpoint leading_hits (cs : list Scoring.call) : Z :=
  match cs with
  | c :: rest => if scores c then (1 + leading_hits rest)%Z else 0%Z
  | [] => 0%Z
  end.

Definition trailing_hits (cs : list Scoring.call) : Z := leading_hits (rev cs).

(** The shorter arc between two angles, in degrees. *)
Definition arc_distance (a b : Q) : Q :=
  Qmin (Qabs (a - b)) (360 - Qabs (a - b)).

(** A note survives a tick when its radius after [Note.update] is not
    below zero. *)
Definition survives (st : Notes.Store) (l : nat) : bool :=
  negb (Py.Qltb (Notes.radius (Notes.Note_update (Notes.cell st l))) 0).

(** Well-formed note lists: [add_note] appends a fresh reference, and
    [update] and [check_hits] only remove references, so the note list
    never repeats one. *)
Definition well_formed (st : Notes.Store) (self : Notes.NoteManager) : Prop :=
  List.NoDup (Notes.notes self)
  /\ forall l, In l (Notes.notes self) -> (l < Notes.next st)%nat.

(** What holds of every note in the list of a reachable state. *)
Definition live (st : Notes.Store) (self : Notes.NoteManager) : Prop :=
  forall l, In l (Notes.notes self) ->
    Notes.active (Notes.cell st l) = true
    /\ (0 <= Notes.radius (Notes.cell st l))%Q
    /\ (Notes.radius (Notes.cell st l) <= inject_Z Config.CIRCLE_RADIUS * (3 # 2))%Q.

(** [n] ticks of the note engine. *)
Definition ticks (n : nat) (s : Notes.Store * Notes.NoteManager)
    : Notes.Store * Notes.NoteManager :=
  Nat.iter n (fun s => Notes.update (fst s) (snd s)) s.

(** A call made on the note manager. *)
Inductive note_call :=
| Spawn (note_type : string) (angle now : Q)
| Tick
| Resolve (gestures : list string) (positions : list (Q * Q)).

Section NoteCalls.
Context `{Libm}.

Definition note_step (s : Notes.Store * Notes.NoteManager) (c : note_call)
    : Notes.Store * Notes.NoteManager :=
  match c with
  | Spawn note_type angle now => Notes.add_note (fst s) (snd s) note_type angle now
  | Tick => Notes.update (fst s) (snd s)
  | Resolve gestures positions =>
      (fst s, snd (Notes.check_hits (fst s) (snd s) gestures positions))
  end.

(** The state after a sequence of calls on a new note manager. *)
Definition note_run (now : Q) (cs : list note_call) : Notes.Store * Notes.NoteManager :=
  fold_left note_step cs (Notes.empty_store, Notes.NoteManager_init now).

End NoteCalls.

(** A call made on a coordinate mapper, and the mapper after a
    sequence of calls (a call that raises leaves it as it was). *)
Inductive mapper_call :=
| AddPoint (webcam_point screen_point : Q * Q)
| Calculate.

Section MapperCalls.
Context `{OpenCV}.

Definition mapper_step (self : CoordinateMapper.CoordinateMapper) (c : mapper_call)
    : CoordinateMapper.CoordinateMapper :=
  match c with
  | AddPoint w p => CoordinateMapper.add_calibration_point self w p
  | Calculate => snd (CoordinateMapper.calculate_transformation self)
  end.

Definition mapper_run (self : CoordinateMapper.CoordinateMapper) (cs : list mapper_call)
    : CoordinateMapper.CoordinateMapper :=
  fold_left mapper_step cs self.

Definition is_add (c : mapper_call) : bool :=
  match c with AddPoint _ _ => true | Calculate => false end.

End MapperCalls.

(** The clicks of a mapping session, one after the other; a click that
    raises ends the session there. *)
Fixpoint click_all (self : VideoAnalyzer.VideoAnalyzer) (file : VideoAnalyzer.MappingFile)
    (clicks : list (Z * Z))
    : list (Py.result bool) * VideoAnalyzer.VideoAnalyzer * VideoAnalyzer.MappingFile :=
  match clicks with
  | [] => ([], self, file)
  | (x, y) :: rest =>
      match VideoAnalyzer.handle_mapping_click self file x y with
      | (Py.Raised, self, file) => ([Py.Raised], self, file)
      | (r, self, file) =>
          let '(rs, self, file) := click_all self file rest in
          (r :: rs, self, file)
      end
  end.

(** A dictionary of buttons with every button unbound. *)
Definition unbound (d : list (string * option (Z * Z))) : list (string * option (Z * Z)) :=
  map (fun kv => (fst kv, None)) d.

Section Distance.
Context `{Libm}.

(** The planar distance of a finger from a point. *)
Definition distance (x y : Z) (p : Z * Z) : Q :=
  sqrt (inject_Z ((x - fst p) * (x - fst p) + (y - snd p) * (y - snd p))).

End Distance.

(** The bounds of the ring in which a finger hits and a button lies,
    for a screen of radius [r]: the products [0.7 * r] and [0.9 * r]
    of binary64, with 0.7 and 0.9 the binary64 numbers that the
    literals denote.  The inner bound lies below 7 r / 10 for some
    radii (62.99999999999999 for 90) and is 7 r / 10 for others
    (7 for 10, 140 for 200). *)
Definition ring_inner (r : Z) : Q := Float.mul (Float.round (7 # 10)) (Float.of_int r).
Definition ring_outer (r : Z) : Q := Float.mul (Float.round (9 # 10)) (Float.of_int r).

(** The 45-degree sector of an angle, as the cooldown table numbers
    it. *)
Definition sector_start (angle : Q) : Z := (Py.int (angle / 45) * 45)%Z.

Section Border.
Context `{Libm} `{OpenCV}.

(** A contour that [detect_machine_border] may pick: a closed outline,
    circular above 0.8, with an enclosing circle of positive radius. *)
Definition border_candidate (c : Contour) : Prop :=
  ~ (arcLength c == 0)%Q
  /\ (8 # 10 < 4 * pi * contourArea c / (arcLength c * arcLength c))%Q
  /\ (0 < snd (minEnclosingCircle c))%Q.

(** The test the loop makes before it compares radii. *)
Definition circular (c : Contour) : bool :=
  negb (Qeq_bool (arcLength c) 0)
  && Py.Qltb (8 # 10) (4 * pi * contourArea c / (arcLength c * arcLength c))%Q.

(** Largest area first. *)
Definition area_desc (a b : Contour) : Prop := (contourArea b <= contourArea a)%Q.

(** The circle stored for a contour. *)
Definition circle_of (c : Contour) : HandTracker.circle :=
  ((Py.int (fst (fst (minEnclosingCircle c))), Py.int (snd (fst (minEnclosingCircle c)))),
   Py.int (snd (minEnclosingCircle c))).

End Border.

(** A motion region whose centre is a pair of numbers. *)
Definition pair_center (region : NoteGenerator.region_center * string) : bool :=
  match fst region with
  | NoteGenerator.Sequence [_; _] => true
  | _ => false
  end.

(** The name [detect_buttons] gives the contour at index [i]. *)
Definition button_name (i : nat) : string := ("BUTTON_" ++ Py.str (Z.of_nat i))%string.

Section Buttons.
Context `{Libm} `{OpenCV}.
Variable moments : Contour -> Q * Q * Q.

(** The centre of mass of a contour, in whole pixels: the quotients of
    the moments as binary64 gives them, cut to ints. *)
Definition centroid (contour : Contour) : option (Z * Z) :=
  let '(m00, m10, m01) := moments contour in
  if Qeq_bool m00 0 then None
  else Some (Py.int (Float.div m10 m00), Py.int (Float.div m01 m00)).

(** A contour that counts as a button at [pos] on the screen with
    centre [c] and radius [r]: between 100 and 1000 in area, with its
    centre of mass [pos] in the ring of [r]. *)
Definition button_contour (c : Z * Z) (r : Z) (contour : Contour) (pos : Z * Z) : Prop :=
  (100 < contourArea contour)%Q /\ (contourArea contour < 1000)%Q
  /\ centroid contour = Some pos
  /\ (ring_inner r < distance (fst pos) (snd pos) c)%Q
  /\ (distance (fst pos) (snd pos) c < ring_outer r)%Q.

End Buttons.

Section Detection.
Context `{Libm} `{OpenCV}.

(** Detection fails on a frame: there is no frame, or the manual
    mapping is incomplete and no contour of the frame is circular
    enough with its implied radius inside the band. *)
Definition detection_fails (self : VideoAnalyzer.VideoAnalyzer)
    (frame : option Frame) : Prop :=
  match frame with
  | None => True
  | Some f =>
      VideoAnalyzer.all_mapped self = false
      /\ forall c, In c (edge_contours f) ->
           ~ (7 # 10 < VideoAnalyzer.circularity c
              /\ inject_Z (VideoAnalyzer.min_radius self) < sqrt (contourArea c / pi)
              /\ sqrt (contourArea c / pi) < inject_Z (VideoAnalyzer.max_radius self))%Q
  end.

End Detection.

End Spec.

(** ** Stand-ins for the external libraries and states, to run examples *)

Module Examples.


(** [math] restricted to what has an exact value: the angle of a
    direction along an axis or a diagonal, the square root of a square
    integer, sine and cosine of multiples of 90 degrees.  Elsewhere the
    operations return a nearby rational (0 for an angle). *)
Definition atan2_axes (y x : Q) : Q :=
  match Qcompare x 0, Qcompare y 0 with
  | Eq, Gt => 90
  | Eq, Lt => -90
  | Gt, Eq => 0
  | Lt, Eq => 180
  | Gt, Gt => if Qeq_bool x y then 45 else 0
  | Lt, Gt => if Qeq_bool (- x) y then 135 else 0
  | Gt, Lt => if Qeq_bool x (- y) then -45 else 0
  | Lt, Lt => if Qeq_bool x y then -135 else 0
  | Eq, Eq => 0
  end%Q.

Definition cos_quarters (a : Q) : Q :=
  if Qeq_bool (Py.mod_ a 360) 0 then 1
  else if Qeq_bool (Py.mod_ a 360) 180 then -1 else 0.

Definition sin_quarters (a : Q) : Q :=
  if Qeq_bool (Py.mod_ a 360) 90 then 1
  else if Qeq_bool (Py.mod_ a 360) 270 then -1 else 0.

Definition libm : Libm :=
  {| degrees_atan2 := atan2_axes;
     sqrt := fun q => inject_Z (Z.sqrt (Qfloor q));
     cos_deg := cos_quarters;
     sin_deg := sin_quarters;
     pi := 355 # 113 |}.

(** A contour as the three measurements the code takes of it. *)
Record contour := mkContour {
  area : Q;
  perimeter : Q;
  enclosing_circle : (Q * Q) * Q
}.

(** OpenCV on frames given by their edge contours.  A perspective
    transform is kept as the four point pairs that determine it;
    [getPerspectiveTransform] takes four source and four destination
    points and rejects any other number. *)
Definition opencv : OpenCV :=
  {| Frame := list contour;
     Contour := contour;
     Matrix := list (Q * Q) * list (Q * Q);
     edge_contours := fun frame => frame;
     contourArea := area;
     arcLength := perimeter;
     minEnclosingCircle := enclosing_circle;
     getPerspectiveTransform := fun src dst =>
       if (length src =? 4)%nat && (length dst =? 4)%nat
       then Some (src, dst) else None |}.

(** Two notes spawned at angle 90, after 20 ticks: both at radius 300. *)
Definition two_notes : Notes.Store * Notes.NoteManager :=
  let '(st, nm) := Notes.add_note Notes.empty_store (Notes.NoteManager_init 0) "TAP" 90 0 in
  let '(st, nm) := Notes.add_note st nm "TAP" 90 0 in
  Nat.iter 20 (fun s => Notes.update (fst s) (snd s)) (st, nm).

(** One note spawned at angle 90 and radius 450, after [n] ticks. *)
Definition one_note_after (n : nat) : Notes.Store * Notes.NoteManager :=
  Nat.iter n (fun s => Notes.update (fst s) (snd s))
           (Notes.add_note Notes.empty_store (Notes.NoteManager_init 0) "TAP" 90 0).

(** A trainer whose note manager is [nm]. *)
Definition trainer_with (nm : Notes.NoteManager) : Trainer.MaiMaiTrainer :=
  let t := Trainer.init 0 VideoAnalyzer.init in
  Trainer.mkTrainer nm (Trainer.score_manager t) (Trainer.video_analyzer t)
    (Trainer.last_hit_time t) (Trainer.hit_cooldown t) (Trainer.min_movement_threshold t)
    (Trainer.last_finger_positions t) (Trainer.center t) (Trainer.hit_dots t)
    (Trainer.last_dot_time t) (Trainer.dot_cooldown t) (Trainer.hit_stats t).

(** Five calibration pairs, the corners and the centre of a square. *)
Definition five_pairs : @CoordinateMapper.CoordinateMapper opencv :=
  let add := @CoordinateMapper.add_calibration_point opencv in
  add (add (add (add (add (@CoordinateMapper.init opencv)
    (0, 0)%Q (0, 0)%Q) (10, 0)%Q (20, 0)%Q) (10, 10)%Q (20, 20)%Q)
    (0, 10)%Q (0, 20)%Q) (5, 5)%Q (10, 10)%Q.

(** An analyzer whose geometry was set by an earlier detection. *)
Definition calibrated_analyzer : VideoAnalyzer.VideoAnalyzer :=
  VideoAnalyzer.set_screen VideoAnalyzer.init (320, 240)%Z 200.

(** A trainer that knows the screen (centre (320, 240), radius 200)
    and has seen finger 8 at (460, 240). *)
Definition tracked_trainer : Trainer.MaiMaiTrainer :=
  Trainer.set_finger (Trainer.init 0 calibrated_analyzer) 8 (460, 240)%Z.

(** The moments of a contour whose mass sits at the centre of its
    enclosing circle. *)
Definition moments (c : contour) : Q * Q * Q :=
  let '((x, y), _) := enclosing_circle c in (area c, area c * x, area c * y)%Q.

(** A frame with one blob of area 400 at (480, 240). *)
Definition one_button_frame : list contour :=
  [mkContour 400 80 ((480, 240), 12)%Q].

(** A frame whose only contour is a 10 by 10 square: circular enough
    (0.78) but far too small. *)
Definition small_square_frame : list contour :=
  [mkContour 100 40 ((5, 5), 8)%Q].

End Examples.

(** * Part III: properties *)

(** ** Python arithmetic *)

Module PyFacts.

Lemma Qltb_lt a b : Py.Qltb a b = true <-> (a < b)%Q.
Proof.
  unfold Py.Qltb. rewrite negb_true_iff. split.
  - intros Hb. apply Qnot_le_lt. intros Hle.
    apply Qle_bool_iff in Hle. congruence.
  - intros Hlt. destruct (Qle_bool b a) eqn:E; [|reflexivity].
    apply Qle_bool_iff in E. exfalso. exact (Qlt_not_le _ _ Hlt E).
Qed.

Lemma Qltb_ge a b : Py.Qltb a b = false <-> (b <= a)%Q.
Proof. unfold Py.Qltb. rewrite negb_false_iff. apply Qle_bool_iff. Qed.

Lemma Qleb_gt a b : Qle_bool a b = false <-> (b < a)%Q.
Proof.
  rewrite <- Qltb_lt. unfold Py.Qltb.
  destruct (Qle_bool a b); simpl; intuition congruence.
Qed.

Lemma remove_not_in x xs : ~ In x xs -> Py.remove x xs = xs.
Proof.
  induction xs as [|y ys IH]; simpl; [reflexivity|].
  intros Hn. destruct (Nat.eqb_spec y x) as [->|Hne].
  - exfalso. apply Hn. now left.
  - f_equal. apply IH. intros Hin. apply Hn. now right.
Qed.

Lemma remove_app_head x pre post :
  ~ In x pre -> Py.remove x (pre ++ x :: post) = pre ++ post.
Proof.
  induction pre as [|y ys IH]; simpl; intros Hn.
  - now rewrite Nat.eqb_refl.
  - destruct (Nat.eqb_spec y x) as [->|Hne].
    + exfalso. apply Hn. now left.
    + f_equal. apply IH. intros Hin. apply Hn. now right.
Qed.

End PyFacts.

(** ** Scoring *)

(** ** Binary64 rounding *)

Module FloatFacts.

Lemma pow2_pos (e : Z) : (0 < Float.pow2 e)%Q.
Proof. apply Qpower_0_lt. reflexivity. Qed.

Lemma pow2_inv (E : Z) : (0 <= E)%Z -> (Float.pow2 (- E) * inject_Z (2 ^ E) == 1)%Q.
Proof.
  intros HE. unfold Float.pow2. rewrite Zpower_Qpower by assumption.
  change (inject_Z 2) with 2%Q. rewrite <- Qpower_plus by discriminate.
  replace (- E + E)%Z with 0%Z by lia. reflexivity.
Qed.

Lemma rint_le (x : Q) (K : Z) : (x <= inject_Z K)%Q -> (Float.rint x <= K)%Z.
Proof.
  intros Hx. unfold Float.rint.
  assert (Hf : (Qfloor x <= K)%Z).
  { rewrite <- (Qfloor_Z K). now apply Qfloor_resp_le. }
  assert (Hhalf : (1 # 2 <= x - inject_Z (Qfloor x))%Q -> (Qfloor x + 1 <= K)%Z).
  { intros Hh. destruct (Z.eq_dec (Qfloor x) K) as [Heq|Hne]; [|lia].
    exfalso. rewrite Heq in Hh. lra. }
  destruct (Qcompare (x - inject_Z (Qfloor x)) (1 # 2)) eqn:E.
  - apply Qeq_alt in E. destruct (Z.even (Qfloor x)); [exact Hf|].
    apply Hhalf. rewrite E. apply Qle_refl.
  - exact Hf.
  - apply Qgt_alt in E. apply Hhalf. now apply Qlt_le_weak.
Qed.

Lemma rint_nonneg (x : Q) : (0 <= x)%Q -> (0 <= Float.rint x)%Z.
Proof.
  intros Hx. unfold Float.rint.
  assert (Hf : (0 <= Qfloor x)%Z).
  { change 0%Z with (Qfloor (inject_Z 0)). now apply Qfloor_resp_le. }
  destruct (Qcompare _ _); [destruct (Z.even _)| |]; lia.
Qed.

Lemma ilog2_le (q : Q) (k : Z) :
  (0 < q)%Q -> (q <= inject_Z k)%Q -> (Float.ilog2 q <= Z.log2 k + 1)%Z.
Proof.
  intros Hq Hk. destruct q as [n d]. unfold Float.ilog2. cbn [Qnum Qden].
  assert (Hn : (0 < n)%Z).
  { unfold Qlt in Hq. cbn in Hq. lia. }
  assert (Hnk : (n <= k * Z.pos d)%Z).
  { unfold Qle in Hk. cbn in Hk. lia. }
  assert (Hk0 : (0 <= k)%Z) by nia.
  pose proof (Z.log2_le_mono _ _ Hnk) as Hmono.
  pose proof (Z.log2_mul_above k (Z.pos d) Hk0 (Pos2Z.is_nonneg d)) as Habove.
  destruct (Qle_bool _ _); lia.
Qed.

(** Rounding a positive number does not cross a whole number below
    2^52. *)
Lemma round_pos_le (q : Q) (k : Z) :
  (0 < q)%Q -> (q <= inject_Z k)%Q -> (Z.log2 k <= 51)%Z ->
  (0 <= Float.round_pos q /\ Float.round_pos q <= inject_Z k)%Q.
Proof.
  intros Hq Hk Hlog. unfold Float.round_pos.
  pose proof (ilog2_le q k Hq Hk) as Hil.
  set (e := Z.max (Float.ilog2 q - 52) (-1074)).
  assert (He : (e <= 0)%Z) by (subst e; lia).
  pose proof (pow2_pos e) as Hp.
  pose proof (pow2_inv (- e) ltac:(lia)) as Hinv.
  rewrite Z.opp_involutive in Hinv.
  set (E := (2 ^ (- e))%Z) in *.
  assert (HE : (0 < inject_Z E)%Q).
  { change 0%Q with (inject_Z 0). rewrite <- Zlt_Qlt. subst E. apply Z.pow_pos_nonneg; lia. }
  set (p := Float.pow2 e) in *.
  assert (Hip : (/ p == inject_Z E)%Q).
  { transitivity (/ p * (p * inject_Z E))%Q; [rewrite Hinv; ring|].
    field. intros H0. rewrite H0 in Hp. discriminate Hp. }
  assert (Hx : (q / p == q * inject_Z E)%Q).
  { unfold Qdiv. now rewrite Hip. }
  split.
  - apply Qmult_le_0_compat; [|lra].
    change 0%Q with (inject_Z 0). rewrite <- Zle_Qle. apply rint_nonneg.
    rewrite Hx. apply Qmult_le_0_compat; lra.
  - assert (Hr : (Float.rint (q / p) <= k * E)%Z).
    { apply rint_le. rewrite Hx, inject_Z_mult. apply Qmult_le_compat_r; lra. }
    rewrite Zle_Qle, inject_Z_mult in Hr.
    apply (Qmult_le_compat_r _ _ p) in Hr; [|lra].
    apply (Qle_trans _ _ _ Hr).
    rewrite <- Qmult_assoc, (Qmult_comm (inject_Z E)), Hinv, Qmult_1_r. apply Qle_refl.
Qed.

Lemma round_le (q : Q) (k : Z) :
  (0 < q)%Q -> (q <= inject_Z k)%Q -> (Z.log2 k <= 51)%Z ->
  (0 <= Float.round q /\ Float.round q <= inject_Z k)%Q.
Proof.
  intros Hq Hk Hlog. unfold Float.round.
  destruct (Qcompare q 0) eqn:E.
  - apply Qeq_alt in E. lra.
  - apply Qlt_alt in E. lra.
  - now apply round_pos_le.
Qed.

End FloatFacts.

Module ScoringFacts.
Import Config Scoring Spec.

Lemma window_PERFECT : window "PERFECT" = 50%Q.
Proof. reflexivity. Qed.

Lemma window_GREAT : window "GREAT" = 100%Q.
Proof. reflexivity. Qed.

Lemma window_GOOD : window "GOOD" = 150%Q.
Proof. reflexivity. Qed.

Lemma tier_of_spec t :
  match tier_of t with
  | PERFECT => (t <= 50)%Q
  | GREAT => (50 < t /\ t <= 100)%Q
  | GOOD => (100 < t /\ t <= 150)%Q
  | MISS => (150 < t)%Q
  end.
Proof.
  unfold tier_of.
  destruct (Qle_bool t 50) eqn:E1; [now apply Qle_bool_iff|].
  apply PyFacts.Qleb_gt in E1.
  destruct (Qle_bool t 100) eqn:E2; [split; [assumption|now apply Qle_bool_iff]|].
  apply PyFacts.Qleb_gt in E2.
  destruct (Qle_bool t 150) eqn:E3; [split; [assumption|now apply Qle_bool_iff]|].
  now apply PyFacts.Qleb_gt in E3.
Qed.

Lemma add_hit_by_tier s t :
  add_hit s t =
  match tier_of t with
  | PERFECT => mkScore (score s + 100) (combo s + 1) (Z.max (max_combo s) (combo s + 1))
                       (perfects s + 1) (greats s) (goods s) (misses s)
  | GREAT => mkScore (score s + 80) (combo s + 1) (Z.max (max_combo s) (combo s + 1))
                     (perfects s) (greats s + 1) (goods s) (misses s)
  | GOOD => mkScore (score s + 50) (combo s + 1) (Z.max (max_combo s) (combo s + 1))
                    (perfects s) (greats s) (goods s + 1) (misses s)
  | MISS => mkScore (score s) 0 (Z.max (max_combo s) 0)
                    (perfects s) (greats s) (goods s) (misses s + 1)
  end.
Proof.
  unfold add_hit, tier_of.
  rewrite window_PERFECT, window_GREAT, window_GOOD.
  destruct (Qle_bool t 50); [reflexivity|].
  destruct (Qle_bool t 100); [reflexivity|].
  destruct (Qle_bool t 150); reflexivity.
Qed.

Ltac by_tier t :=
  let Ht := fresh "Ht" in
  pose proof (tier_of_spec t) as Ht; destruct (tier_of t); simpl in *.

(** C4. [add_hit t] awards +100 and a perfect when [t <= 50], else +80
    and a great when [t <= 100], else +50 and a good when [t <= 150],
    else no points, a miss and a combo reset; exactly one tier applies,
    the first whose threshold holds, and the combo grows by one on every
    tier but the last. *)
Theorem add_hit_tiers (s : ScoreManager) (t : Q) :
  ((t <= 50)%Q ->
     add_hit s t = mkScore (score s + 100) (combo s + 1) (Z.max (max_combo s) (combo s + 1))
                           (perfects s + 1) (greats s) (goods s) (misses s))
  /\ ((50 < t)%Q -> (t <= 100)%Q ->
     add_hit s t = mkScore (score s + 80) (combo s + 1) (Z.max (max_combo s) (combo s + 1))
                           (perfects s) (greats s + 1) (goods s) (misses s))
  /\ ((100 < t)%Q -> (t <= 150)%Q ->
     add_hit s t = mkScore (score s + 50) (combo s + 1) (Z.max (max_combo s) (combo s + 1))
                           (perfects s) (greats s) (goods s + 1) (misses s))
  /\ ((150 < t)%Q ->
     add_hit s t = mkScore (score s) 0 (Z.max (max_combo s) 0)
                           (perfects s) (greats s) (goods s) (misses s + 1)).
Proof.
  rewrite add_hit_by_tier.
  by_tier t; repeat split; intros; try reflexivity; exfalso; lra.
Qed.

(** The four tiers of C4 on a fresh score manager: timings 40, 80, 120
    and 300. *)
Lemma add_hit_tiers_witness :
  add_hit init 40 = mkScore 100 1 1 1 0 0 0
  /\ add_hit init 80 = mkScore 80 1 1 0 1 0 0
  /\ add_hit init 120 = mkScore 50 1 1 0 0 1 0
  /\ add_hit init 300 = mkScore 0 0 0 0 0 0 1.
Proof.
  split; [|split; [|split]].
  - apply (proj1 (add_hit_tiers init 40)). vm_compute. discriminate.
  - apply (proj1 (proj2 (add_hit_tiers init 80))); vm_compute; congruence.
  - apply (proj1 (proj2 (proj2 (add_hit_tiers init 120)))); vm_compute; congruence.
  - apply (proj2 (proj2 (proj2 (add_hit_tiers init 300)))). vm_compute. reflexivity.
Defined.

Lemma run_app s cs more : run s (cs ++ more) = run (run s cs) more.
Proof. unfold run. apply fold_left_app. Qed.

Lemma step_max_combo s c : (max_combo s <= max_combo (step s c))%Z.
Proof.
  destruct c as [t|]; cbn [step]; [|simpl; lia].
  rewrite add_hit_by_tier. destruct (tier_of t); simpl; lia.
Qed.

Lemma run_max_combo s cs : (max_combo s <= max_combo (run s cs))%Z.
Proof.
  revert s. induction cs as [|c cs IH]; intros s; simpl; [lia|].
  etransitivity; [apply (step_max_combo s c)|apply IH].
Qed.

(** C5. After any sequence of [add_hit] and [add_miss] calls from the
    initial state: [max_combo] never decreases over further calls; a
    miss leaves [combo] at 0; so does every hit outside the windows
    that [add_hit] tests, PERFECT, GREAT and GOOD, that is every hit
    with a timing above 150, whether or not it is within the entry
    BAD = 200 of the table, which the code does not read; a hit outside
    every entry of the table is one of them; a hit with a timing of at
    most 150 adds 1 to [combo]; and after [add_hit], [max_combo] is the
    maximum of its previous value and the new combo. *)
Theorem max_combo_running_maximum (cs : list call) :
  let s := run init cs in
  (forall more, (max_combo s <= max_combo (run init (cs ++ more)))%Z)
  /\ combo (add_miss s) = 0%Z
  /\ (forall t, (window "GOOD" < t)%Q -> combo (add_hit s t) = 0%Z)
  /\ (forall t, (forall k w, TIMING_WINDOWS !! k = Some w -> (inject_Z w < t)%Q) ->
                combo (add_hit s t) = 0%Z)
  /\ (forall t, (t <= window "GOOD")%Q -> combo (add_hit s t) = (combo s + 1)%Z)
  /\ (window "PERFECT" == 50 /\ window "GREAT" == 100 /\ window "GOOD" == 150)%Q
  /\ (forall t, max_combo (add_hit s t) = Z.max (max_combo s) (combo (add_hit s t))).
Proof.
  intros s.
  assert (Hout : forall t, (150 < t)%Q -> combo (add_hit s t) = 0%Z).
  { intros t Hgood. rewrite add_hit_by_tier. by_tier t; try reflexivity; exfalso; lra. }
  split; [|split; [|split; [|split; [|split; [|split]]]]].
  - intros more. rewrite run_app. apply run_max_combo.
  - reflexivity.
  - intros t Hgood. apply Hout. exact Hgood.
  - intros t Hall. apply Hout. apply (Hall "GOOD" 150%Z). reflexivity.
  - intros t Hin. change (window "GOOD") with 150%Q in Hin.
    rewrite add_hit_by_tier. by_tier t; try reflexivity; exfalso; lra.
  - now split; [|split].
  - intros t. rewrite add_hit_by_tier. destruct (tier_of t); reflexivity.
Qed.

Lemma step_score s c :
  In (score (step s c) - score s)%Z [0; 50; 80; 100]%Z.
Proof.
  destruct c as [t|]; cbn [step].
  - rewrite add_hit_by_tier. destruct (tier_of t); simpl.
    + right; right; right; left. lia.
    + right; right; left. lia.
    + right; left. lia.
    + left. lia.
  - simpl. left. lia.
Qed.

Lemma step_score_le s c : (score s <= score (step s c))%Z.
Proof.
  pose proof (step_score s c) as Hin. simpl in Hin.
  destruct Hin as [E|[E|[E|[E|[]]]]]; lia.
Qed.

Lemma run_score_le s cs : (score s <= score (run s cs))%Z.
Proof.
  revert s. induction cs as [|c cs IH]; intros s; simpl; [lia|].
  etransitivity; [apply (step_score_le s c)|apply IH].
Qed.

(** C10. After any sequence of calls from the initial state the score
    is non-negative and does not decrease over further calls; [add_hit]
    adds exactly 0, 50, 80 or 100 and [add_miss] adds nothing. *)
Theorem score_nonnegative_monotone (cs : list call) :
  let s := run init cs in
  (0 <= score s)%Z
  /\ (forall more, (score s <= score (run init (cs ++ more)))%Z)
  /\ (forall t, In (score (add_hit s t) - score s)%Z [0; 50; 80; 100]%Z)
  /\ score (add_miss s) = score s.
Proof.
  intros s. split; [|split; [|split]].
  - apply (run_score_le init cs).
  - intros more. rewrite run_app. apply run_score_le.
  - intros t. apply (step_score s (AddHit t)).
  - reflexivity.
Qed.

End ScoringFacts.

(** ** Sector classification and the sector-angle tables *)

Module SectionFacts.
Import Trainer.

(** The second test of an iteration is tried only when the first one
    fails, and it implies the first one. *)
Lemma elif_unreachable (start_angle end_angle adjusted_angle : Q) :
  Qle_bool start_angle adjusted_angle || Py.Qltb adjusted_angle end_angle = false ->
  Qle_bool start_angle adjusted_angle && Py.Qltb adjusted_angle end_angle = false.
Proof.
  destruct (Qle_bool start_angle adjusted_angle); simpl; [discriminate|reflexivity].
Qed.

(** Whatever the table, an iteration returns only the name ["TOP"]. *)
Lemma section_loop_returns_TOP adjusted_angle rows name :
  section_loop adjusted_angle rows = Some name -> name = "TOP".
Proof.
  induction rows as [|[[section_name start_angle] end_angle] rest IH]; simpl.
  - discriminate.
  - destruct (Qle_bool start_angle adjusted_angle || Py.Qltb adjusted_angle end_angle) eqn:E1.
    + destruct (String.eqb section_name "TOP") eqn:E2; simpl.
      * apply String.eqb_eq in E2. subst section_name.
        destruct (Qle_bool (675 # 2) adjusted_angle || Py.Qltb adjusted_angle (45 # 2));
          [intros [= <-]; reflexivity | exact IH].
      * exact IH.
    + rewrite (elif_unreachable _ _ _ E1). exact IH.
Qed.

(** C1. [get_hit_section] answers ["TOP"] for every angle: the rows of
    the seven other sectors are never returned.  At angle 135 the
    adjusted angle 45 lies in the row of ["TOP_RIGHT"], and the answer
    is ["TOP"]. *)
Theorem get_hit_section_always_TOP :
  (forall angle : Q, get_hit_section angle = "TOP")
  /\ In ("TOP_RIGHT", 45 # 2, 135 # 2)%Q sections
  /\ (45 # 2 <= Py.mod_ (135 - 90) 360)%Q
  /\ (Py.mod_ (135 - 90) 360 < 135 # 2)%Q
  /\ get_hit_section 135 = "TOP".
Proof.
  assert (Hall : forall angle : Q, get_hit_section angle = "TOP").
  { intros angle. unfold get_hit_section.
    destruct (section_loop _ sections) as [name|] eqn:E; [|reflexivity].
    exact (section_loop_returns_TOP _ _ _ E). }
  split; [exact Hall|]. split; [|split; [|split]].
  - simpl. tauto.
  - vm_compute. discriminate.
  - vm_compute. reflexivity.
  - apply Hall.
Qed.

(** C9. The spawn-angle tables and the hit classifier disagree: for the
    sector ["RIGHT"], the classifier applied to the sector's spawn angle
    (in either table) does not give the sector back.  The disagreement
    is already in the tables: the spawn angle 270 of ["TOP"] in
    [region_to_angle] falls in the classifier's row of ["BOTTOM"], the
    spawn angle 45 of ["TOP_RIGHT"] in [NoteGenerator.region_angles]
    falls in the row of ["TOP_LEFT"], and the two spawn tables give
    ["TOP"] different angles. *)
Theorem sector_tables_inconsistent :
  (exists S a, region_to_angle S = Some a /\ get_hit_section (inject_Z a) <> S)
  /\ (exists S a, NoteGenerator.region_angles !! S = Some a
                  /\ get_hit_section (inject_Z a) <> S)
  /\ (exists S a name start_angle end_angle,
        region_to_angle S = Some a
        /\ In (name, start_angle, end_angle) sections
        /\ (start_angle <= Py.mod_ (inject_Z a - 90) 360)%Q
        /\ (Py.mod_ (inject_Z a - 90) 360 < end_angle)%Q
        /\ name <> S)
  /\ (exists S a name start_angle end_angle,
        NoteGenerator.region_angles !! S = Some a
        /\ In (name, start_angle, end_angle) sections
        /\ (start_angle <= Py.mod_ (inject_Z a - 90) 360)%Q
        /\ (Py.mod_ (inject_Z a - 90) 360 < end_angle)%Q
        /\ name <> S)
  /\ region_to_angle "TOP" <> NoteGenerator.region_angles !! "TOP".
Proof.
  split; [|split; [|split; [|split]]].
  - exists "RIGHT", 0%Z. split; [reflexivity|]. vm_compute. discriminate.
  - exists "RIGHT", 0%Z. split; [reflexivity|]. vm_compute. discriminate.
  - exists "TOP", 270%Z, "BOTTOM", (315 # 2)%Q, (405 # 2)%Q.
    split; [reflexivity|]. split; [simpl; tauto|].
    split; [vm_compute; discriminate|]. split; [vm_compute; reflexivity|discriminate].
  - exists "TOP_RIGHT", 45%Z, "TOP_LEFT", (585 # 2)%Q, (675 # 2)%Q.
    split; [reflexivity|]. split; [simpl; tauto|].
    split; [vm_compute; discriminate|]. split; [vm_compute; reflexivity|discriminate].
  - vm_compute. discriminate.
Qed.

End SectionFacts.

(** ** Notes: hit resolution and the tick *)

Module NotesFacts.
Import Config Notes Spec.

Lemma count_occ_filter_split (p : nat -> bool) (l : list nat) (x : nat) :
  (count_occ Nat.eq_dec (List.filter p l) x
   + count_occ Nat.eq_dec (List.filter (fun y => negb (p y)) l) x
   = count_occ Nat.eq_dec l x)%nat.
Proof.
  induction l as [|y ys IH]; simpl; [reflexivity|].
  destruct (p y); simpl; destruct (Nat.eq_dec y x); lia.
Qed.

Lemma filter_snoc {A} (p : A -> bool) (l : list A) (x : A) :
  List.filter p (l ++ [x]) = List.filter p l ++ (if p x then [x] else []).
Proof.
  induction l as [|y ys IH]; simpl; [destruct (p x); reflexivity|].
  rewrite IH. destruct (p y); reflexivity.
Qed.

Section CheckHitsFacts.
Context `{Libm}.

(** The angular test of the inner loop is the shorter-arc distance. *)
Lemma angle_diff_arc_distance (d : Q) :
  Py.Qltb (if Py.Qltb 180 d then (360 - d)%Q else d) 60 = true
  <-> (Qmin d (360 - d) < 60)%Q.
Proof.
  rewrite Q.min_lt_iff.
  destruct (Py.Qltb 180 d) eqn:E; rewrite PyFacts.Qltb_lt.
  - apply PyFacts.Qltb_lt in E. split; [tauto|]. intros [Hd|Hd]; lra.
  - apply PyFacts.Qltb_ge in E. split; [tauto|]. intros [Hd|Hd]; lra.
Qed.

Lemma in_hit_window_spec (note : Note) (pos : Q * Q) :
  in_hit_window note pos = true
  <-> (arc_distance (hit_angle_of pos) (angle note) < 60
       /\ (6 # 10) * inject_Z CIRCLE_RADIUS < radius note
       /\ radius note < (14 # 10) * inject_Z CIRCLE_RADIUS)%Q.
Proof.
  unfold in_hit_window, arc_distance.
  rewrite !andb_true_iff, angle_diff_arc_distance, !PyFacts.Qltb_lt.
  unfold CIRCLE_RADIUS. split; intros (Ha & Hlo & Hhi); repeat split; try assumption; lra.
Qed.

Lemma gesture_loop_spec {G} (note : Note) (zipped : list (G * (Q * Q))) :
  gesture_loop note zipped = true
  <-> exists g pos, In (g, pos) zipped /\ in_hit_window note pos = true.
Proof.
  induction zipped as [|[g pos] rest IH]; simpl.
  - split; [discriminate|]. intros (? & ? & [] & _).
  - destruct (in_hit_window note pos) eqn:E.
    + split; [|reflexivity]. intros _. exists g, pos. split; [now left|assumption].
    + rewrite IH. split.
      * intros (g' & pos' & Hin & Hw). exists g', pos'. split; [now right|assumption].
      * intros (g' & pos' & [Heq|Hin] & Hw).
        -- injection Heq as -> ->. congruence.
        -- exists g', pos'. split; assumption.
Qed.

(** The outer loop, with the list it removes from split into the notes
    already kept and the notes still to visit. *)
Lemma check_hits_loop_filter {G} st (zipped : list (G * (Q * Q))) copy :
  let m := fun l => gesture_loop (cell st l) zipped in
  forall kept hits,
    (forall l, In l kept -> m l = false) ->
    check_hits_loop st zipped copy hits (kept ++ copy)
    = (hits ++ List.filter m copy,
       kept ++ List.filter (fun l => negb (m l)) copy).
Proof.
  intros m.
  induction copy as [|note rest IH]; intros kept hits Hkept; simpl.
  - now rewrite !app_nil_r.
  - fold (m note). destruct (m note) eqn:E; simpl.
    + rewrite PyFacts.remove_app_head.
      * rewrite (IH kept (hits ++ [note]) Hkept). now rewrite <- app_assoc.
      * intros Hin. apply Hkept in Hin. congruence.
    + replace (kept ++ note :: rest) with ((kept ++ [note]) ++ rest)
        by now rewrite <- app_assoc.
      rewrite IH.
      * now rewrite <- app_assoc.
      * intros l [Hin|[<-|[]]]%in_app_or; [now apply Hkept|assumption].
Qed.

Lemma check_hits_filter {G} st self (gestures : list G) positions :
  let m := fun l => gesture_loop (cell st l) (combine gestures positions) in
  check_hits st self gestures positions
  = (List.filter m (notes self),
     set_notes self (List.filter (fun l => negb (m l)) (notes self))).
Proof.
  intros m. unfold check_hits.
  pose proof (check_hits_loop_filter st (combine gestures positions) (notes self) [] [])
    as Hloop.
  simpl in Hloop. rewrite Hloop; [reflexivity|]. intros l [].
Qed.

End CheckHitsFacts.

Lemma store_set_same st l n : cell (store_set st l n) l = n.
Proof. simpl. now rewrite Nat.eqb_refl. Qed.

Lemma store_set_other st l n k : k <> l -> cell (store_set st l n) k = cell st k.
Proof. intros Hne. simpl. now apply Nat.eqb_neq in Hne as ->. Qed.

(** The loop of [update] over a copy without repeated references. *)
Lemma update_loop_spec copy :
  List.NoDup copy ->
  forall st kept,
    (forall l, In l kept -> ~ In l copy) ->
    snd (update_loop copy st (kept ++ copy)) = kept ++ List.filter (survives st) copy
    /\ next (fst (update_loop copy st (kept ++ copy))) = next st
    /\ (forall l, In l copy ->
          cell (fst (update_loop copy st (kept ++ copy))) l = Note_update (cell st l))
    /\ (forall l, ~ In l copy ->
          cell (fst (update_loop copy st (kept ++ copy))) l = cell st l).
Proof.
  induction 1 as [|note rest Hnotin Hnodup IH]; intros st kept Hkept.
  - simpl. rewrite app_nil_r.
    split; [reflexivity|split; [reflexivity|split; [intros l []|reflexivity]]].
  - cbn [update_loop].
    set (st1 := store_set st note (Note_update (cell st note))).
    assert (Hsame : cell st1 note = Note_update (cell st note))
      by apply store_set_same.
    assert (Hother : forall l, l <> note -> cell st1 l = cell st l)
      by (intros l Hl; now apply store_set_other).
    assert (Hfilter : List.filter (survives st1) rest = List.filter (survives st) rest).
    { apply filter_ext_in. intros l Hl. unfold survives. rewrite Hother; [reflexivity|].
      intros ->. contradiction. }
    assert (Hcells : forall ns l,
      (In l (note :: rest) ->
         (forall k, In k rest -> cell (fst (update_loop rest st1 ns)) k = Note_update (cell st1 k)) ->
         (forall k, ~ In k rest -> cell (fst (update_loop rest st1 ns)) k = cell st1 k) ->
         cell (fst (update_loop rest st1 ns)) l = Note_update (cell st l))
      /\ (~ In l (note :: rest) ->
         (forall k, ~ In k rest -> cell (fst (update_loop rest st1 ns)) k = cell st1 k) ->
         cell (fst (update_loop rest st1 ns)) l = cell st l)).
    { intros ns l. split.
      - intros [<-|Hl] Hin Hout.
        + rewrite (Hout note Hnotin). exact Hsame.
        + rewrite (Hin l Hl). rewrite Hother; [reflexivity|]. intros ->. contradiction.
      - intros Hl Hout. rewrite Hout.
        + apply Hother. intros ->. apply Hl. now left.
        + intros Hr. apply Hl. now right. }
    rewrite Hsame. simpl List.filter. unfold survives at 1.
    destruct (Py.Qltb (radius (Note_update (cell st note))) 0) eqn:E; simpl negb; cbv iota.
    + rewrite PyFacts.remove_app_head.
      2:{ intros Hin. apply (Hkept note Hin). now left. }
      destruct (IH st1 kept) as (Hns & Hnext & Hin & Hout).
      { intros l Hl Hr. apply (Hkept l Hl). now right. }
      rewrite Hns, Hfilter, Hnext. repeat split.
      * intros l Hl. now apply (Hcells (kept ++ rest) l).
      * intros l Hl. now apply (Hcells (kept ++ rest) l).
    + replace (kept ++ note :: rest) with ((kept ++ [note]) ++ rest)
        by now rewrite <- app_assoc.
      destruct (IH st1 (kept ++ [note])) as (Hns & Hnext & Hin & Hout).
      { intros l [Hl|[<-|[]]]%in_app_or Hr; [|contradiction].
        apply (Hkept l Hl). now right. }
      rewrite Hns, Hfilter, Hnext, <- app_assoc. repeat split.
      * intros l Hl. now apply (Hcells ((kept ++ [note]) ++ rest) l).
      * intros l Hl. now apply (Hcells ((kept ++ [note]) ++ rest) l).
Qed.

Lemma update_spec st self :
  List.NoDup (notes self) ->
  notes (snd (update st self)) = List.filter (survives st) (notes self)
  /\ next (fst (update st self)) = next st
  /\ (forall l, In l (notes self) ->
        cell (fst (update st self)) l = Note_update (cell st l))
  /\ (forall l, ~ In l (notes self) -> cell (fst (update st self)) l = cell st l).
Proof.
  intros Hnodup.
  destruct (update_loop_spec (notes self) Hnodup st []) as (Hns & Hnext & Hin & Hout).
  { intros l []. }
  simpl app in *. unfold update.
  destruct (update_loop (notes self) st (notes self)) as [st' ns]. simpl in *.
  subst ns. repeat split; assumption.
Qed.

Lemma NoDup_filter_list (p : nat -> bool) (l : list nat) :
  List.NoDup l -> List.NoDup (List.filter p l).
Proof.
  induction 1 as [|x xs Hx Hxs IH]; simpl; [constructor|].
  destruct (p x); [|assumption].
  constructor; [|assumption]. intros Hin. apply filter_In in Hin. tauto.
Qed.

Lemma well_formed_init now : well_formed empty_store (NoteManager_init now).
Proof. split; [constructor|intros l []]. Qed.

Lemma well_formed_add_note st self note_type angle now :
  well_formed st self ->
  well_formed (fst (add_note st self note_type angle now))
              (snd (add_note st self note_type angle now)).
Proof.
  intros [Hnodup Hbound]. unfold add_note, alloc. simpl. split.
  - apply NoDup_rev in Hnodup. rewrite <- (rev_involutive (notes self ++ [next st])).
    apply NoDup_rev. rewrite rev_app_distr. simpl. constructor; [|assumption].
    intros Hin. apply in_rev in Hin. apply Hbound in Hin. lia.
  - intros l [Hl|[<-|[]]]%in_app_or; [apply Hbound in Hl|]; cbn [next]; lia.
Qed.

Lemma well_formed_update st self :
  well_formed st self ->
  well_formed (fst (update st self)) (snd (update st self)).
Proof.
  intros [Hnodup Hbound].
  destruct (update_spec st self Hnodup) as (Hns & Hnext & _ & _).
  split; rewrite Hns.
  - now apply NoDup_filter_list.
  - intros l [Hl _]%filter_In. rewrite Hnext. now apply Hbound.
Qed.

Section HitResolution.
Context `{Libm}.

Lemma well_formed_check_hits {G} st self (gestures : list G) positions :
  well_formed st self ->
  well_formed st (snd (check_hits st self gestures positions)).
Proof.
  intros [Hnodup Hbound]. rewrite check_hits_filter. simpl. split.
  - now apply NoDup_filter_list.
  - intros l [Hl _]%filter_In. now apply Hbound.
Qed.

(** C2 (amended). In a call of [check_hits], an active note is returned
    as hit exactly when, for some gesture position, the shorter-arc
    distance between the hit angle and the note's angle is below 60 and
    the note's radius lies strictly between 0.6 and 1.4 times the
    play-field radius; every note returned is removed from the active
    list and every other note stays; a note is consumed at most once,
    each reference of the list ending either among the hits or in the
    list that remains.  (One hit event may consume several notes.) *)
Theorem check_hits_consumes_matching_notes {G} st self (gestures : list G) positions :
  let hits := fst (check_hits st self gestures positions) in
  let self' := snd (check_hits st self gestures positions) in
  (forall l, In l (notes self) ->
     (In l hits <->
      exists g pos, In (g, pos) (combine gestures positions)
        /\ (arc_distance (hit_angle_of pos) (angle (cell st l)) < 60
            /\ (6 # 10) * inject_Z CIRCLE_RADIUS < radius (cell st l)
            /\ radius (cell st l) < (14 # 10) * inject_Z CIRCLE_RADIUS)%Q))
  /\ (forall l, In l hits -> In l (notes self) /\ ~ In l (notes self'))
  /\ (forall l, In l (notes self) -> ~ In l hits -> In l (notes self'))
  /\ (forall l, (count_occ Nat.eq_dec hits l + count_occ Nat.eq_dec (notes self') l
                 = count_occ Nat.eq_dec (notes self) l)%nat).
Proof.
  intros hits self'. subst hits self'. rewrite check_hits_filter. simpl.
  set (m := fun l => gesture_loop (cell st l) (combine gestures positions)).
  split; [|split; [|split]].
  - intros l Hl. rewrite filter_In. unfold m. rewrite gesture_loop_spec. split.
    + intros (_ & g & pos & Hin & Hw). exists g, pos. split; [assumption|].
      now apply in_hit_window_spec.
    + intros (g & pos & Hin & Hw). split; [assumption|]. exists g, pos.
      split; [assumption|]. now apply in_hit_window_spec.
  - intros l [Hl Hm]%filter_In. split; [assumption|].
    intros [_ Hn]%filter_In. change (negb (m l) = true) in Hn.
    rewrite Hm in Hn. discriminate.
  - intros l Hl Hn. apply filter_In. split; [assumption|].
    change (negb (m l) = true).
    destruct (m l) eqn:E; [|reflexivity]. exfalso. apply Hn. now apply filter_In.
  - intros l. apply count_occ_filter_split.
Qed.

End HitResolution.

(** C2 on the notes of [Examples.two_notes] (angle 90, radius 300),
    with the stand-in [math] of the examples: a gesture at (300, 400),
    hit angle 90, consumes note 0; a gesture at (200, 300), hit angle
    180 and so 90 degrees away, does not. *)
Lemma check_hits_consumes_matching_notes_witness :
  In 0%nat (fst (@check_hits Examples.libm string (fst Examples.two_notes)
                   (snd Examples.two_notes) ["TAP"] [(300, 400)%Q]))
  /\ ~ In 0%nat (fst (@check_hits Examples.libm string (fst Examples.two_notes)
                        (snd Examples.two_notes) ["TAP"] [(200, 300)%Q])).
Proof.
  assert (Hactive : In 0%nat (notes (snd Examples.two_notes))).
  { vm_compute. left. reflexivity. }
  split.
  - apply (proj1 (@check_hits_consumes_matching_notes Examples.libm string
                    (fst Examples.two_notes) (snd Examples.two_notes)
                    ["TAP"] [(300, 400)%Q]) 0%nat Hactive).
    exists "TAP", (300, 400)%Q. split; [left; reflexivity|]. vm_compute. repeat split.
  - intros Hhit.
    destruct (proj1 (proj1 (@check_hits_consumes_matching_notes Examples.libm string
                              (fst Examples.two_notes) (snd Examples.two_notes)
                              ["TAP"] [(200, 300)%Q]) 0%nat Hactive) Hhit)
      as (g & pos & [Heq|[]] & Harc & _).
    injection Heq as <- <-. vm_compute in Harc. discriminate Harc.
Defined.

(** C2, as stated, fails: with one gesture at the position (300, 400),
    straight below the centre (300, 300) of the play field and so at hit
    angle 90, a single hit event consumes both notes of [Examples.two_notes]. *)
Lemma one_hit_event_consumes_two_notes :
  notes (snd Examples.two_notes) = [0; 1]%nat
  /\ length (combine ["TAP"] [(300, 400)%Q]) = 1%nat
  /\ forall L : Libm,
       @degrees_atan2 L 100 0 = 90%Q ->
       fst (check_hits (fst Examples.two_notes) (snd Examples.two_notes) ["TAP"] [(300, 400)%Q])
       = [0; 1]%nat
       /\ notes (snd (check_hits (fst Examples.two_notes) (snd Examples.two_notes) ["TAP"] [(300, 400)%Q]))
          = [].
Proof.
  split; [reflexivity|]. split; [reflexivity|]. intros L Hatan.
  assert (Hangle : hit_angle_of (300, 400)%Q = 90%Q).
  { unfold hit_angle_of. cbn [fst snd].
    change (400 - inject_Z (WINDOW_HEIGHT / 2))%Q with 100%Q.
    change (300 - inject_Z (WINDOW_WIDTH / 4))%Q with 0%Q.
    rewrite Hatan. reflexivity. }
  assert (Hwin : forall l, In l [0; 1]%nat ->
            in_hit_window (cell (fst Examples.two_notes) l) (300, 400)%Q = true).
  { intros l Hl. apply in_hit_window_spec. rewrite Hangle.
    destruct Hl as [<-|[<-|[]]]; vm_compute; repeat split. }
  rewrite check_hits_filter. cbn [fst snd notes set_notes].
  change (notes (snd Examples.two_notes)) with [0; 1]%nat.
  cbn [combine gesture_loop List.filter].
  rewrite !Hwin by (simpl; tauto). split; reflexivity.
Qed.

(** C3 (amended). On a note list without repeated references, a tick
    of [NoteManager.update] lowers the radius of every active note by
    [NOTE_SPEED]; a note whose radius is then below 0 is inactive and
    removed from the list, every other note stays; a later [check_hits]
    never returns a removed note; and the tick leaves the score manager
    as it was (no miss is reported by [update]). *)
Theorem update_moves_and_retires_notes st self :
  List.NoDup (notes self) ->
  let st' := fst (update st self) in
  let self' := snd (update st self) in
  (forall l, In l (notes self) -> active (cell st l) = true ->
     radius (cell st' l) = (radius (cell st l) - NOTE_SPEED)%Q)
  /\ (forall l, In l (notes self) -> (radius (cell st' l) < 0)%Q ->
       active (cell st' l) = false /\ ~ In l (notes self'))
  /\ (forall l, In l (notes self) -> ~ (radius (cell st' l) < 0)%Q ->
       In l (notes self'))
  /\ (forall (L : Libm) G (gestures : list G) positions l,
       In l (notes self) -> ~ In l (notes self') ->
       ~ In l (fst (check_hits st' self' gestures positions)))
  /\ (forall t, Trainer.note_manager t = self ->
       Trainer.score_manager (snd (Trainer.note_manager_update st t))
       = Trainer.score_manager t).
Proof.
  intros Hnodup st' self'.
  destruct (update_spec st self Hnodup) as (Hns & _ & Hin & _).
  fold st' in Hin. fold self' in Hns.
  split; [|split; [|split; [|split]]].
  - intros l Hl Hact. rewrite (Hin l Hl). unfold Note_update. now rewrite Hact.
  - intros l Hl Hneg. split.
    + rewrite (Hin l Hl) in *. unfold Note_update in *.
      destruct (active (cell st l)) eqn:Hact; [|assumption]. simpl in *.
      apply PyFacts.Qltb_lt in Hneg. now rewrite Hneg.
    + rewrite Hns. intros [_ Hs]%filter_In. unfold survives in Hs.
      rewrite <- (Hin l Hl) in Hs. apply PyFacts.Qltb_lt in Hneg.
      rewrite Hneg in Hs. discriminate.
  - intros l Hl Hge. rewrite Hns. apply filter_In. split; [assumption|].
    unfold survives. rewrite <- (Hin l Hl).
    destruct (Py.Qltb (radius (cell st' l)) 0) eqn:E; [|reflexivity].
    apply PyFacts.Qltb_lt in E. contradiction.
  - intros L G gestures positions l _ Hgone Hhit.
    apply Hgone. rewrite check_hits_filter in Hhit. simpl in Hhit.
    now apply filter_In in Hhit.
  - intros t Ht. unfold Trainer.note_manager_update.
    destruct (update st (Trainer.note_manager t)). reflexivity.
Qed.

(** C3 on the note of [Examples.one_note_after 60], at radius 0: the tick takes
    it to radius -7.5 and removes it. *)
Lemma update_moves_and_retires_notes_witness :
  List.NoDup (notes (snd (Examples.one_note_after 60)))
  /\ (forall l, In l (notes (snd (Examples.one_note_after 60))) ->
        active (cell (fst (Examples.one_note_after 60)) l) = true ->
        radius (cell (fst (update (fst (Examples.one_note_after 60)) (snd (Examples.one_note_after 60)))) l)
        = (radius (cell (fst (Examples.one_note_after 60)) l) - NOTE_SPEED)%Q).
Proof.
  assert (Hnodup : List.NoDup (notes (snd (Examples.one_note_after 60)))).
  { vm_compute. constructor; [intros []|constructor]. }
  split; [exact Hnodup|].
  exact (proj1 (update_moves_and_retires_notes
                  (fst (Examples.one_note_after 60)) (snd (Examples.one_note_after 60)) Hnodup)).
Defined.

(** C3, as stated, fails: the tick that takes the note of
    [Examples.one_note_after 60] below radius 0 removes it from the list and
    reports nothing; the score manager still counts no miss. *)
Lemma update_reports_no_miss :
  notes (snd (Examples.one_note_after 60)) = [0%nat]
  /\ (radius (cell (fst (Examples.one_note_after 60)) 0) == 0)%Q
  /\ notes (Trainer.note_manager
              (snd (Trainer.note_manager_update (fst (Examples.one_note_after 60))
                      (Examples.trainer_with (snd (Examples.one_note_after 60)))))) = []
  /\ (radius (cell (fst (Trainer.note_manager_update (fst (Examples.one_note_after 60))
                          (Examples.trainer_with (snd (Examples.one_note_after 60))))) 0) < 0)%Q
  /\ Scoring.misses
       (Trainer.score_manager
          (snd (Trainer.note_manager_update (fst (Examples.one_note_after 60))
                  (Examples.trainer_with (snd (Examples.one_note_after 60)))))) = 0%Z
  /\ Trainer.score_manager
       (snd (Trainer.note_manager_update (fst (Examples.one_note_after 60))
               (Examples.trainer_with (snd (Examples.one_note_after 60)))))
     <> Scoring.add_miss (Trainer.score_manager (Examples.trainer_with (snd (Examples.one_note_after 60)))).
Proof.
  repeat split; try (vm_compute; reflexivity). vm_compute. discriminate.
Qed.

End NotesFacts.


(** ** Gesture detection *)

Module HandTrackerFacts.
Import HandTracker.

Section TrackerFacts.
Context `{Libm}.

(** [detect_gesture] records the observed position under the finger
    id, leaves the other ids and the thresholds alone. *)
Lemma detect_gesture_records self finger_pos finger_id :
  prev_positions (snd (detect_gesture self finger_pos finger_id))
  = <[finger_id := finger_pos]> (prev_positions self)
  /\ slide_threshold (snd (detect_gesture self finger_pos finger_id)) = slide_threshold self
  /\ tap_threshold (snd (detect_gesture self finger_pos finger_id)) = tap_threshold self.
Proof.
  unfold detect_gesture.
  destruct (prev_positions self !! finger_id) as [[[px py] pz]|]; [|now simpl].
  destruct finger_pos as [[x y] z].
  cbv zeta. cbn [slide_threshold tap_threshold set_prev].
  destruct (Py.Qltb (slide_threshold self) _); [now simpl|].
  destruct (Py.Qltb (tap_threshold self) _); now simpl.
Qed.

(** C8. With the thresholds of a new tracker, 30 and 0.1 (the
    binary64 number 3602879701896397 / 2^55 that the literal denotes):
    the first observation of a finger id yields no gesture and records
    the position; a later observation is compared with the position
    recorded last, the differences dx, dy, dz and the sum of the
    squares being those of binary64, and yields SLIDE with direction
    atan2(dy, dx) in degrees when the planar displacement exceeds 30,
    otherwise TAP when |dz| exceeds 0.1, otherwise no gesture; every
    observation becomes the recorded position. *)
Theorem detect_gesture_classifies (prev : gmap string (Q * Q * Q))
    (finger_id : string) (x y z : Q) :
  let tap := Float.round (1 # 10) in
  let self := mkTracker prev 30 tap in
  slide_threshold init = 30%Q
  /\ tap_threshold init = tap
  /\ (tap == 3602879701896397 # 36028797018963968)%Q
  /\ prev_positions init !! finger_id = None
  /\ (prev !! finger_id = None ->
      detect_gesture self (x, y, z) finger_id
      = (None, mkTracker (<[finger_id := (x, y, z)]> prev) 30 tap))
  /\ (forall px py pz,
        prev !! finger_id = Some (px, py, pz) ->
        let dx := Float.sub x px in
        let dy := Float.sub y py in
        let dz := Float.sub z pz in
        let movement := sqrt (Float.add (Float.mul dx dx) (Float.mul dy dy)) in
        snd (detect_gesture self (x, y, z) finger_id)
        = mkTracker (<[finger_id := (x, y, z)]> prev) 30 tap
        /\ ((30 < movement)%Q ->
            fst (detect_gesture self (x, y, z) finger_id)
            = Some ("SLIDE", Some (degrees_atan2 dy dx)))
        /\ (~ (30 < movement)%Q -> (tap < Qabs dz)%Q ->
            fst (detect_gesture self (x, y, z) finger_id) = Some ("TAP", None))
        /\ (~ (30 < movement)%Q -> ~ (tap < Qabs dz)%Q ->
            fst (detect_gesture self (x, y, z) finger_id) = None))
  /\ prev_positions (snd (detect_gesture self (x, y, z) finger_id)) !! finger_id
     = Some (x, y, z).
Proof.
  intros tap self.
  split; [reflexivity|]. split; [reflexivity|].
  split; [vm_compute; reflexivity|]. split; [apply lookup_empty|].
  split; [|split].
  - intros Hfirst. unfold detect_gesture. cbn [prev_positions self].
    now rewrite Hfirst.
  - intros px py pz Hprev dx dy dz movement. unfold detect_gesture.
    cbn [prev_positions self]. rewrite Hprev.
    cbv zeta. cbn [slide_threshold tap_threshold set_prev prev_positions self].
    fold dx dy dz. fold movement.
    destruct (Py.Qltb 30 movement) eqn:Eslide.
    + apply PyFacts.Qltb_lt in Eslide.
      split; [reflexivity|]. split; [reflexivity|].
      split; intros; contradiction.
    + apply PyFacts.Qltb_ge in Eslide.
      destruct (Py.Qltb tap (Qabs dz)) eqn:Etap.
      * apply PyFacts.Qltb_lt in Etap.
        split; [reflexivity|]. split; [intros; exfalso; lra|].
        split; [reflexivity|intros; contradiction].
      * apply PyFacts.Qltb_ge in Etap.
        split; [reflexivity|]. split; [intros; exfalso; lra|].
        split; [intros; exfalso; lra|reflexivity].
  - rewrite (proj1 (detect_gesture_records self (x, y, z) finger_id)).
    apply lookup_insert_eq.
Qed.

End TrackerFacts.

(** C8 on a finger first seen at (0, 0, 0), with the stand-in [math]
    of the examples: the first observation gives no gesture; a move to
    (0, 50, 0), of length 50, is a SLIDE in direction 90; staying there
    with depth 0.5 is a TAP; staying there again is no gesture. *)
Lemma detect_gesture_classifies_witness :
  let L := Examples.libm in
  let t0 := init in
  let t1 := snd (@detect_gesture L t0 (0, 0, 0)%Q "hand0_finger8") in
  let t2 := snd (@detect_gesture L t1 (0, 50, 0)%Q "hand0_finger8") in
  let t3 := snd (@detect_gesture L t2 (0, 50, 1 # 2)%Q "hand0_finger8") in
  fst (@detect_gesture L t0 (0, 0, 0)%Q "hand0_finger8") = None
  /\ fst (@detect_gesture L t1 (0, 50, 0)%Q "hand0_finger8") = Some ("SLIDE", Some 90%Q)
  /\ fst (@detect_gesture L t2 (0, 50, 1 # 2)%Q "hand0_finger8") = Some ("TAP", None)
  /\ fst (@detect_gesture L t3 (0, 50, 1 # 2)%Q "hand0_finger8") = None.
Proof.
  intros L t0 t1 t2 t3.
  pose proof (@detect_gesture_classifies L ∅ "hand0_finger8" 0 0 0)
    as (_ & _ & _ & _ & H0 & _ & _).
  specialize (H0 (lookup_empty _)).
  assert (E1 : t1 = mkTracker (<["hand0_finger8" := (0, 0, 0)%Q]> ∅) 30
                              (Float.round (1 # 10))).
  { subst t1 t0. change init with (mkTracker ∅ 30 (Float.round (1 # 10))).
    now rewrite H0. }
  split.
  { subst t0. change init with (mkTracker ∅ 30 (Float.round (1 # 10))).
    now rewrite H0. }
  pose proof (@detect_gesture_classifies L (<["hand0_finger8" := (0, 0, 0)%Q]> ∅)
                "hand0_finger8" 0 50 0) as (_ & _ & _ & _ & _ & H1 & _).
  specialize (H1 0%Q 0%Q 0%Q (lookup_insert_eq _ _ _)).
  cbv zeta in H1. destruct H1 as (E2 & Hslide & _).
  rewrite <- E1 in E2, Hslide. fold t2 in E2.
  split.
  { rewrite Hslide by (vm_compute; reflexivity). vm_compute. reflexivity. }
  pose proof (@detect_gesture_classifies L
                (<["hand0_finger8" := (0, 50, 0)%Q]> (<["hand0_finger8" := (0, 0, 0)%Q]> ∅))
                "hand0_finger8" 0 50 (1 # 2)) as (_ & _ & _ & _ & _ & H2 & _).
  specialize (H2 0%Q 50%Q 0%Q (lookup_insert_eq _ _ _)).
  cbv zeta in H2. destruct H2 as (E3 & _ & Htap & _).
  rewrite <- E2 in E3, Htap. fold t3 in E3.
  split.
  { apply Htap; [intros Hlt; vm_compute in Hlt; discriminate Hlt|vm_compute; reflexivity]. }
  pose proof (@detect_gesture_classifies L
                (<["hand0_finger8" := (0, 50, 1 # 2)%Q]>
                   (<["hand0_finger8" := (0, 50, 0)%Q]>
                      (<["hand0_finger8" := (0, 0, 0)%Q]> ∅)))
                "hand0_finger8" 0 50 (1 # 2)) as (_ & _ & _ & _ & _ & H3 & _).
  specialize (H3 0%Q 50%Q (1 # 2)%Q (lookup_insert_eq _ _ _)).
  cbv zeta in H3. destruct H3 as (_ & _ & _ & Hnone).
  rewrite <- E3 in Hnone.
  apply Hnone; intros Hlt; vm_compute in Hlt; discriminate Hlt.
Defined.

(** At the tap threshold, with the stand-in [math] of the examples and
    a finger that stays in place: a depth that goes from 0 to 0.1, from
    0.04 to 0.14 (a difference that rounds to 0.1) or from 0.2 to 0.3
    (a difference of 0.09999999999999998) is no gesture; from 0.7 to
    0.8 (a difference of 0.10000000000000009) and from 0 to 0.125 it is
    a TAP. *)
Lemma detect_gesture_at_the_tap_threshold :
  let L := Examples.libm in
  let seen := fun z : Q => @set_prev init "hand0_finger8" (0, 0, z)%Q in
  let lit := Float.round in
  fst (@detect_gesture L (seen 0%Q) (0, 0, lit (1 # 10))%Q "hand0_finger8") = None
  /\ fst (@detect_gesture L (seen (lit (4 # 100))) (0, 0, lit (14 # 100))%Q "hand0_finger8")
     = None
  /\ fst (@detect_gesture L (seen (lit (2 # 10))) (0, 0, lit (3 # 10))%Q "hand0_finger8")
     = None
  /\ fst (@detect_gesture L (seen (lit (7 # 10))) (0, 0, lit (8 # 10))%Q "hand0_finger8")
     = Some ("TAP", None)
  /\ fst (@detect_gesture L (seen 0%Q) (0, 0, 1 # 8)%Q "hand0_finger8") = Some ("TAP", None).
Proof. intros L seen lit. repeat split; vm_compute; reflexivity. Qed.

End HandTrackerFacts.

(** ** Calibration *)

Module CoordinateMapperFacts.
Import CoordinateMapper.

Section MapperFacts.
Context `{OpenCV}.

Lemma add_calibration_point_length self webcam_point screen_point :
  length (calibration_points (add_calibration_point self webcam_point screen_point))
  = S (length (calibration_points self)).
Proof. simpl. rewrite length_app. simpl. lia. Qed.

(** C6. A new mapper is not calibrated.  With fewer than 4 pairs
    [calculate_transformation] returns False and leaves the mapper as it
    was.  With 4 pairs or more it hands every pair to
    [cv2.getPerspectiveTransform]: when that call returns a matrix the
    method returns True, stores the matrix, and the mapper is
    calibrated; when the call raises, the method raises and stores
    nothing.  As [cv2.getPerspectiveTransform] rejects any number of
    points other than 4, the method raises for every collection of 5
    pairs or more. *)
Theorem calculate_transformation_outcomes (self : CoordinateMapper) :
  let n := length (calibration_points self) in
  let src_points := map fst (calibration_points self) in
  let dst_points := map snd (calibration_points self) in
  is_calibrated init = false
  /\ ((n < 4)%nat -> calculate_transformation self = (Py.Returned false, self))
  /\ ((4 <= n)%nat -> forall m,
        getPerspectiveTransform src_points dst_points = Some m ->
        calculate_transformation self
        = (Py.Returned true, mkMapper (calibration_points self) (Some m))
        /\ is_calibrated (snd (calculate_transformation self)) = true)
  /\ ((4 <= n)%nat ->
        getPerspectiveTransform src_points dst_points = None ->
        calculate_transformation self = (Py.Raised, self))
  /\ ((forall src dst, length src <> 4%nat -> getPerspectiveTransform src dst = None) ->
        (4 < n)%nat ->
        calculate_transformation self = (Py.Raised, self)).
Proof.
  intros n src_points dst_points. unfold calculate_transformation.
  fold n src_points dst_points.
  split; [reflexivity|]. split; [|split; [|split]].
  - intros Hn. apply Nat.ltb_lt in Hn. now rewrite Hn.
  - intros Hn m Hm. apply Nat.ltb_ge in Hn. rewrite Hn, Hm. split; reflexivity.
  - intros Hn Hm. apply Nat.ltb_ge in Hn. now rewrite Hn, Hm.
  - intros Hcv Hn.
    assert (Hge : (n <? 4)%nat = false) by (apply Nat.ltb_ge; lia).
    rewrite Hge, Hcv; [reflexivity|].
    unfold src_points. rewrite length_map. fold n. lia.
Qed.

End MapperFacts.

(** C6 on five pairs, OpenCV accepting exactly four points: the call
    raises and the mapper stays uncalibrated. *)
Lemma calculate_transformation_outcomes_witness :
  length (calibration_points Examples.five_pairs) = 5%nat
  /\ @calculate_transformation Examples.opencv Examples.five_pairs = (Py.Raised, Examples.five_pairs)
  /\ @is_calibrated Examples.opencv Examples.five_pairs = false.
Proof.
  split; [reflexivity|]. split; [|reflexivity].
  apply (proj2 (proj2 (proj2 (proj2
           (@calculate_transformation_outcomes Examples.opencv Examples.five_pairs))))).
  - intros src dst Hsrc. simpl.
    destruct (Nat.eqb_spec (length src) 4) as [E|_]; [contradiction|reflexivity].
  - vm_compute. lia.
Defined.

End CoordinateMapperFacts.

(** ** Screen detection and hit resolution without geometry *)

Module ScreenFacts.
Import VideoAnalyzer Spec.

Section DetectScreenFacts.
Context `{Libm} `{OpenCV}.

Lemma insert_desc_In (c x : Contour) (cs : list Contour) :
  In c (insert_desc x cs) <-> c = x \/ In c cs.
Proof.
  induction cs as [|d ds IH]; simpl.
  - intuition.
  - destruct (Py.Qltb (contourArea d) (contourArea x)); simpl.
    + intuition.
    + rewrite IH. intuition.
Qed.

(** Sorting keeps the contours. *)
Lemma sorted_desc_In (c : Contour) (cs : list Contour) :
  In c (sorted_desc cs) <-> In c cs.
Proof.
  unfold sorted_desc.
  assert (Hgen : forall acc,
    In c (fold_left (fun acc x => insert_desc x acc) cs acc) <-> In c acc \/ In c cs).
  { induction cs as [|x xs IH]; intros acc; simpl.
    - intuition.
    - rewrite IH, insert_desc_In. intuition. }
  rewrite Hgen. simpl. intuition.
Qed.

Lemma qualifies_spec (self : VideoAnalyzer) (c : Contour) :
  qualifies self c = true
  <-> (7 # 10 < circularity c
       /\ inject_Z (min_radius self) < sqrt (contourArea c / pi)
       /\ sqrt (contourArea c / pi) < inject_Z (max_radius self))%Q.
Proof.
  unfold qualifies. cbv zeta. now rewrite !andb_true_iff, !PyFacts.Qltb_lt.
Qed.

Lemma contour_loop_fails (self : VideoAnalyzer) (cs : list Contour) :
  fst (contour_loop self cs) = false
  <-> (forall c, In c cs -> qualifies self c = false).
Proof.
  induction cs as [|c rest IH]; simpl.
  - split; [intros _ c []|reflexivity].
  - destruct (qualifies self c) eqn:E.
    + destruct (minEnclosingCircle c) as [[x y] radius]. simpl. split; [discriminate|].
      intros Hall. rewrite <- E. apply Hall. now left.
    + rewrite IH. split.
      * intros Hall d [<-|Hd]; [assumption|now apply Hall].
      * intros Hall d Hd. apply Hall. now right.
Qed.

Lemma contour_loop_unchanged (self : VideoAnalyzer) (cs : list Contour) :
  fst (contour_loop self cs) = false -> snd (contour_loop self cs) = self.
Proof.
  induction cs as [|c rest IH]; simpl; [reflexivity|].
  destruct (qualifies self c); [|exact IH].
  destruct (minEnclosingCircle c) as [[x y] radius]. simpl. discriminate.
Qed.

Lemma detect_screen_fails_iff (self : VideoAnalyzer) (frame : option Frame) :
  fst (detect_screen self frame) = false <-> detection_fails self frame.
Proof.
  destruct frame as [f|]; simpl; [|tauto].
  destruct (all_mapped self); cbn [fst];
    [split; [discriminate|intros [Hf _]; discriminate Hf]|].
  assert (Hq : (forall c, In c (edge_contours f) -> qualifies self c = false)
               <-> (forall c, In c (edge_contours f) ->
                      ~ (7 # 10 < circularity c
                         /\ inject_Z (min_radius self) < sqrt (contourArea c / pi)
                         /\ sqrt (contourArea c / pi) < inject_Z (max_radius self))%Q)).
  { split; intros Hall c Hc.
    - rewrite <- qualifies_spec. rewrite (Hall c Hc). discriminate.
    - destruct (qualifies self c) eqn:E; [|reflexivity].
      exfalso. apply (Hall c Hc). now apply qualifies_spec. }
  rewrite <- Hq.
  destruct (edge_contours f) as [|c0 cs0] eqn:Ec.
  - simpl. split; [intros _; split; [reflexivity|intros c []]|reflexivity].
  - rewrite contour_loop_fails. split.
    + intros Hall. split; [reflexivity|]. intros c Hc. apply Hall.
      exact (proj2 (sorted_desc_In c _) Hc).
    + intros [_ Hall] c Hc. apply Hall. exact (proj1 (sorted_desc_In c _) Hc).
Qed.

Lemma detect_screen_unchanged (self : VideoAnalyzer) (frame : option Frame) :
  fst (detect_screen self frame) = false -> snd (detect_screen self frame) = self.
Proof.
  destruct frame as [f|]; simpl; [|reflexivity].
  destruct (all_mapped self); simpl; [discriminate|].
  destruct (edge_contours f); [reflexivity|]. apply contour_loop_unchanged.
Qed.

End DetectScreenFacts.

Section NoGeometry.
Context `{Libm}.
Import Trainer.

Lemma geometry_unset (va : VideoAnalyzer) :
  screen_center va = None \/ screen_radius va = None -> geometry va = None.
Proof.
  unfold geometry. intros [-> | ->]; [reflexivity|].
  destruct (screen_center va); reflexivity.
Qed.

(** Without geometry [check_button_hit] returns False and registers no
    hit: the hit time, the hit dots and the hit counters stay. *)
Lemma check_button_hit_without_geometry (t : MaiMaiTrainer)
    (current_time dot_time : Q) (finger_x finger_y finger_id : Z) :
  screen_center (video_analyzer t) = None \/ screen_radius (video_analyzer t) = None ->
  let r := check_button_hit t current_time dot_time finger_x finger_y finger_id in
  fst r = false
  /\ last_hit_time (snd r) = last_hit_time t
  /\ hit_dots (snd r) = hit_dots t
  /\ hit_stats (snd r) = hit_stats t
  /\ video_analyzer (snd r) = video_analyzer t.
Proof.
  intros Hgeo r. subst r. unfold check_button_hit.
  destruct (Py.Qltb (current_time - last_hit_time t) (hit_cooldown t));
    [now repeat split|].
  destruct (last_finger_positions t !! finger_id) as [last_pos|];
    [|now repeat split].
  cbv zeta. cbn [video_analyzer set_finger].
  rewrite (geometry_unset _ Hgeo). now repeat split.
Qed.

End NoGeometry.

(** C7. Whenever screen detection fails on a frame, [detect_screen]
    returns False and leaves the analyzer, and so the stored centre and
    radius, as they were; it returns False exactly in that case.  When
    no centre or no radius has been established, [check_button_hit]
    returns False for every finger update and registers no hit. *)
Theorem detection_failure_keeps_geometry `{Libm} `{OpenCV} :
  (forall (self : VideoAnalyzer) (frame : option Frame),
     detection_fails self frame ->
     detect_screen self frame = (false, self)
     /\ screen_center (snd (detect_screen self frame)) = screen_center self
     /\ screen_radius (snd (detect_screen self frame)) = screen_radius self)
  /\ (forall (self : VideoAnalyzer) (frame : option Frame),
        fst (detect_screen self frame) = false -> detection_fails self frame)
  /\ (forall (t : Trainer.MaiMaiTrainer) (current_time dot_time : Q)
             (finger_x finger_y finger_id : Z),
        screen_center (Trainer.video_analyzer t) = None
        \/ screen_radius (Trainer.video_analyzer t) = None ->
        fst (Trainer.check_button_hit t current_time dot_time finger_x finger_y finger_id)
        = false
        /\ Trainer.hit_stats
             (snd (Trainer.check_button_hit t current_time dot_time
                     finger_x finger_y finger_id))
           = Trainer.hit_stats t
        /\ Trainer.hit_dots
             (snd (Trainer.check_button_hit t current_time dot_time
                     finger_x finger_y finger_id))
           = Trainer.hit_dots t).
Proof.
  split; [|split].
  - intros self frame Hfail. apply detect_screen_fails_iff in Hfail.
    pose proof (detect_screen_unchanged self frame Hfail) as Hsame.
    destruct (detect_screen self frame) as [b va]. simpl in *. subst. now repeat split.
  - intros self frame. apply detect_screen_fails_iff.
  - intros t current_time dot_time finger_x finger_y finger_id Hgeo.
    pose proof (check_button_hit_without_geometry t current_time dot_time
                  finger_x finger_y finger_id Hgeo) as (Hr & _ & Hdots & Hstats & _).
    now repeat split.
Qed.

(** C7 on [Examples.small_square_frame]: detection fails and the geometry of
    [Examples.calibrated_analyzer] is retained; on a trainer that never had
    geometry, the update of a finger seen before at (380, 240) is
    rejected. *)
Lemma detection_failure_keeps_geometry_witness :
  @detect_screen Examples.libm Examples.opencv Examples.calibrated_analyzer (Some Examples.small_square_frame)
  = (false, Examples.calibrated_analyzer)
  /\ screen_center Examples.calibrated_analyzer = Some (320, 240)%Z
  /\ fst (@Trainer.check_button_hit Examples.libm
            (Trainer.set_finger (Trainer.init 0 init) 8 (380, 240)%Z) 1000 1000 400 240 8)
     = false.
Proof.
  pose proof (@detection_failure_keeps_geometry Examples.libm Examples.opencv)
    as (Hfail & _ & Hhit).
  split; [|split].
  - apply (Hfail Examples.calibrated_analyzer (Some Examples.small_square_frame)).
    split; [reflexivity|]. intros c [<-|[]]. vm_compute. intros (_ & Hlo & _).
    discriminate Hlo.
  - reflexivity.
  - apply (Hhit (Trainer.set_finger (Trainer.init 0 init) 8 (380, 240)%Z)).
    left. reflexivity.
Defined.

End ScreenFacts.

(** ** Scoring: counters, combo runs and accuracy *)

Module ScoreInvariants.
Import Config Scoring Spec.

Lemma scores_tier (t : Q) :
  scores (AddHit t) = match tier_of t with MISS => false | _ => true end.
Proof.
  unfold scores, tier_of.
  destruct (Qle_bool t 50) eqn:E1.
  - apply Qle_bool_iff in E1.
    destruct (Qle_bool t 150) eqn:E; [reflexivity|].
    apply PyFacts.Qleb_gt in E. exfalso. lra.
  - destruct (Qle_bool t 100) eqn:E2.
    + apply Qle_bool_iff in E2.
      destruct (Qle_bool t 150) eqn:E; [reflexivity|].
      apply PyFacts.Qleb_gt in E. exfalso. lra.
    + destruct (Qle_bool t 150); reflexivity.
Qed.

(** One call: what it does to each counter. *)
Lemma step_counters (s : ScoreManager) (c : call) :
  (perfects (step s c) + greats (step s c) + goods (step s c) + misses (step s c)
   = perfects s + greats s + goods s + misses s + 1)%Z
  /\ (perfects s <= perfects (step s c))%Z
  /\ (greats s <= greats (step s c))%Z
  /\ (goods s <= goods (step s c))%Z
  /\ (misses s <= misses (step s c))%Z
  /\ (score (step s c) - 100 * perfects (step s c) - 80 * greats (step s c)
       - 50 * goods (step s c)
      = score s - 100 * perfects s - 80 * greats s - 50 * goods s)%Z
  /\ combo (step s c) = (if scores c then combo s + 1 else 0)%Z
  /\ (perfects (step s c) + greats (step s c) + goods (step s c)
      = perfects s + greats s + goods s + (if scores c then 1 else 0))%Z
  /\ max_combo (step s c)
     = (match c with
        | AddHit _ => Z.max (max_combo s) (combo (step s c))
        | AddMiss => max_combo s
        end).
Proof.
  destruct c as [t|]; cbn [step].
  - rewrite scores_tier, ScoringFacts.add_hit_by_tier.
    destruct (tier_of t); simpl; repeat split; lia.
  - simpl. repeat split; lia.
Qed.

Lemma run_snoc (s : ScoreManager) (cs : list call) (c : call) :
  run s (cs ++ [c]) = step (run s cs) c.
Proof. now rewrite ScoringFacts.run_app. Qed.

Lemma trailing_hits_snoc (cs : list call) (c : call) :
  trailing_hits (cs ++ [c]) = (if scores c then 1 + trailing_hits cs else 0)%Z.
Proof. unfold trailing_hits. rewrite rev_app_distr. reflexivity. Qed.

Lemma trailing_hits_nonneg (cs : list call) : (0 <= trailing_hits cs)%Z.
Proof.
  unfold trailing_hits. induction (rev cs) as [|c r IH]; simpl; [lia|].
  destruct (scores c); lia.
Qed.

(** The counters never go below 0. *)
Lemma run_counters_nonneg (cs : list call) :
  let s := run init cs in
  (0 <= perfects s)%Z /\ (0 <= greats s)%Z /\ (0 <= goods s)%Z /\ (0 <= misses s)%Z.
Proof.
  induction cs as [|c cs IH] using rev_ind; [simpl; lia|].
  cbv zeta in *. rewrite run_snoc.
  pose proof (step_counters (run init cs) c) as (_ & Hp & Hg & Hgo & Hm & _).
  lia.
Qed.

(** The counters add up to the number of calls. *)
Lemma run_counters_total (cs : list call) :
  let s := run init cs in
  (perfects s + greats s + goods s + misses s = Z.of_nat (length cs))%Z.
Proof.
  induction cs as [|c cs IH] using rev_ind; [reflexivity|].
  cbv zeta in *. rewrite run_snoc, length_app. simpl length.
  pose proof (step_counters (run init cs) c) as (Hsum & _).
  lia.
Qed.

(** Every call is judged exactly once: after any sequence of calls from
    the initial state the four counters are non-negative and add up to
    the number of calls, and the score is 100 per perfect, 80 per great
    and 50 per good. *)
Theorem counters_account_for_every_call (cs : list call) :
  let s := run init cs in
  (perfects s + greats s + goods s + misses s = Z.of_nat (length cs))%Z
  /\ (0 <= perfects s)%Z /\ (0 <= greats s)%Z /\ (0 <= goods s)%Z /\ (0 <= misses s)%Z
  /\ score s = (100 * perfects s + 80 * greats s + 50 * goods s)%Z.
Proof.
  intros s.
  pose proof (run_counters_nonneg cs) as (Hp & Hg & Hgo & Hm).
  pose proof (run_counters_total cs) as Hsum.
  split; [exact Hsum|]. split; [exact Hp|]. split; [exact Hg|].
  split; [exact Hgo|]. split; [exact Hm|].
  subst s. clear. induction cs as [|c cs IH] using rev_ind; [reflexivity|].
  rewrite run_snoc.
  pose proof (step_counters (run init cs) c) as (_ & _ & _ & _ & _ & Hscore & _).
  lia.
Qed.

(** The combo is the number of scoring calls at the end of the
    sequence, and the max combo is the longest such run: it bounds the
    run at the end of every prefix and is reached by one of them. *)
Theorem combo_counts_the_current_run (cs : list call) :
  let s := run init cs in
  combo s = trailing_hits cs
  /\ (forall pre post, cs = pre ++ post -> (trailing_hits pre <= max_combo s)%Z)
  /\ (exists pre post, cs = pre ++ post /\ max_combo s = trailing_hits pre)
  /\ (combo s <= max_combo s)%Z
  /\ (max_combo s <= perfects s + greats s + goods s)%Z.
Proof.
  induction cs as [|c cs IH] using rev_ind.
  - simpl. split; [reflexivity|]. split.
    + intros pre post Heq. symmetry in Heq. apply app_eq_nil in Heq as [-> _].
      reflexivity.
    + split; [exists [], []; split; reflexivity|]. split; reflexivity.
  - cbv zeta in *. destruct IH as (Hcombo & Hbound & (pre0 & post0 & Hcs & Hmax) & Hle & Hhits).
    rewrite run_snoc.
    pose proof (step_counters (run init cs) c)
      as (_ & _ & _ & _ & _ & _ & Hc & Hh & Hm).
    pose proof (trailing_hits_nonneg cs) as Hnn.
    assert (Hcombo' : combo (step (run init cs) c) = trailing_hits (cs ++ [c])).
    { rewrite Hc, trailing_hits_snoc, Hcombo. destruct (scores c); lia. }
    assert (Hmax' : max_combo (step (run init cs) c)
                    = Z.max (max_combo (run init cs)) (trailing_hits (cs ++ [c]))).
    { rewrite Hm, <- Hcombo'. destruct c; [reflexivity|].
      rewrite Hc. simpl scores. cbv iota. lia. }
    split; [exact Hcombo'|]. split; [|split; [|split]].
    + intros pre post Heq. rewrite Hmax'.
      destruct post as [|p post _] using rev_ind.
      * rewrite app_nil_r in Heq. subst pre. lia.
      * rewrite app_assoc in Heq. apply app_inj_tail in Heq as [Heq _].
        specialize (Hbound pre post Heq). lia.
    + rewrite Hmax'.
      destruct (Z.max_spec (max_combo (run init cs)) (trailing_hits (cs ++ [c])))
        as [[_ ->]|[_ ->]].
      * exists (cs ++ [c]), []. split; [now rewrite app_nil_r|reflexivity].
      * exists pre0, (post0 ++ [c]). split; [|exact Hmax].
        rewrite app_assoc. now rewrite <- Hcs.
    + rewrite Hmax', Hcombo'. lia.
    + rewrite Hmax', Hh, trailing_hits_snoc, <- Hcombo.
      destruct (scores c); lia.
Qed.

(** The accuracy is 0 before any call; after calls from the initial
    state it lies between 0 and 100, and it is 100 exactly when no call
    was a miss. *)
Theorem accuracy_is_a_percentage (cs : list call) :
  let s := run init cs in
  get_accuracy init = 0%Q
  /\ (0 <= get_accuracy s)%Q /\ (get_accuracy s <= 100)%Q
  /\ (cs <> [] -> (get_accuracy s == 100)%Q <-> misses s = 0%Z).
Proof.
  intros s.
  pose proof (run_counters_nonneg cs) as (Hp & Hg & Hgo & Hm).
  pose proof (run_counters_total cs) as Hsum.
  cbv zeta in Hsum, Hp, Hg, Hgo, Hm. fold s in Hsum, Hp, Hg, Hgo, Hm.
  split; [reflexivity|]. unfold get_accuracy.
  set (hits := (perfects s + greats s + goods s)%Z) in *.
  destruct ((hits + misses s =? 0)%Z) eqn:E.
  - split; [lra|]. split; [lra|]. intros Hne. exfalso.
    apply Z.eqb_eq in E. destruct cs; [congruence|]. simpl length in Hsum. lia.
  - apply Z.eqb_neq in E.
    assert (Htot : (0 < inject_Z (hits + misses s))%Q).
    { replace 0%Q with (inject_Z 0) by reflexivity. rewrite <- Zlt_Qlt. lia. }
    assert (Hh : (0 <= inject_Z hits)%Q).
    { replace 0%Q with (inject_Z 0) by reflexivity. rewrite <- Zle_Qle. lia. }
    assert (Hle : (inject_Z hits <= inject_Z (hits + misses s))%Q).
    { rewrite <- Zle_Qle. lia. }
    assert (Hdiv : (inject_Z hits / inject_Z (hits + misses s) * 100
                    == 100 * inject_Z hits / inject_Z (hits + misses s))%Q).
    { field. lra. }
    split; [|split].
    + rewrite Hdiv. apply Qle_shift_div_l; [assumption|]. lra.
    + rewrite Hdiv. apply Qle_shift_div_r; [assumption|]. lra.
    + intros _. rewrite Hdiv. split.
      * intros Heq.
        assert (Hx : (100 * inject_Z hits == 100 * inject_Z (hits + misses s))%Q).
        { transitivity (100 * inject_Z hits / inject_Z (hits + misses s)
                        * inject_Z (hits + misses s))%Q.
          - field. lra.
          - rewrite Heq. reflexivity. }
        apply Qmult_inj_l in Hx; [|discriminate].
        apply (proj1 (inject_Z_injective _ _)) in Hx. lia.
      * intros Hz. rewrite Hz, Z.add_0_r. field.
        rewrite Hz, Z.add_0_r in Htot. lra.
Qed.

End ScoreInvariants.

(** ** Notes: the life of a note *)

Module NoteLifecycle.
Import Config Notes Spec.

Lemma live_update st self :
  well_formed st self -> live st self ->
  live (fst (update st self)) (snd (update st self)).
Proof.
  intros [Hnodup _] Hlive l Hl.
  destruct (NotesFacts.update_spec st self Hnodup) as (Hns & _ & Hin & _).
  rewrite Hns in Hl. apply filter_In in Hl as [Hl Hs].
  destruct (Hlive l Hl) as (Hact & Hlo & Hhi).
  rewrite (Hin l Hl). unfold survives in Hs. unfold Note_update in *.
  rewrite Hact in *. cbn [radius active] in *.
  destruct (Py.Qltb (radius (cell st l) - NOTE_SPEED) 0) eqn:E; [discriminate|].
  apply PyFacts.Qltb_ge in E. unfold NOTE_SPEED in *. repeat split; [assumption|lra].
Qed.

Lemma live_add_note st self note_type angle now :
  well_formed st self -> live st self ->
  live (fst (add_note st self note_type angle now))
       (snd (add_note st self note_type angle now)).
Proof.
  intros [_ Hbound] Hlive l. unfold add_note, alloc. cbn [fst snd notes set_notes cell].
  intros [Hl|[<-|[]]]%in_app_or.
  - pose proof (Hbound l Hl) as Hlt.
    destruct (Nat.eqb_spec l (next st)) as [->|_]; [lia|]. now apply Hlive.
  - rewrite Nat.eqb_refl. unfold Note_init, CIRCLE_RADIUS. cbn [active radius].
    repeat split; [discriminate|lra].
Qed.

Section WithGestures.
Context `{Libm}.

Lemma live_check_hits {G} st self (gestures : list G) positions :
  live st self -> live st (snd (check_hits st self gestures positions)).
Proof.
  intros Hlive l. rewrite NotesFacts.check_hits_filter. cbn [snd notes set_notes].
  intros [Hl _]%filter_In. now apply Hlive.
Qed.

(** Whatever calls are made on a new note manager, its list never holds
    a note twice, holds only notes that were created, and every note in
    it is active with a radius between 0 and the spawn radius 450. *)
Theorem listed_notes_are_alive (now : Q) (cs : list note_call) :
  let st := fst (note_run now cs) in
  let self := snd (note_run now cs) in
  List.NoDup (notes self)
  /\ (forall l, In l (notes self) ->
        (l < next st)%nat
        /\ active (cell st l) = true
        /\ (0 <= radius (cell st l))%Q
        /\ (radius (cell st l) <= 450)%Q).
Proof.
  cbv zeta.
  assert (Hinv : well_formed (fst (note_run now cs)) (snd (note_run now cs))
                 /\ live (fst (note_run now cs)) (snd (note_run now cs))).
  { unfold note_run. induction cs as [|c cs IH] using rev_ind.
    - simpl. split; [apply NotesFacts.well_formed_init|intros l []].
    - rewrite fold_left_app. cbn [fold_left].
      destruct IH as [Hwf Hlive]. destruct c as [ty a t| |gs ps]; cbn [note_step].
      + split; [now apply NotesFacts.well_formed_add_note|now apply live_add_note].
      + split; [now apply NotesFacts.well_formed_update|now apply live_update].
      + cbn [fst snd].
        split; [now apply NotesFacts.well_formed_check_hits|now apply live_check_hits]. }
  destruct Hinv as [[Hnodup Hbound] Hlive]. split; [exact Hnodup|].
  intros l Hl. destruct (Hlive l Hl) as (Hact & Hlo & Hhi).
  assert (Hspawn : (inject_Z CIRCLE_RADIUS * (3 # 2) == 450)%Q) by (vm_compute; reflexivity).
  rewrite Hspawn in Hhi. repeat split; [now apply Hbound|assumption..].
Qed.

End WithGestures.

Lemma ticks_S n s : ticks (S n) s = update (fst (ticks n s)) (snd (ticks n s)).
Proof. reflexivity. Qed.

Lemma well_formed_ticks n st self :
  well_formed st self -> well_formed (fst (ticks n (st, self))) (snd (ticks n (st, self))).
Proof.
  intros Hwf. induction n as [|n IH]; [exact Hwf|].
  rewrite ticks_S. now apply NotesFacts.well_formed_update.
Qed.

(** A listed, active note under ticks alone: while its radius minus
    7.5 per tick stays at or above 0 it remains listed, active, at that
    radius; once that falls below 0 it is gone. *)
Lemma ticking_note st self l :
  well_formed st self -> In l (notes self) -> active (cell st l) = true ->
  (0 <= radius (cell st l))%Q ->
  forall n,
    let r := (radius (cell st l) - inject_Z (Z.of_nat n) * NOTE_SPEED)%Q in
    ((0 <= r)%Q ->
       In l (notes (snd (ticks n (st, self))))
       /\ active (cell (fst (ticks n (st, self))) l) = true
       /\ angle (cell (fst (ticks n (st, self))) l) = angle (cell st l)
       /\ (radius (cell (fst (ticks n (st, self))) l) == r)%Q)
    /\ ((r < 0)%Q -> ~ In l (notes (snd (ticks n (st, self))))).
Proof.
  intros Hwf Hl Hact Hr0 n. induction n as [|n IH]; cbv zeta in *.
  - simpl. unfold NOTE_SPEED. split.
    + intros _. repeat split; [assumption..|]. ring.
    + intros Hneg. exfalso. ring_simplify in Hneg. lra.
  - rewrite ticks_S.
    pose proof (well_formed_ticks n st self Hwf) as [Hnodup _].
    destruct (NotesFacts.update_spec (fst (ticks n (st, self))) _ Hnodup)
      as (Hns & _ & Hin & _).
    rewrite Hns. rewrite Nat2Z.inj_succ, <- Z.add_1_r, inject_Z_plus.
    change (inject_Z 1) with 1%Q.
    destruct IH as [IHlive IHgone].
    destruct (Qlt_le_dec (radius (cell st l) - inject_Z (Z.of_nat n) * NOTE_SPEED) 0)
      as [Hgone|Hlive].
    + (* already gone *)
      split.
      * intros Hge. exfalso. unfold NOTE_SPEED in *.
        assert (0 <= inject_Z (Z.of_nat n))%Q.
        { replace 0%Q with (inject_Z 0) by reflexivity. rewrite <- Zle_Qle. lia. }
        lra.
      * intros _ [Hin' _]%filter_In. exact (IHgone Hgone Hin').
    + destruct (IHlive Hlive) as (Hin' & Hact' & Hang & Hrad).
      assert (Hcell : radius (Note_update (cell (fst (ticks n (st, self))) l))
                      = (radius (cell (fst (ticks n (st, self))) l) - NOTE_SPEED)%Q).
      { unfold Note_update. now rewrite Hact'. }
      split.
      * intros Hge.
        assert (Hnot : Py.Qltb (radius (Note_update (cell (fst (ticks n (st, self))) l))) 0
                       = false).
        { apply PyFacts.Qltb_ge. rewrite Hcell, Hrad. unfold NOTE_SPEED in *. lra. }
        split; [|split; [|split]].
        -- apply filter_In. split; [assumption|]. unfold survives. now rewrite Hnot.
        -- rewrite (Hin l Hin'). unfold Note_update in *. rewrite Hact' in *.
           cbn [active radius] in *. now rewrite Hnot.
        -- rewrite (Hin l Hin'), <- Hang. unfold Note_update. now rewrite Hact'.
        -- rewrite (Hin l Hin'), Hcell, Hrad. unfold NOTE_SPEED. ring.
      * intros Hneg [_ Hs]%filter_In. unfold survives in Hs.
        assert (Hlt : Py.Qltb (radius (Note_update (cell (fst (ticks n (st, self))) l))) 0
                      = true).
        { apply PyFacts.Qltb_lt. rewrite Hcell, Hrad. unfold NOTE_SPEED in *. lra. }
        rewrite Hlt in Hs. discriminate.
Qed.

(** The life of a spawned note in terms of its radius: it starts at
    450 and loses 7.5 per tick. *)
Lemma spawned_note_radius st self note_type angle now n :
  well_formed st self ->
  let l := next st in
  let spawned := add_note st self note_type angle now in
  let r := (450 - inject_Z (Z.of_nat n) * NOTE_SPEED)%Q in
  ((0 <= r)%Q ->
     In l (notes (snd (ticks n spawned)))
     /\ active (cell (fst (ticks n spawned)) l) = true
     /\ Notes.angle (cell (fst (ticks n spawned)) l) = angle
     /\ (radius (cell (fst (ticks n spawned)) l) == r)%Q)
  /\ ((r < 0)%Q -> ~ In l (notes (snd (ticks n spawned)))).
Proof.
  intros Hwf l spawned r. subst r.
  pose proof (NotesFacts.well_formed_add_note st self note_type angle now Hwf) as Hwf1.
  assert (Hl : In l (notes (snd spawned))).
  { unfold spawned, add_note, alloc. cbn [snd notes set_notes].
    apply in_or_app. right. now left. }
  assert (Hcell : cell (fst spawned) l
                  = Note_init note_type angle (inject_Z CIRCLE_RADIUS * (3 # 2)) now).
  { unfold spawned, add_note, alloc, l. cbn [fst cell]. now rewrite Nat.eqb_refl. }
  assert (Hact : active (cell (fst spawned) l) = true) by now rewrite Hcell.
  assert (Hrad : (radius (cell (fst spawned) l) == 450)%Q).
  { rewrite Hcell. vm_compute. reflexivity. }
  assert (Hr0 : (0 <= radius (cell (fst spawned) l))%Q) by (rewrite Hrad; discriminate).
  pose proof (ticking_note (fst spawned) (snd spawned) l Hwf1 Hl Hact Hr0 n) as Htick.
  cbv zeta in Htick. replace (fst spawned, snd spawned) with spawned in Htick
    by now destruct spawned.
  destruct Htick as [Hlive Hgone].
  split.
  - intros Hr. destruct Hlive as (Hin & Ha & Hang & Hrr); [now rewrite Hrad|].
    split; [exact Hin|]. split; [exact Ha|].
    split; [now rewrite Hang, Hcell|now rewrite Hrr, Hrad].
  - intros Hneg. apply Hgone. now rewrite Hrad.
Qed.

(** A note spawned by [add_note] and never hit stays in the list for
    60 ticks, at radius 450 - 7.5 n after n of them, and is removed by
    tick 61; it never comes back. *)
Theorem spawned_note_lives_sixty_ticks st self note_type angle now n :
  well_formed st self ->
  let l := next st in
  let spawned := add_note st self note_type angle now in
  ((n <= 60)%nat ->
     In l (notes (snd (ticks n spawned)))
     /\ active (cell (fst (ticks n spawned)) l) = true
     /\ Notes.angle (cell (fst (ticks n spawned)) l) = angle
     /\ (radius (cell (fst (ticks n spawned)) l)
         == 450 - inject_Z (Z.of_nat n) * NOTE_SPEED)%Q)
  /\ ((60 < n)%nat -> ~ In l (notes (snd (ticks n spawned)))).
Proof.
  intros Hwf l spawned.
  destruct (spawned_note_radius st self note_type angle now n Hwf) as [Hlive Hgone].
  fold l in Hlive, Hgone. fold spawned in Hlive, Hgone.
  split.
  - intros Hle. apply Hlive.
    assert (Hq : (inject_Z (Z.of_nat n) <= 60)%Q).
    { replace 60%Q with (inject_Z 60) by reflexivity. rewrite <- Zle_Qle. lia. }
    unfold NOTE_SPEED. lra.
  - intros Hgt. apply Hgone.
    assert (Hq : (61 <= inject_Z (Z.of_nat n))%Q).
    { replace 61%Q with (inject_Z 61) by reflexivity. rewrite <- Zle_Qle. lia. }
    unfold NOTE_SPEED. lra.
Qed.

(** On an empty note manager: the note spawned first is still listed,
    at radius 0, after 60 ticks. *)
Lemma spawned_note_lives_sixty_ticks_witness :
  well_formed empty_store (NoteManager_init 0)
  /\ In 0%nat (notes (snd (ticks 60 (add_note empty_store (NoteManager_init 0) "TAP" 90 0)))).
Proof.
  split; [apply NotesFacts.well_formed_init|].
  refine (proj1 (proj1 (spawned_note_lives_sixty_ticks empty_store (NoteManager_init 0)
                          "TAP" 90 0 60 (NotesFacts.well_formed_init 0)) _)).
  apply Nat.le_refl.
Defined.

Lemma filter_split_permutation (p : nat -> bool) (l : list nat) :
  Permutation (List.filter p l ++ List.filter (fun x => negb (p x)) l) l.
Proof.
  induction l as [|x xs IH]; simpl; [constructor|].
  destruct (p x); simpl.
  - now constructor.
  - rewrite <- Permutation_middle. now constructor.
Qed.

Section Resolution.
Context `{Libm}.

(** [check_hits] neither loses nor invents a note: the hits and the
    notes that remain are the notes there were.  Without a gesture or
    without a position nothing is hit and the manager is unchanged.  A
    second call with the same gestures hits nothing more. *)
Theorem check_hits_partitions_the_notes {G} st self (gestures : list G) positions :
  let r := check_hits st self gestures positions in
  Permutation (fst r ++ notes (snd r)) (notes self)
  /\ (gestures = [] \/ positions = [] -> r = ([], self))
  /\ check_hits st (snd r) gestures positions = ([], snd r).
Proof.
  intros r. subst r. rewrite !NotesFacts.check_hits_filter. cbn [fst snd notes set_notes].
  set (m := fun l => gesture_loop (cell st l) (combine gestures positions)).
  split; [apply filter_split_permutation|]. split.
  - intros Hempty.
    assert (Hm : forall l, m l = false).
    { intros l. unfold m. destruct Hempty as [-> | ->]; [reflexivity|].
      now destruct gestures. }
    assert (Hnone : forall ns, List.filter m ns = []).
    { induction ns as [|x xs IH]; simpl; [reflexivity|]. now rewrite Hm. }
    assert (Hall : forall ns, List.filter (fun l => negb (m l)) ns = ns).
    { induction ns as [|x xs IH]; simpl; [reflexivity|]. now rewrite Hm, IH. }
    rewrite Hnone, Hall. now destruct self.
  - assert (Hnone : forall ns,
      List.filter m (List.filter (fun l => negb (m l)) ns) = []).
    { induction ns as [|x xs IH]; simpl; [reflexivity|].
      destruct (m x) eqn:E; simpl; [exact IH|]. now rewrite E. }
    assert (Hall : forall ns,
      List.filter (fun l => negb (m l)) (List.filter (fun l => negb (m l)) ns)
      = List.filter (fun l => negb (m l)) ns).
    { induction ns as [|x xs IH]; simpl; [reflexivity|].
      destruct (m x) eqn:E; simpl; [exact IH|]. now rewrite E, IH. }
    rewrite Hnone. unfold set_notes. cbn [notes last_spawn_time spawn_interval
      note_speed note_size]. now rewrite Hall.
Qed.

Lemma arc_distance_same (a b : Q) : (a == b)%Q -> (arc_distance a b == 0)%Q.
Proof.
  intros Hab. unfold arc_distance.
  assert (Hz : (Qabs (a - b) == 0)%Q).
  { rewrite (Qabs_wd (a - b) 0); [reflexivity|]. rewrite Hab. ring. }
  rewrite Hz. apply Q.min_l. discriminate.
Qed.

(** A spawned note can be hit from its 5th to its 35th tick and at no
    other time: after [n] ticks, a gesture at the note's own angle hits
    it exactly when 5 <= n <= 35 (radius 412.5 down to 187.5). *)
Theorem spawned_note_hit_window {G} st self note_type angle now n
    (g : G) (pos : Q * Q) :
  well_formed st self ->
  (hit_angle_of pos == angle)%Q ->
  let l := next st in
  let spawned := ticks n (add_note st self note_type angle now) in
  In l (fst (check_hits (fst spawned) (snd spawned) [g] [pos]))
  <-> (5 <= n <= 35)%nat.
Proof.
  intros Hwf Hpos l spawned.
  destruct (spawned_note_radius st self note_type angle now n Hwf) as [Hlive' Hgone'].
  fold l in Hlive', Hgone'. fold spawned in Hlive', Hgone'.
  assert (Hlive : (n <= 60)%nat ->
            In l (notes (snd spawned))
            /\ active (cell (fst spawned) l) = true
            /\ Notes.angle (cell (fst spawned) l) = angle
            /\ (radius (cell (fst spawned) l)
                == 450 - inject_Z (Z.of_nat n) * NOTE_SPEED)%Q).
  { intros Hle. apply Hlive'.
    assert (Hq : (inject_Z (Z.of_nat n) <= 60)%Q).
    { replace 60%Q with (inject_Z 60) by reflexivity. rewrite <- Zle_Qle. lia. }
    unfold NOTE_SPEED. lra. }
  assert (Hgone : (60 < n)%nat -> ~ In l (notes (snd spawned))).
  { intros Hgt. apply Hgone'.
    assert (Hq : (61 <= inject_Z (Z.of_nat n))%Q).
    { replace 61%Q with (inject_Z 61) by reflexivity. rewrite <- Zle_Qle. lia. }
    unfold NOTE_SPEED. lra. }
  clear Hlive' Hgone'.
  rewrite NotesFacts.check_hits_filter. cbn [fst]. rewrite filter_In.
  cbn [combine gesture_loop].
  assert (Hn : (0 <= inject_Z (Z.of_nat n))%Q).
  { replace 0%Q with (inject_Z 0) by reflexivity. rewrite <- Zle_Qle. lia. }
  destruct (Nat.le_gt_cases n 60) as [Hle|Hgt].
  - destruct (Hlive Hle) as (Hin & _ & Hang & Hrad).
    assert (Hw : in_hit_window (cell (fst spawned) l) pos = true <-> (5 <= n <= 35)%nat).
    { rewrite NotesFacts.in_hit_window_spec, Hang, Hrad.
      rewrite (arc_distance_same _ _ Hpos). unfold CIRCLE_RADIUS, NOTE_SPEED.
      change (inject_Z 300) with 300%Q. split.
      - intros (_ & Hlo & Hhi).
        assert (H4 : (4 < inject_Z (Z.of_nat n))%Q) by lra.
        assert (H36 : (inject_Z (Z.of_nat n) < 36)%Q) by lra.
        change 4%Q with (inject_Z 4) in H4. change 36%Q with (inject_Z 36) in H36.
        rewrite <- Zlt_Qlt in H4, H36. lia.
      - intros [H5 H35].
        assert (H5' : (5 <= inject_Z (Z.of_nat n))%Q).
        { change 5%Q with (inject_Z 5). rewrite <- Zle_Qle. lia. }
        assert (H35' : (inject_Z (Z.of_nat n) <= 35)%Q).
        { change 35%Q with (inject_Z 35). rewrite <- Zle_Qle. lia. }
        repeat split; lra. }
    destruct (in_hit_window (cell (fst spawned) l) pos) eqn:E.
    + split; [intros _; now apply Hw|intros _; split; [assumption|reflexivity]].
    + split; [intros [_ Hf]; discriminate|].
      intros Hrange. apply Hw in Hrange. discriminate.
  - split; [|lia]. intros [Hin _]. exfalso. exact (Hgone Hgt Hin).
Qed.

End Resolution.

(** A note spawned at angle 90 on an empty manager, 20 ticks later, is
    hit by a gesture straight below the centre. *)
Lemma spawned_note_hit_window_witness :
  In 0%nat
    (fst (@check_hits Examples.libm string
            (fst (ticks 20 (add_note empty_store (NoteManager_init 0) "TAP" 90 0)))
            (snd (ticks 20 (add_note empty_store (NoteManager_init 0) "TAP" 90 0)))
            ["TAP"] [(300, 400)%Q])).
Proof.
  refine (proj2 (@spawned_note_hit_window Examples.libm string empty_store
                   (NoteManager_init 0) "TAP" 90 0 20 "TAP" (300, 400)%Q
                   (NotesFacts.well_formed_init 0) _) _).
  - vm_compute. reflexivity.
  - split; [repeat constructor|repeat constructor].
Defined.

End NoteLifecycle.

(** ** Note generation and the sector tables *)

Module GeneratorFacts.
Import NoteGenerator.

Ltac by_sector S tac :=
  destruct (decide (S = "TOP")) as [->|?]; [tac|];
  destruct (decide (S = "TOP_RIGHT")) as [->|?]; [tac|];
  destruct (decide (S = "RIGHT")) as [->|?]; [tac|];
  destruct (decide (S = "BOTTOM_RIGHT")) as [->|?]; [tac|];
  destruct (decide (S = "BOTTOM")) as [->|?]; [tac|];
  destruct (decide (S = "BOTTOM_LEFT")) as [->|?]; [tac|];
  destruct (decide (S = "LEFT")) as [->|?]; [tac|];
  destruct (decide (S = "TOP_LEFT")) as [->|?]; [tac|].

Lemma region_angles_other (S : string) :
  S <> "TOP" -> S <> "TOP_RIGHT" -> S <> "RIGHT" -> S <> "BOTTOM_RIGHT" ->
  S <> "BOTTOM" -> S <> "BOTTOM_LEFT" -> S <> "LEFT" -> S <> "TOP_LEFT" ->
  region_angles !! S = None /\ Trainer.region_to_angle S = None.
Proof.
  intros. unfold Trainer.region_to_angle, Trainer.region_angles, region_angles.
  rewrite !lookup_insert_ne by congruence. now rewrite lookup_empty.
Qed.

(** The two sector-angle tables know the same eight names and are
    mirror images of each other: a sector's angle in [region_to_angle]
    is 360 minus its angle in [NoteGenerator.region_angles], modulo 360.
    Every other name has no angle in either table. *)
Theorem sector_tables_mirror (S : string) :
  Trainer.region_to_angle S = (fun a => (360 - a) mod 360)%Z <$> region_angles !! S.
Proof.
  by_sector S ltac:(vm_compute; reflexivity).
  destruct (region_angles_other S) as [-> ->]; try assumption. reflexivity.
Qed.

Section MotionFacts.
Context `{Libm}.

Lemma motion_to_notes_app self a b :
  motion_to_notes self (a ++ b) = motion_to_notes self a ++ motion_to_notes self b.
Proof.
  induction a as [|[c name] a IH]; simpl; [reflexivity|].
  destruct c as [[|x [|y [|z coords]]]|]; simpl; now rewrite ?IH.
Qed.

Lemma region_angles_range (S : string) (a : Z) :
  region_angles !! S = Some a -> (0 <= a < 360)%Z.
Proof.
  revert a.
  assert (Hall : match region_angles !! S with
                 | Some a => (0 <= a < 360)%Z | None => True end).
  { by_sector S ltac:(vm_compute; split; [discriminate|reflexivity]).
    now destruct (region_angles_other S) as [-> _]. }
  intros a Ha. now rewrite Ha in Hall.
Qed.

(** [motion_to_notes] gives one TAP note per region whose centre is a
    pair of numbers, in order, and skips the rest, so it gives nothing
    on an empty list and as many notes as there are such regions.  A
    region with a known name gets the table's angle wherever it lies; a
    region with any other name gets the angle of its centre seen from
    the centre of the frame, atan2(dy, dx) in degrees, plus 360 when
    that is negative, the differences and the sum being those of
    binary64.  When [atan2] stays within -180 and 180 degrees, every
    note's angle lies in 0 <= angle <= 360; the sum with 360 of a
    negative angle close to 0 rounds to 360. *)
Theorem motion_to_notes_gives_taps (self : NoteGenerator)
    (motion_regions : list (region_center * string)) :
  motion_to_notes self [] = []
  /\ (forall more, motion_to_notes self (motion_regions ++ more)
                   = motion_to_notes self motion_regions ++ motion_to_notes self more)
  /\ length (motion_to_notes self motion_regions)
     = length (List.filter Spec.pair_center motion_regions)
  /\ (forall note, In note (motion_to_notes self motion_regions) -> fst note = "TAP")
  /\ (forall x y name a,
        region_angles !! name = Some a ->
        motion_to_notes self [(Sequence [x; y], name)] = [("TAP", inject_Z a)])
  /\ (forall x y name,
        region_angles !! name = None ->
        let angle := degrees_atan2 (Float.sub y (Float.of_int (center_y self)))
                                   (Float.sub x (Float.of_int (center_x self))) in
        motion_to_notes self [(Sequence [x; y], name)]
        = [("TAP", if Py.Qltb angle 0 then Float.add angle 360 else angle)])
  /\ (forall coords name,
        length coords <> 2%nat ->
        motion_to_notes self [(Sequence coords, name)] = []
        /\ motion_to_notes self [(Other, name)] = [])
  /\ ((forall y x, -180 <= degrees_atan2 y x /\ degrees_atan2 y x <= 180)%Q ->
      forall note, In note (motion_to_notes self motion_regions) ->
                   (0 <= snd note /\ snd note <= 360)%Q).
Proof.
  split; [reflexivity|]. split; [apply motion_to_notes_app|].
  split; [|split; [|split; [|split; [|split]]]].
  - induction motion_regions as [|[c name] rest IH]; [reflexivity|].
    cbn [motion_to_notes List.filter]. unfold Spec.pair_center at 1. cbn [fst].
    destruct c as [[|x [|y [|z coords]]]|]; cbn [length]; congruence.
  - induction motion_regions as [|[c name] rest IH]; simpl; [intros note []|].
    destruct c as [[|x [|y [|z coords]]]|]; try exact IH.
    intros note [<-|Hin]; [reflexivity|now apply IH].
  - intros x y name a Ha. simpl. unfold region_angle. now rewrite Ha.
  - intros x y name Hnone angle. simpl. unfold region_angle. now rewrite Hnone.
  - intros coords name Hlen. split; [|reflexivity].
    destruct coords as [|x [|y [|z coords]]]; simpl in *; congruence.
  - intros Hatan.
    induction motion_regions as [|[c name] rest IH]; simpl; [intros note []|].
    destruct c as [[|x [|y [|z coords]]]|]; try exact IH.
    intros note [<-|Hin]; [|now apply IH]. cbn [snd]. unfold region_angle.
    destruct (region_angles !! name) as [a|] eqn:Ha.
    + apply region_angles_range in Ha.
      change 0%Q with (inject_Z 0). change 360%Q with (inject_Z 360).
      rewrite <- !Zle_Qle. lia.
    + cbv zeta.
      destruct (Hatan (Float.sub y (Float.of_int (center_y self)))
                      (Float.sub x (Float.of_int (center_x self)))) as [Hlo Hhi].
      set (angle := degrees_atan2 _ _) in *.
      destruct (Py.Qltb angle 0) eqn:E.
      * apply PyFacts.Qltb_lt in E. unfold Float.add.
        apply (FloatFacts.round_le (angle + 360) 360); [lra| |].
        -- change (inject_Z 360) with 360%Q. lra.
        -- vm_compute. discriminate.
      * apply PyFacts.Qltb_ge in E. lra.
Qed.

End MotionFacts.

End GeneratorFacts.

(** ** Calibration over time, and the mapping of points *)

Module MappingFacts.
Import CoordinateMapper Spec.

Lemma int_monotone (x y : Q) : (x <= y)%Q -> (Py.int x <= Py.int y)%Z.
Proof.
  intros Hxy. unfold Py.int.
  destruct (Qle_bool 0 x) eqn:Ex; destruct (Qle_bool 0 y) eqn:Ey.
  - now apply Qfloor_resp_le.
  - apply Qle_bool_iff in Ex. apply PyFacts.Qleb_gt in Ey. exfalso. lra.
  - apply PyFacts.Qleb_gt in Ex. apply Qle_bool_iff in Ey.
    transitivity 0%Z.
    + change 0%Z with (Qceiling (inject_Z 0)). apply Qceiling_resp_le.
      change (inject_Z 0) with 0%Q. lra.
    + change 0%Z with (Qfloor (inject_Z 0)). apply Qfloor_resp_le.
      change (inject_Z 0) with 0%Q. lra.
  - now apply Qceiling_resp_le.
Qed.

Lemma int_of_Z (z : Z) : Py.int (inject_Z z) = z.
Proof.
  unfold Py.int. destruct (Qle_bool 0 (inject_Z z)); [apply Qfloor_Z|apply Qceiling_Z].
Qed.

Section MapperOverTime.
Context `{OpenCV}.

Lemma mapper_run_snoc self cs c :
  mapper_run self (cs ++ [c]) = mapper_step (mapper_run self cs) c.
Proof. unfold mapper_run. now rewrite fold_left_app. Qed.

Lemma step_points self c :
  length (calibration_points (mapper_step self c))
  = (length (calibration_points self) + (if is_add c then 1 else 0))%nat.
Proof.
  destruct c as [w p|]; cbn [mapper_step is_add].
  - rewrite CoordinateMapperFacts.add_calibration_point_length. lia.
  - unfold calculate_transformation.
    destruct (length (calibration_points self) <? 4)%nat; [simpl; lia|].
    destruct (getPerspectiveTransform _ _); simpl; lia.
Qed.

Lemma step_calibrated self c :
  (is_calibrated self = true -> is_calibrated (mapper_step self c) = true)
  /\ ((is_calibrated self = true -> (4 <= length (calibration_points self))%nat) ->
      is_calibrated (mapper_step self c) = true ->
      (4 <= length (calibration_points (mapper_step self c)))%nat).
Proof.
  destruct c as [w p|]; cbn [mapper_step].
  - split; [tauto|]. intros Hinv Hc.
    rewrite CoordinateMapperFacts.add_calibration_point_length.
    specialize (Hinv Hc). lia.
  - unfold calculate_transformation.
    destruct (length (calibration_points self) <? 4)%nat eqn:E; [simpl; tauto|].
    apply Nat.ltb_ge in E.
    destruct (getPerspectiveTransform _ _); simpl; tauto.
Qed.

Lemma run_keeps_calibration self cs :
  is_calibrated self = true -> is_calibrated (mapper_run self cs) = true.
Proof.
  induction cs as [|c cs IH] using rev_ind; intros Hs; [exact Hs|].
  rewrite mapper_run_snoc. apply step_calibrated. now apply IH.
Qed.

Lemma run_points self cs :
  length (calibration_points (mapper_run self cs))
  = (length (calibration_points self) + length (List.filter is_add cs))%nat.
Proof.
  induction cs as [|c cs IH] using rev_ind; [simpl; lia|].
  rewrite mapper_run_snoc, step_points, IH, NotesFacts.filter_snoc, length_app.
  destruct (is_add c); simpl; lia.
Qed.

(** Calibration is never lost and never comes for free: whatever
    points are added and however often the transformation is computed,
    a calibrated mapper stays calibrated; no stored pair is ever
    dropped; and a new mapper is calibrated only once at least 4 pairs
    were added. *)
Theorem calibration_is_kept (self : CoordinateMapper) (cs : list mapper_call) :
  (is_calibrated self = true -> is_calibrated (mapper_run self cs) = true)
  /\ length (calibration_points (mapper_run self cs))
     = (length (calibration_points self) + length (List.filter is_add cs))%nat
  /\ (is_calibrated (mapper_run init cs) = true ->
      (4 <= length (List.filter is_add cs))%nat).
Proof.
  split; [apply run_keeps_calibration|]. split; [apply run_points|].
  assert (Hinv : is_calibrated (mapper_run init cs) = true ->
                 (4 <= length (calibration_points (mapper_run init cs)))%nat).
  { induction cs as [|c cs IH] using rev_ind; [discriminate|].
    rewrite mapper_run_snoc. now apply step_calibrated. }
  intros Hc. specialize (Hinv Hc). rewrite run_points in Hinv. simpl in Hinv. lia.
Qed.

Variable perspectiveTransform : Matrix -> Q * Q -> Q * Q.

(** Without a transformation, [map_coordinates] scales the webcam
    frame (640 by 480) onto the window (1200 by 600): corners go to
    corners, a point of the frame lands inside the window, and the
    mapping preserves the order of coordinates. *)
Theorem map_coordinates_scales (self : CoordinateMapper) :
  is_calibrated self = false ->
  map_coordinates perspectiveTransform self (0, 0)%Q = (0, 0)%Z
  /\ map_coordinates perspectiveTransform self (640, 480)%Q = (1200, 600)%Z
  /\ (forall x y, (0 <= x)%Q -> (x <= 640)%Q -> (0 <= y)%Q -> (y <= 480)%Q ->
        (0 <= fst (map_coordinates perspectiveTransform self (x, y)) <= 1200)%Z
        /\ (0 <= snd (map_coordinates perspectiveTransform self (x, y)) <= 600)%Z)
  /\ (forall x y x' y', (x <= x')%Q -> (y <= y')%Q ->
        (fst (map_coordinates perspectiveTransform self (x, y))
         <= fst (map_coordinates perspectiveTransform self (x', y')))%Z
        /\ (snd (map_coordinates perspectiveTransform self (x, y))
            <= snd (map_coordinates perspectiveTransform self (x', y')))%Z).
Proof.
  unfold is_calibrated, map_coordinates. intros Hnone.
  destruct (transformation_matrix self); [discriminate|]. cbn [fst snd].
  change (inject_Z (Config.WEBCAM_SETTINGS !!! "WIDTH")) with 640%Q.
  change (inject_Z (Config.WEBCAM_SETTINGS !!! "HEIGHT")) with 480%Q.
  change (inject_Z Config.WINDOW_WIDTH) with 1200%Q.
  change (inject_Z Config.WINDOW_HEIGHT) with 600%Q.
  assert (Hx : forall a b, (a <= b)%Q -> (a * 1200 / 640 <= b * 1200 / 640)%Q).
  { intros a b Hab. apply Qle_shift_div_l; [reflexivity|].
    assert (E : (a * 1200 / 640 * 640 == a * 1200)%Q) by (field; discriminate).
    rewrite E. lra. }
  assert (Hy : forall a b, (a <= b)%Q -> (a * 600 / 480 <= b * 600 / 480)%Q).
  { intros a b Hab. apply Qle_shift_div_l; [reflexivity|].
    assert (E : (a * 600 / 480 * 480 == a * 600)%Q) by (field; discriminate).
    rewrite E. lra. }
  split; [reflexivity|]. split; [reflexivity|]. split.
  - intros x y Hx0 Hx1 Hy0 Hy1. split; split.
    + change 0%Z with (Py.int (0 * 1200 / 640)). apply int_monotone. now apply Hx.
    + change 1200%Z with (Py.int (640 * 1200 / 640)). apply int_monotone. now apply Hx.
    + change 0%Z with (Py.int (0 * 600 / 480)). apply int_monotone. now apply Hy.
    + change 600%Z with (Py.int (480 * 600 / 480)). apply int_monotone. now apply Hy.
  - intros x y x' y' Hxx Hyy. split; apply int_monotone; [now apply Hx|now apply Hy].
Qed.

End MapperOverTime.

(** A new mapper, not calibrated, maps the centre of the webcam frame
    to the centre of the window. *)
Lemma map_coordinates_scales_witness :
  @is_calibrated Examples.opencv (@init Examples.opencv) = false
  /\ @map_coordinates Examples.opencv (fun _ p => p) (@init Examples.opencv) (640, 480)%Q
     = (1200, 600)%Z.
Proof.
  split; [reflexivity|].
  exact (proj1 (proj2 (@map_coordinates_scales Examples.opencv (fun _ p => p)
                         (@init Examples.opencv) eq_refl))).
Defined.

End MappingFacts.

(** ** Hand tracking: fingers apart, and the machine border *)

Module TrackingFacts.
Import HandTracker Spec.

Section Fingers.
Context `{Libm}.

Lemma detect_gesture_state self finger_pos finger_id :
  snd (detect_gesture self finger_pos finger_id) = set_prev self finger_id finger_pos.
Proof.
  unfold detect_gesture.
  destruct (prev_positions self !! finger_id) as [[[px py] pz]|]; [|reflexivity].
  destruct finger_pos as [[x y] z]. cbv zeta.
  destruct (Py.Qltb _ _); [reflexivity|]. destruct (Py.Qltb _ _); reflexivity.
Qed.

(** Fingers do not interfere: the gesture found for a finger is the
    same whether or not another finger was observed just before, and
    observing two different fingers in either order leaves the same
    state. *)
Theorem fingers_are_tracked_apart (self : HandTracker)
    (pos1 pos2 : Q * Q * Q) (id1 id2 : string) :
  id1 <> id2 ->
  fst (detect_gesture (snd (detect_gesture self pos1 id1)) pos2 id2)
  = fst (detect_gesture self pos2 id2)
  /\ snd (detect_gesture (snd (detect_gesture self pos1 id1)) pos2 id2)
     = snd (detect_gesture (snd (detect_gesture self pos2 id2)) pos1 id1).
Proof.
  intros Hne. rewrite !detect_gesture_state. split.
  - unfold detect_gesture. cbn [prev_positions set_prev slide_threshold tap_threshold].
    rewrite lookup_insert_ne by assumption.
    destruct (prev_positions self !! id2) as [[[px py] pz]|]; [|reflexivity].
    destruct pos2 as [[x y] z]. cbv zeta.
    destruct (Py.Qltb _ _); [reflexivity|]. destruct (Py.Qltb _ _); reflexivity.
  - unfold set_prev. cbn [prev_positions slide_threshold tap_threshold].
    f_equal. now apply insert_insert_ne.
Qed.

End Fingers.

(** Two fingers of one hand: the thumb's observation does not disturb
    the index finger's slide. *)
Lemma fingers_are_tracked_apart_witness :
  let t1 := snd (@detect_gesture Examples.libm init (0, 0, 0)%Q "hand0_finger8") in
  fst (@detect_gesture Examples.libm
         (snd (@detect_gesture Examples.libm t1 (100, 100, 0)%Q "hand0_finger4"))
         (0, 50, 0)%Q "hand0_finger8")
  = fst (@detect_gesture Examples.libm t1 (0, 50, 0)%Q "hand0_finger8").
Proof.
  intros t1.
  refine (proj1 (@fingers_are_tracked_apart Examples.libm t1 (100, 100, 0)%Q (0, 50, 0)%Q
                   "hand0_finger4" "hand0_finger8" _)).
  discriminate.
Defined.

Section BorderFacts.
Context `{Libm} `{OpenCV}.

Lemma border_loop_step (c : Contour) rest max_circle max_radius :
  border_loop (c :: rest) max_circle max_radius
  = if circular c && Py.Qltb max_radius (snd (minEnclosingCircle c))
    then border_loop rest (Some (circle_of c)) (snd (minEnclosingCircle c))
    else border_loop rest max_circle max_radius.
Proof.
  cbn [border_loop]. unfold circular, circle_of. cbv zeta.
  destruct (Qeq_bool (arcLength c) 0); [reflexivity|]. simpl negb. cbn [andb].
  destruct (Py.Qltb (8 # 10) _); [|reflexivity]. cbn [andb].
  destruct (minEnclosingCircle c) as [[x y] radius]. reflexivity.
Qed.

(** The loop keeps the circle of a circular contour of greatest radius
    above the radius it started with, if there is one. *)
Lemma border_loop_spec contours max_circle max_radius :
  let r := border_loop contours max_circle max_radius in
  (max_radius <= snd r)%Q
  /\ (forall c, In c contours -> circular c = true ->
        (snd (minEnclosingCircle c) <= snd r)%Q)
  /\ ((r = (max_circle, max_radius))
      \/ (exists c, In c contours /\ circular c = true
                    /\ (max_radius < snd (minEnclosingCircle c))%Q
                    /\ r = (Some (circle_of c), snd (minEnclosingCircle c)))).
Proof.
  revert max_circle max_radius.
  induction contours as [|c rest IH]; intros max_circle max_radius.
  - simpl. split; [lra|]. split; [intros c []|now left].
  - cbv zeta. rewrite border_loop_step.
    destruct (circular c) eqn:Ec; cbn [andb].
    + destruct (Py.Qltb max_radius (snd (minEnclosingCircle c))) eqn:Er.
      * apply PyFacts.Qltb_lt in Er.
        destruct (IH (Some (circle_of c)) (snd (minEnclosingCircle c)))
          as (Hge & Hall & Hres).
        split; [lra|]. split.
        -- intros d [<-|Hd] Hcirc; [assumption|now apply Hall].
        -- right. destruct Hres as [Hsame|(d & Hd & Hcirc & Hlt & Hr)].
           ++ exists c. repeat split; [now left|assumption..].
           ++ exists d. repeat split; [now right|assumption|lra|assumption].
      * apply PyFacts.Qltb_ge in Er.
        destruct (IH max_circle max_radius) as (Hge & Hall & Hres).
        split; [assumption|]. split.
        -- intros d [<-|Hd] Hcirc; [lra|now apply Hall].
        -- destruct Hres as [Hsame|(d & Hd & Hcirc & Hlt & Hr)]; [now left|].
           right. exists d. repeat split; [now right|assumption..].
    + destruct (IH max_circle max_radius) as (Hge & Hall & Hres).
      split; [assumption|]. split.
      * intros d [<-|Hd] Hcirc; [congruence|now apply Hall].
      * destruct Hres as [Hsame|(d & Hd & Hcirc & Hlt & Hr)]; [now left|].
        right. exists d. repeat split; [now right|assumption..].
Qed.

Lemma circular_candidate (c : Contour) :
  border_candidate c <-> circular c = true /\ (0 < snd (minEnclosingCircle c))%Q.
Proof.
  unfold border_candidate, circular.
  rewrite andb_true_iff, negb_true_iff, PyFacts.Qltb_lt.
  split.
  - intros (Hp & Hc & Hr). repeat split; [|assumption..].
    destruct (Qeq_bool (arcLength c) 0) eqn:E; [|reflexivity].
    apply Qeq_bool_iff in E. contradiction.
  - intros ((Hp & Hc) & Hr). repeat split; [|assumption..].
    intros Hz. apply Qeq_bool_iff in Hz. congruence.
Qed.

(** [detect_machine_border] keeps the circle it had when no contour is
    a candidate; otherwise it stores the circle of a candidate whose
    enclosing radius no candidate exceeds. *)
Theorem machine_border_is_the_largest_circle (machine_circle : option circle)
    (contours : list Contour) :
  ((forall c, In c contours -> ~ border_candidate c) ->
     detect_machine_border machine_circle contours = machine_circle)
  /\ (forall c0, In c0 contours -> border_candidate c0 ->
        exists c, In c contours /\ border_candidate c
                  /\ detect_machine_border machine_circle contours = Some (circle_of c)
                  /\ forall d, In d contours -> border_candidate d ->
                       (snd (minEnclosingCircle d) <= snd (minEnclosingCircle c))%Q).
Proof.
  unfold detect_machine_border.
  pose proof (border_loop_spec contours None 0) as (Hge & Hall & Hres). cbv zeta in *.
  split.
  - intros Hnone. destruct Hres as [->|(c & Hc & Hcirc & Hlt & _)]; [reflexivity|].
    exfalso. apply (Hnone c Hc). now apply circular_candidate.
  - intros c0 Hc0 Hcand0. apply circular_candidate in Hcand0 as [Hcirc0 Hr0].
    destruct Hres as [Hsame|(c & Hc & Hcirc & Hlt & Hr)].
    + exfalso. specialize (Hall c0 Hc0 Hcirc0). rewrite Hsame in Hall. simpl in Hall. lra.
    + exists c. split; [assumption|]. split; [now apply circular_candidate|].
      rewrite Hr in *. cbn [fst snd] in *. split; [reflexivity|].
      intros d Hd [Hcircd _]%circular_candidate. now apply Hall.
Qed.

End BorderFacts.

End TrackingFacts.

(** ** Manual mapping sessions and the mapping file *)

Module MappingSession.
Import VideoAnalyzer Spec.

Lemma dict_set_app_fresh {V} (k : string) (v v0 : V) done rest :
  ~ In k (map fst done) ->
  dict_set k v (done ++ (k, v0) :: rest) = done ++ (k, v) :: rest.
Proof.
  induction done as [|[k' v'] done IH]; simpl; intros Hfresh.
  - now rewrite String.eqb_refl.
  - destruct (String.eqb_spec k' k) as [->|_]; [exfalso; apply Hfresh; now left|].
    f_equal. apply IH. intros Hin. apply Hfresh. now right.
Qed.

Lemma list_index_app_fresh (k : string) (done rest : list string) :
  ~ In k done -> list_index k (done ++ k :: rest) = Some (length done).
Proof.
  induction done as [|k' done IH]; simpl; intros Hfresh.
  - now rewrite String.eqb_refl.
  - destruct (String.eqb_spec k' k) as [->|_]; [exfalso; apply Hfresh; now left|].
    rewrite IH; [reflexivity|]. intros Hin. apply Hfresh. now right.
Qed.

Lemma NoDup_app_fresh (k : string) (done rest : list string) :
  List.NoDup (done ++ k :: rest) -> ~ In k done.
Proof.
  intros Hnodup Hin. apply NoDup_remove_2 in Hnodup. apply Hnodup.
  apply in_or_app. now left.
Qed.

Section Session.
Variables (min_r max_r : Z) (positions : gmap string (Z * Z)).
Variables (centre : option (Z * Z)) (radius : option Z).

(** The analyzer in mapping mode, waiting for [current]. *)
Let mapping (mb : list (string * option (Z * Z))) (current : string) : VideoAnalyzer :=
  mkAnalyzer min_r max_r positions centre radius true mb (Some current).

(** The analyzer when the session is over. *)
Let mapped (mb : list (string * option (Z * Z))) : VideoAnalyzer :=
  mkAnalyzer min_r max_r positions centre radius false mb None.

Lemma session_from (file : MappingFile) (rest : list (string * option (Z * Z))) :
  forall (clicks : list (Z * Z)) (done : list (string * option (Z * Z))) k v,
    List.NoDup (map fst (done ++ (k, v) :: rest)) ->
    length clicks = S (length rest) ->
    click_all (mapping (done ++ (k, v) :: rest) k) file clicks
    = (map (fun _ => Py.Returned true) clicks,
       mapped (done ++ combine (k :: map fst rest) (map Some clicks)),
       save_button_mapping
         (mapped (done ++ combine (k :: map fst rest) (map Some clicks))) file).
Proof.
  induction rest as [|[k' v'] rest IH]; intros clicks done k v Hnodup Hlen.
  - destruct clicks as [|[x y] [|? ?]]; try discriminate Hlen.
    cbn [click_all]. unfold handle_mapping_click, mapping.
    cbn [mapping_mode current_mapping_button manual_buttons set_manual_buttons].
    rewrite map_app in Hnodup. cbn [map fst] in Hnodup.
    pose proof (NoDup_app_fresh _ _ _ Hnodup) as Hfresh.
    rewrite dict_set_app_fresh by assumption.
    rewrite map_app. cbn [map fst]. rewrite list_index_app_fresh by assumption.
    rewrite length_app, length_map. cbn [length].
    destruct (Z.ltb_spec (Z.of_nat (length done)) (Z.of_nat (length done + 1) - 1));
      [lia|].
    reflexivity.
  - destruct clicks as [|[x y] clicks]; [discriminate Hlen|].
    cbn [click_all]. unfold handle_mapping_click, mapping.
    cbn [mapping_mode current_mapping_button manual_buttons set_manual_buttons].
    rewrite map_app in Hnodup. cbn [map fst] in Hnodup.
    pose proof (NoDup_app_fresh _ _ _ Hnodup) as Hfresh.
    rewrite dict_set_app_fresh by assumption.
    rewrite map_app. cbn [map fst]. rewrite list_index_app_fresh by assumption.
    rewrite length_app, length_map. cbn [length].
    destruct (Z.ltb_spec (Z.of_nat (length done))
                (Z.of_nat (length done + S (S (length (map fst rest)))) - 1)); [|lia].
    replace (length done + 1)%nat with (length (map fst done) + 1)%nat
      by now rewrite length_map.
    rewrite app_nth2 by lia.
    replace (length (map fst done) + 1 - length (map fst done))%nat with 1%nat by lia.
    unfold set_mapping, set_manual_buttons.
    cbn [nth mapping_mode min_radius max_radius button_positions
         screen_center screen_radius manual_buttons current_mapping_button].
    replace (done ++ (k, Some (x, y)) :: (k', v') :: rest)
      with ((done ++ [(k, Some (x, y))]) ++ (k', v') :: rest)
      by now rewrite <- app_assoc.
    fold (mapping ((done ++ [(k, Some (x, y))]) ++ (k', v') :: rest) k').
    rewrite (IH clicks (done ++ [(k, Some (x, y))]) k' v').
    + cbn [map combine]. rewrite <- app_assoc. reflexivity.
    + rewrite <- app_assoc, map_app. cbn [map fst app]. assumption.
    + simpl in Hlen. lia.
Qed.

End Session.

Lemma combine_keys_all_mapped (keys : list string) (clicks : list (Z * Z)) :
  forallb (fun kv : string * option (Z * Z) =>
             match snd kv with Some _ => true | None => false end)
          (combine keys (map Some clicks)) = true.
Proof.
  revert clicks. induction keys as [|k keys IH]; intros [|c clicks]; simpl; auto.
Qed.

(** A mapping session.  On an analyzer whose buttons have distinct
    names, [start_mapping_mode] followed by one click per button
    accepts every click, binds the buttons in order to the points
    clicked, leaves mapping mode, and saves that mapping to the file
    when it can be written; the geometry and the detection band are
    untouched.  A click after the session is refused and changes
    nothing, and from then on the manual strategy of [detect_screen]
    applies to every frame. *)
Theorem mapping_session_binds_every_button (self : VideoAnalyzer) (file : MappingFile)
    (clicks : list (Z * Z)) :
  List.NoDup (map fst (manual_buttons self)) ->
  manual_buttons self <> [] ->
  length clicks = length (manual_buttons self) ->
  let started := snd (start_mapping_mode self) in
  let done := snd (fst (click_all started file clicks)) in
  let file' := snd (click_all started file clicks) in
  fst (start_mapping_mode self) = Py.Returned tt
  /\ fst (fst (click_all started file clicks)) = map (fun _ => Py.Returned true) clicks
  /\ manual_buttons done = combine (map fst (manual_buttons self)) (map Some clicks)
  /\ mapping_mode done = false
  /\ current_mapping_button done = None
  /\ all_mapped done = true
  /\ (screen_center done, screen_radius done, min_radius done, max_radius done)
     = (screen_center self, screen_radius self, min_radius self, max_radius self)
  /\ file' = save_button_mapping done file
  /\ (forall x y, handle_mapping_click done file' x y = (Py.Returned false, done, file'))
  /\ (forall (L : Libm) (O : OpenCV) (frame : Frame),
        fst (detect_screen done (Some frame)) = true).
Proof.
  intros Hnodup Hne Hlen started done file'.
  destruct self as [minr maxr bp sc sr mode mb cur]. cbn [manual_buttons] in *.
  destruct mb as [|[k v] rest]; [congruence|].
  assert (Hstarted : started = mkAnalyzer minr maxr bp sc sr true ((k, v) :: rest) (Some k))
    by reflexivity.
  pose proof (session_from minr maxr bp sc sr file rest clicks [] k v Hnodup Hlen) as Hrun.
  cbn [app] in Hrun. rewrite <- Hstarted in Hrun.
  subst done file'. rewrite Hrun. cbn [fst snd manual_buttons mapping_mode
    current_mapping_button screen_center screen_radius min_radius max_radius map].
  assert (Hall : all_mapped
            (mkAnalyzer minr maxr bp sc sr false
               (combine (k :: map fst rest) (map Some clicks)) None) = true).
  { unfold all_mapped. cbn [manual_buttons]. apply combine_keys_all_mapped. }
  repeat split; try reflexivity; try assumption.
  intros L O frame. unfold detect_screen. now rewrite Hall.
Qed.

(** A session on a new analyzer: eight clicks bind the eight sectors,
    TOP first, and the mapping is saved. *)
Lemma mapping_session_binds_every_button_witness :
  let clicks := [(320, 40); (460, 100); (520, 240); (460, 380);
                 (320, 440); (180, 380); (120, 240); (180, 100)]%Z in
  let started := snd (start_mapping_mode init) in
  manual_buttons (snd (fst (click_all started (mkFile None true) clicks)))
  = [("TOP", Some (320, 40)); ("TOP_RIGHT", Some (460, 100)); ("RIGHT", Some (520, 240));
     ("BOTTOM_RIGHT", Some (460, 380)); ("BOTTOM", Some (320, 440));
     ("BOTTOM_LEFT", Some (180, 380)); ("LEFT", Some (120, 240));
     ("TOP_LEFT", Some (180, 100))]%Z.
Proof.
  intros clicks started.
  refine (proj1 (proj2 (proj2 (mapping_session_binds_every_button init (mkFile None true)
                                 clicks _ _ _)))).
  - cbn. repeat (constructor; [cbn; intuition discriminate|]). constructor.
  - discriminate.
  - reflexivity.
Defined.

Lemma load_fold_restores (rest : list (string * option (Z * Z))) :
  forall done,
    List.NoDup (map fst (done ++ rest)) ->
    fold_left (fun mb bp =>
                 match snd bp with
                 | Some pos => dict_set (fst bp) (Some pos) mb
                 | None => mb
                 end) rest (done ++ unbound rest)
    = done ++ rest.
Proof.
  induction rest as [|[k [pos|]] rest IH]; intros done Hnodup; [reflexivity|..];
    cbn [fold_left unbound map fst snd].
  - rewrite map_app in Hnodup. cbn [map fst] in Hnodup.
    rewrite dict_set_app_fresh by exact (NoDup_app_fresh _ _ _ Hnodup).
    replace (done ++ (k, Some pos) :: map (fun kv => (fst kv, None)) rest)
      with ((done ++ [(k, Some pos)]) ++ unbound rest) by now rewrite <- app_assoc.
    rewrite IH; [now rewrite <- app_assoc|].
    rewrite <- app_assoc, map_app. exact Hnodup.
  - replace (done ++ (k, None) :: map (fun kv => (fst kv, None)) rest)
      with ((done ++ [(k, None)]) ++ unbound rest) by now rewrite <- app_assoc.
    rewrite IH; [now rewrite <- app_assoc|].
    rewrite <- app_assoc. exact Hnodup.
Qed.

(** Saving and loading.  What [save_button_mapping] writes,
    [load_button_mapping] restores into an analyzer with the same
    buttons, all unbound: the button positions come back as they were,
    and so do the centre and radius when both were set and the radius
    was not 0 (otherwise the loading analyzer keeps its own).  A file
    that cannot be written is left alone, and loading without a file
    fails and changes nothing. *)
Theorem saved_mapping_is_restored (self other : VideoAnalyzer) (file : MappingFile) :
  List.NoDup (map fst (manual_buttons self)) ->
  manual_buttons other = unbound (manual_buttons self) ->
  let saved := save_button_mapping self file in
  (writable file = true ->
     fst (load_button_mapping other saved) = true
     /\ manual_buttons (snd (load_button_mapping other saved)) = manual_buttons self
     /\ (forall c r, Trainer.geometry self = Some (c, r) ->
           screen_center (snd (load_button_mapping other saved)) = Some c
           /\ screen_radius (snd (load_button_mapping other saved)) = Some r)
     /\ (Trainer.geometry self = None ->
           screen_center (snd (load_button_mapping other saved)) = screen_center other
           /\ screen_radius (snd (load_button_mapping other saved)) = screen_radius other))
  /\ (writable file = false -> saved = file)
  /\ load_button_mapping other (mkFile None (writable file)) = (false, other).
Proof.
  intros Hnodup Hother saved. split; [|split; [|reflexivity]].
  - intros Hw. subst saved. unfold save_button_mapping, load_button_mapping.
    rewrite Hw. cbn [content buttons screen]. rewrite Hother.
    pose proof (load_fold_restores (manual_buttons self) [] Hnodup) as Hfold.
    cbn [app] in Hfold. rewrite Hfold.
    change (match screen_center self, screen_radius self with
            | Some c, Some r => if (r =? 0)%Z then None else Some (c, r)
            | _, _ => None
            end) with (Trainer.geometry self).
    destruct (Trainer.geometry self) as [[c r]|]; cbn.
    + split; [reflexivity|]. split; [reflexivity|]. split; [|discriminate].
      intros c' r' [= <- <-]. split; reflexivity.
    + split; [reflexivity|]. split; [reflexivity|]. split; [discriminate|].
      intros _. split; reflexivity.
  - intros Hw. subst saved. unfold save_button_mapping. now rewrite Hw.
Qed.

(** The mapping of a finished session survives a restart: saved from
    the session's analyzer, loaded into a new one. *)
Lemma saved_mapping_is_restored_witness :
  let clicks := [(320, 40); (460, 100); (520, 240); (460, 380);
                 (320, 440); (180, 380); (120, 240); (180, 100)]%Z in
  let done := snd (fst (click_all (snd (start_mapping_mode init)) (mkFile None true) clicks)) in
  manual_buttons (snd (load_button_mapping init (save_button_mapping done (mkFile None true))))
  = manual_buttons done.
Proof.
  intros clicks done.
  refine (proj1 (proj2 (proj1 (saved_mapping_is_restored done init (mkFile None true) _ _)
                          eq_refl))).
  - vm_compute. repeat (constructor; [cbn; intuition discriminate|]). constructor.
  - reflexivity.
Defined.

End MappingSession.

(** ** Automatic screen detection: the largest circle wins *)

Module AutoDetection.
Import VideoAnalyzer Spec.

Section Largest.
Context `{Libm} `{OpenCV}.

Lemma insert_desc_sorted (x : Contour) (cs : list Contour) :
  StronglySorted area_desc cs -> StronglySorted area_desc (insert_desc x cs).
Proof.
  induction 1 as [|d ds Hsorted IH Hall]; simpl.
  - constructor; constructor.
  - destruct (Py.Qltb (contourArea d) (contourArea x)) eqn:E.
    + apply PyFacts.Qltb_lt in E. constructor; [now constructor|].
      constructor; [unfold area_desc; lra|].
      apply List.Forall_forall. intros e He. rewrite List.Forall_forall in Hall.
      specialize (Hall e He). unfold area_desc in *. lra.
    + apply PyFacts.Qltb_ge in E. constructor; [assumption|].
      apply List.Forall_forall. intros e He. apply ScreenFacts.insert_desc_In in He.
      destruct He as [->|He]; [exact E|].
      rewrite List.Forall_forall in Hall. now apply Hall.
Qed.

Lemma sorted_desc_sorted (cs : list Contour) : StronglySorted area_desc (sorted_desc cs).
Proof.
  unfold sorted_desc.
  assert (Hgen : forall acc, StronglySorted area_desc acc ->
            StronglySorted area_desc (fold_left (fun acc c => insert_desc c acc) cs acc)).
  { induction cs as [|c cs IH]; intros acc Hacc; simpl; [assumption|].
    apply IH. now apply insert_desc_sorted. }
  apply Hgen. constructor.
Qed.

Lemma sorted_after (pre : list Contour) (c : Contour) (post : list Contour) :
  StronglySorted area_desc (pre ++ c :: post) -> Forall (area_desc c) post.
Proof.
  induction pre as [|p pre IH]; simpl; intros Hs; inversion Hs; subst; auto.
Qed.

(** The loop returns at the first contour that qualifies. *)
Lemma contour_loop_first (self : VideoAnalyzer) (cs : list Contour) (c0 : Contour) :
  In c0 cs -> qualifies self c0 = true ->
  exists pre c post,
    cs = pre ++ c :: post
    /\ (forall d, In d pre -> qualifies self d = false)
    /\ qualifies self c = true
    /\ contour_loop self cs
       = (true, set_screen self
                  (Py.int (fst (fst (minEnclosingCircle c))),
                   Py.int (snd (fst (minEnclosingCircle c))))
                  (Py.int (snd (minEnclosingCircle c)))).
Proof.
  induction cs as [|c cs IH]; intros Hin Hq; [destruct Hin|].
  destruct (qualifies self c) eqn:E.
  - exists [], c, cs. split; [reflexivity|]. split; [intros d []|]. split; [assumption|].
    simpl. rewrite E. now destruct (minEnclosingCircle c) as [[x y] r].
  - destruct Hin as [->|Hin]; [congruence|].
    destruct (IH Hin Hq) as (pre & c1 & post & -> & Hpre & Hq1 & Hloop).
    exists (c :: pre), c1, post. split; [reflexivity|]. split.
    + intros d [<-|Hd]; [assumption|now apply Hpre].
    + split; [assumption|]. simpl. now rewrite E.
Qed.

(** When the manual mapping is incomplete and some contour of the
    frame qualifies, [detect_screen] succeeds and takes its geometry
    from the enclosing circle of a qualifying contour whose area no
    qualifying contour exceeds; nothing else of the analyzer changes. *)
Theorem auto_detection_takes_largest_circle (self : VideoAnalyzer) (frame : Frame)
    (c0 : Contour) :
  all_mapped self = false ->
  In c0 (edge_contours frame) ->
  qualifies self c0 = true ->
  exists c,
    In c (edge_contours frame)
    /\ qualifies self c = true
    /\ detect_screen self (Some frame)
       = (true, set_screen self
                  (Py.int (fst (fst (minEnclosingCircle c))),
                   Py.int (snd (fst (minEnclosingCircle c))))
                  (Py.int (snd (minEnclosingCircle c))))
    /\ (forall d, In d (edge_contours frame) -> qualifies self d = true ->
          (contourArea d <= contourArea c)%Q).
Proof.
  intros Hmanual Hin Hq. unfold detect_screen. rewrite Hmanual.
  destruct (edge_contours frame) as [|e es] eqn:Ee; [destruct Hin|].
  assert (Hin' : In c0 (sorted_desc (e :: es))) by now apply ScreenFacts.sorted_desc_In.
  destruct (contour_loop_first self _ c0 Hin' Hq) as (pre & c & post & Hcs & Hpre & Hqc & Hloop).
  exists c. split.
  { apply (ScreenFacts.sorted_desc_In c (e :: es)). rewrite Hcs.
    apply in_or_app. right. now left. }
  split; [assumption|]. split; [exact Hloop|].
  intros d Hd Hqd. apply (ScreenFacts.sorted_desc_In d (e :: es)) in Hd.
  pose proof (sorted_desc_sorted (e :: es)) as Hsorted. rewrite Hcs in Hsorted, Hd.
  apply sorted_after in Hsorted. rewrite List.Forall_forall in Hsorted.
  apply in_app_or in Hd as [Hd|[<-|Hd]].
  - rewrite (Hpre d Hd) in Hqd. discriminate.
  - apply Qle_refl.
  - now apply Hsorted.
Qed.

End Largest.

(** Two circles in a frame, the larger one second: detection takes the
    larger. *)
Lemma auto_detection_takes_largest_circle_witness :
  let small := Examples.mkContour 66052 911 ((100, 100), 146)%Q in
  let large := Examples.mkContour 70686 942 ((320, 240), 151)%Q in
  @qualifies Examples.libm Examples.opencv init small = true
  /\ @detect_screen Examples.libm Examples.opencv init (Some [small; large])
     = (true, set_screen init (320, 240)%Z 151).
Proof.
  intros small large. split; [vm_compute; reflexivity|].
  destruct (@auto_detection_takes_largest_circle Examples.libm Examples.opencv
              init [small; large] small eq_refl (or_introl eq_refl) eq_refl)
    as (c & Hc & _ & Hres & Hmax).
  destruct Hc as [<-|[<-|[]]].
  - exfalso. apply (Hmax large); [right; left; reflexivity|reflexivity..].
  - exact Hres.
Defined.

End AutoDetection.

(** ** Hit gating in the trainer *)

Module HitGating.
Import Trainer Spec.

Section Gates.
Context `{Libm}.

Lemma add_hit_dot_frame self dot_time angle :
  hit_cooldown (add_hit_dot self dot_time angle) = hit_cooldown self
  /\ last_hit_time (add_hit_dot self dot_time angle) = last_hit_time self
  /\ last_finger_positions (add_hit_dot self dot_time angle) = last_finger_positions self
  /\ video_analyzer (add_hit_dot self dot_time angle) = video_analyzer self.
Proof.
  unfold add_hit_dot, count_section.
  destruct (Py.Qltb _ _); [now repeat split|].
  destruct (hit_stats self !! get_hit_section angle); now repeat split.
Qed.

Lemma count_section_frame self section :
  hit_cooldown (count_section self section) = hit_cooldown self
  /\ last_hit_time (count_section self section) = last_hit_time self
  /\ last_finger_positions (count_section self section) = last_finger_positions self
  /\ video_analyzer (count_section self section) = video_analyzer self
  /\ hit_dots (count_section self section) = hit_dots self.
Proof.
  unfold count_section. destruct (hit_stats self !! section); now repeat split.
Qed.

(** The clock of [check_button_hit]: the cooldown is never changed,
    and an accepted update sets the hit time to the time of the call. *)
Lemma check_button_hit_clock (self : MaiMaiTrainer) (current_time dot_time : Q)
    (finger_x finger_y finger_id : Z) :
  let r := check_button_hit self current_time dot_time finger_x finger_y finger_id in
  hit_cooldown (snd r) = hit_cooldown self
  /\ (fst r = true -> last_hit_time (snd r) = current_time).
Proof.
  intros r. subst r. unfold check_button_hit.
  destruct (Py.Qltb (current_time - last_hit_time self) (hit_cooldown self));
    [split; [reflexivity|discriminate]|].
  destruct (last_finger_positions self !! finger_id) as [last_pos|];
    [|split; [reflexivity|discriminate]].
  cbv zeta. cbn [video_analyzer set_finger min_movement_threshold].
  destruct (geometry (video_analyzer self)) as [[c radius]|];
    [|split; [reflexivity|discriminate]].
  destruct (Py.Qltb _ _ && Py.Qltb _ _); [|split; [reflexivity|discriminate]].
  destruct (Py.Qltb (min_movement_threshold self) _); [|split; [reflexivity|discriminate]].
  cbn [fst snd]. split.
  - rewrite (proj1 (count_section_frame _ _)). cbn [hit_cooldown set_last_hit_time].
    rewrite (proj1 (add_hit_dot_frame _ _ _)). reflexivity.
  - intros _. rewrite (proj1 (proj2 (count_section_frame _ _))). reflexivity.
Qed.

(** The second half of the statement below, for a rejected update. *)
Ltac rejected :=
  split; [discriminate|];
  split; [intros _; split; [reflexivity|split; reflexivity]|reflexivity].

(** [check_button_hit] accepts a finger update exactly when every gate
    is passed: the cooldown since the last hit has run out, the finger
    was seen before, the screen geometry is known, the finger lies
    strictly inside the ring between [0.7 * screen_radius] and
    [0.9 * screen_radius] as binary64 computes them, and it moved more
    than the movement threshold.  An accepted update restarts the
    cooldown; a rejected one leaves the hit time, the hit dots and the
    hit counters as they were. *)
Theorem hit_needs_every_gate (self : MaiMaiTrainer) (current_time dot_time : Q)
    (finger_x finger_y finger_id : Z) :
  let r := check_button_hit self current_time dot_time finger_x finger_y finger_id in
  (fst r = true <->
     (hit_cooldown self <= current_time - last_hit_time self)%Q
     /\ exists last_pos c radius,
          last_finger_positions self !! finger_id = Some last_pos
          /\ geometry (video_analyzer self) = Some (c, radius)
          /\ (ring_inner radius < distance finger_x finger_y c)%Q
          /\ (distance finger_x finger_y c < ring_outer radius)%Q
          /\ (min_movement_threshold self < distance finger_x finger_y last_pos)%Q)
  /\ (fst r = true -> last_hit_time (snd r) = current_time)
  /\ (fst r = false ->
        last_hit_time (snd r) = last_hit_time self
        /\ hit_dots (snd r) = hit_dots self
        /\ hit_stats (snd r) = hit_stats self)
  /\ hit_cooldown (snd r) = hit_cooldown self.
Proof.
  intros r. subst r. unfold check_button_hit, distance, ring_inner, ring_outer.
  destruct (Py.Qltb (current_time - last_hit_time self) (hit_cooldown self)) eqn:Ecool.
  { apply PyFacts.Qltb_lt in Ecool. cbn [fst snd].
    split; [|now repeat split]. split; [discriminate|]. intros [Hc _]. exfalso. lra. }
  apply PyFacts.Qltb_ge in Ecool.
  destruct (last_finger_positions self !! finger_id) as [last_pos|] eqn:Elast.
  2:{ cbn [fst snd]. split; [|now repeat split]. split; [discriminate|].
      intros (_ & lp & c & rad & [=] & _). }
  cbv zeta. cbn [video_analyzer set_finger min_movement_threshold].
  destruct (geometry (video_analyzer self)) as [[c radius]|] eqn:Egeo.
  2:{ cbn [fst snd]. split; [|now repeat split]. split; [discriminate|].
      intros (_ & lp & c & rad & _ & [=] & _). }
  set (d := sqrt (inject_Z ((finger_x - fst c) * (finger_x - fst c)
                            + (finger_y - snd c) * (finger_y - snd c)))).
  set (m := sqrt (inject_Z ((finger_x - fst last_pos) * (finger_x - fst last_pos)
                            + (finger_y - snd last_pos) * (finger_y - snd last_pos)))).
  remember (Float.mul (Float.round (7 # 10)) (Float.of_int radius)) as inner eqn:Hinner.
  remember (Float.mul (Float.round (9 # 10)) (Float.of_int radius)) as outer eqn:Houter.
  destruct (Py.Qltb inner d) eqn:Elo; cbn [andb].
  2:{ apply PyFacts.Qltb_ge in Elo. cbn [fst snd].
      split; [|rejected]. split; [discriminate|].
      intros (_ & lp & c' & rad & [= <-] & [= <- <-] & Hlo & _).
      fold d in Hlo. rewrite <- Hinner in Hlo. exfalso. lra. }
  apply PyFacts.Qltb_lt in Elo.
  destruct (Py.Qltb d outer) eqn:Ehi.
  2:{ apply PyFacts.Qltb_ge in Ehi. cbn [fst snd].
      split; [|rejected]. split; [discriminate|].
      intros (_ & lp & c' & rad & [= <-] & [= <- <-] & _ & Hhi & _).
      fold d in Hhi. rewrite <- Houter in Hhi. exfalso. lra. }
  apply PyFacts.Qltb_lt in Ehi.
  destruct (Py.Qltb (min_movement_threshold self) m) eqn:Emove.
  2:{ apply PyFacts.Qltb_ge in Emove. cbn [fst snd].
      split; [|rejected]. split; [discriminate|].
      intros (_ & lp & c' & rad & [= <-] & _ & _ & _ & Hm). fold m in Hm.
      exfalso. lra. }
  apply PyFacts.Qltb_lt in Emove. cbn [fst snd].
  split.
  { split; [|reflexivity]. intros _. split; [assumption|].
    exists last_pos, c, radius. rewrite <- Hinner, <- Houter.
    split; [reflexivity|]. split; [reflexivity|]. split; [exact Elo|].
    split; [exact Ehi|exact Emove]. }
  split.
  { intros _. rewrite (proj1 (proj2 (count_section_frame _ _))). reflexivity. }
  split; [discriminate|].
  rewrite (proj1 (count_section_frame _ _)). cbn [hit_cooldown set_last_hit_time].
  rewrite (proj1 (add_hit_dot_frame _ _ _)). reflexivity.
Qed.

(** Debounce: once an update is accepted at some time, every update
    that arrives before the cooldown has run out is rejected and
    changes nothing at all. *)
Theorem hits_are_debounced (self : MaiMaiTrainer) (t dot_time : Q) (x y id : Z)
    (t' dot_time' : Q) (x' y' id' : Z) :
  fst (check_button_hit self t dot_time x y id) = true ->
  (t' - t < hit_cooldown self)%Q ->
  check_button_hit (snd (check_button_hit self t dot_time x y id)) t' dot_time' x' y' id'
  = (false, snd (check_button_hit self t dot_time x y id)).
Proof.
  intros Hhit Hsoon.
  pose proof (check_button_hit_clock self t dot_time x y id) as (Hcool & Htime).
  cbv zeta in Htime, Hcool. specialize (Htime Hhit).
  unfold check_button_hit at 1. rewrite Htime, Hcool.
  apply PyFacts.Qltb_lt in Hsoon. now rewrite Hsoon.
Qed.

End Gates.

(** A finger that moved 20 pixels into the ring is accepted at 1000 ms,
    and the same finger is rejected 20 ms later. *)
Lemma hits_are_debounced_witness :
  fst (@check_button_hit Examples.libm Examples.tracked_trainer 1000 1000 480 240 8) = true
  /\ @check_button_hit Examples.libm
       (snd (@check_button_hit Examples.libm Examples.tracked_trainer 1000 1000 480 240 8))
       1020 1020 480 240 8
     = (false, snd (@check_button_hit Examples.libm Examples.tracked_trainer
                                      1000 1000 480 240 8)).
Proof.
  assert (Hhit : fst (@check_button_hit Examples.libm Examples.tracked_trainer
                                        1000 1000 480 240 8) = true)
    by (vm_compute; reflexivity).
  split; [exact Hhit|].
  apply (@hits_are_debounced Examples.libm Examples.tracked_trainer
           1000 1000 480 240 8 1020 1020 480 240 8 Hhit).
  vm_compute. reflexivity.
Defined.

(** At the inner bound of the ring, with the stand-in [math] of the
    examples.  On a screen of radius 90 the bound [0.7 * 90] is
    62.99999999999999, and a finger that moved to distance 63 from the
    centre is accepted; on a screen of radius 10 the bound [0.7 * 10]
    is 7, and a finger that moved to distance 7 is rejected, one that
    moved to distance 8 is accepted. *)
Lemma hit_at_the_inner_bound :
  let trainer := fun r last =>
    Trainer.set_finger
      (Trainer.init 0 (VideoAnalyzer.set_screen VideoAnalyzer.init (320, 240)%Z r))
      8 last in
  (ring_inner 90 == 8866461766385663 # 140737488355328)%Q
  /\ (ring_inner 90 < 63)%Q
  /\ (ring_inner 10 == 7)%Q
  /\ fst (@check_button_hit Examples.libm (trainer 90%Z (360, 240)%Z) 1000 1000 383 240 8)
     = true
  /\ fst (@check_button_hit Examples.libm (trainer 10%Z (300, 240)%Z) 1000 1000 327 240 8)
     = false
  /\ fst (@check_button_hit Examples.libm (trainer 10%Z (300, 240)%Z) 1000 1000 328 240 8)
     = true.
Proof. intros trainer. repeat split; vm_compute; reflexivity. Qed.

Section Dots.
Context `{Libm}.

(** A hit dot lives for half a second: a dot added at time [t0] (the
    dot cooldown having run out) is still there after
    [update_hit_dots] at a later time exactly when less than 500 ms
    have gone by; [update_hit_dots] only ever removes dots; and within
    the dot cooldown [add_hit_dot] adds nothing. *)
Theorem hit_dot_lifetime (self : MaiMaiTrainer) (t0 angle now : Q) :
  let added := add_hit_dot self t0 angle in
  ((dot_cooldown self <= t0 - last_dot_time self)%Q ->
     exists dot,
       hit_dots added = hit_dots self ++ [dot]
       /\ snd (fst dot) = t0
       /\ (In dot (hit_dots (update_hit_dots added now)) <-> (now - t0 < 500)%Q))
  /\ ((t0 - last_dot_time self < dot_cooldown self)%Q -> added = self)
  /\ (forall dot, In dot (hit_dots (update_hit_dots self now)) ->
        In dot (hit_dots self) /\ (now - snd (fst dot) < 500)%Q).
Proof.
  intros added. subst added. unfold add_hit_dot.
  split; [|split].
  - intros Hcool. apply PyFacts.Qltb_ge in Hcool. rewrite Hcool. cbv zeta.
    eexists. cbn [hit_dots]. rewrite (proj2 (proj2 (proj2 (proj2 (count_section_frame _ _))))).
    split; [reflexivity|]. split; [reflexivity|].
    unfold update_hit_dots. cbn [hit_dots]. rewrite filter_In. cbn [fst snd].
    rewrite PyFacts.Qltb_lt. unfold dot_duration. split; [tauto|].
    intros Hlt. split; [|assumption]. apply in_or_app. right. now left.
  - intros Hsoon. apply PyFacts.Qltb_lt in Hsoon. now rewrite Hsoon.
  - intros dot. unfold update_hit_dots. cbn [hit_dots]. rewrite filter_In.
    now rewrite PyFacts.Qltb_lt.
Qed.

End Dots.

End HitGating.

(** ** Development mode: motion regions and the per-sector cooldown *)

Module DevModeFacts.
Import DevMode Spec.

Lemma mod_360_range (x : Q) : (0 <= Py.mod_ x 360 /\ Py.mod_ x 360 < 360)%Q.
Proof.
  unfold Py.mod_.
  pose proof (Qfloor_le (x / 360)) as Hlo.
  pose proof (Qlt_floor (x / 360)) as Hhi.
  rewrite inject_Z_plus in Hhi. change (inject_Z 1) with 1%Q in Hhi.
  assert (Hx : (x == x / 360 * 360)%Q) by (field; discriminate).
  set (q := (x / 360)%Q) in *. set (f := inject_Z (Qfloor q)) in *.
  split.
  - rewrite Hx at 1. lra.
  - rewrite Hx at 1. lra.
Qed.

Lemma sector_of_angle (a : Q) :
  (0 <= a)%Q -> (a < 360)%Q ->
  exists k, (0 <= k < 8)%Z /\ sector_start a = (45 * k)%Z
            /\ (inject_Z (45 * k) <= a)%Q /\ (a < inject_Z (45 * (k + 1)))%Q.
Proof.
  intros Hlo Hhi. unfold sector_start, Py.int.
  assert (He : (a / 45 == a * (1 # 45))%Q) by (field; try discriminate).
  assert (Hq : (0 <= a / 45)%Q) by (rewrite He; lra).
  assert (Hq8 : (a / 45 < 8)%Q) by (rewrite He; lra).
  clear He.
  assert (Ha : (a == a / 45 * 45)%Q) by (field; discriminate).
  destruct (Qle_bool 0 (a / 45)) eqn:E; [|apply PyFacts.Qleb_gt in E; lra].
  pose proof (Qfloor_le (a / 45)) as Hfl.
  pose proof (Qlt_floor (a / 45)) as Hfh.
  exists (Qfloor (a / 45)). split; [split|split; [lia|split]].
  - change 0%Z with (Qfloor (inject_Z 0)). apply Qfloor_resp_le. exact Hq.
  - rewrite Zlt_Qlt. change (inject_Z 8) with 8%Q. lra.
  - rewrite inject_Z_mult. change (inject_Z 45) with 45%Q.
    set (q := (a / 45)%Q) in *. rewrite Ha. lra.
  - rewrite inject_Z_mult. change (inject_Z 45) with 45%Q.
    set (q := (a / 45)%Q) in *. rewrite Ha at 1. lra.
Qed.

Lemma to_int_nonnil (z : Z) : Z.to_int z <> Pos Nil /\ Z.to_int z <> Neg Nil.
Proof.
  destruct z as [|p|p]; simpl; split; try discriminate;
    intros Heq; injection Heq as Heq; exact (Unsigned.to_uint_nonnil p Heq).
Qed.

Lemma str_inj (a b : Z) : Py.str a = Py.str b -> a = b.
Proof.
  unfold Py.str. intros Heq.
  assert (Hi : Some (Z.to_int a) = Some (Z.to_int b)).
  { rewrite <- (NilZero.isi (Z.to_int a)) by apply to_int_nonnil.
    rewrite <- (NilZero.isi (Z.to_int b)) by apply to_int_nonnil.
    now rewrite Heq. }
  injection Hi as Hi.
  rewrite <- (DecimalZ.of_to a), <- (DecimalZ.of_to b). now rewrite Hi.
Qed.

Lemma angle_key_sector (a b : Q) :
  angle_key a = angle_key b <-> sector_start a = sector_start b.
Proof.
  unfold angle_key, sector_start. split.
  - intros Heq. apply str_inj. simpl in Heq. now inversion Heq.
  - now intros ->.
Qed.

Lemma queue_hit_cases (self : DevModeHandler) (t : Q) (h : string * Q) :
  let r := queue_hit self t h in
  cooldown_time r = cooldown_time self
  /\ ((r = self
       /\ exists t0, note_cooldown self !! angle_key (snd h) = Some t0
                     /\ (t - t0 <= cooldown_time self)%Q)
      \/ (generated_notes r = generated_notes self ++ [h]
          /\ note_cooldown r = <[angle_key (snd h) := t]> (note_cooldown self)
          /\ (note_cooldown self !! angle_key (snd h) = None
              \/ exists t0, note_cooldown self !! angle_key (snd h) = Some t0
                            /\ (cooldown_time self < t - t0)%Q))).
Proof.
  destruct h as [ty a]. cbn [snd]. unfold queue_hit.
  destruct (note_cooldown self !! angle_key a) as [t0|] eqn:E.
  - destruct (Py.Qltb (cooldown_time self) (t - t0)) eqn:Eb; cbn.
    + split; [reflexivity|]. right. split; [reflexivity|]. split; [reflexivity|].
      right. exists t0. split; [reflexivity|]. now apply PyFacts.Qltb_lt.
    + split; [reflexivity|]. left. split; [reflexivity|]. exists t0.
      split; [reflexivity|]. now apply PyFacts.Qltb_ge.
  - cbn. split; [reflexivity|]. right. split; [reflexivity|]. split; [reflexivity|].
    now left.
Qed.

Lemma queue_motion_hits_snoc self t hits h :
  queue_motion_hits self t (hits ++ [h]) = queue_hit (queue_motion_hits self t hits) t h.
Proof. unfold queue_motion_hits. now rewrite fold_left_app. Qed.

(** What one batch of motion hits adds to the queue. *)
Lemma batch_spec (self : DevModeHandler) (t : Q) (hits : list (string * Q)) :
  (0 <= cooldown_time self)%Q ->
  let r := queue_motion_hits self t hits in
  exists added,
    generated_notes r = generated_notes self ++ added
    /\ cooldown_time r = cooldown_time self
    /\ List.NoDup (map (fun h => angle_key (snd h)) added)
    /\ (forall h, In h added ->
                  In h hits /\ note_cooldown r !! angle_key (snd h) = Some t)
    /\ (forall k, (forall h, In h added -> angle_key (snd h) <> k) ->
                  note_cooldown r !! k = note_cooldown self !! k).
Proof.
  intros Hct. induction hits as [|h hits IH] using rev_ind; intros r.
  - exists []. subst r. cbn. rewrite app_nil_r.
    split; [reflexivity|]. split; [reflexivity|]. split; [constructor|].
    split; [intros h []|reflexivity].
  - destruct IH as (added & Hgen & Hcool & Hnd & Hin & Hother).
    subst r. rewrite queue_motion_hits_snoc.
    set (s := queue_motion_hits self t hits) in *.
    destruct (queue_hit_cases s t h) as [Hct' [[Hsame _]|(Hg & Hc & Hfree)]].
    + exists added. rewrite Hsame.
      split; [exact Hgen|]. split; [exact Hcool|]. split; [exact Hnd|].
      split; [|exact Hother].
      intros h' Hh'. destruct (Hin h' Hh') as [Hi Hl]. split; [|exact Hl].
      apply in_or_app. now left.
    + exists (added ++ [h]).
      assert (Hfresh : ~ In (angle_key (snd h)) (map (fun h => angle_key (snd h)) added)).
      { intros Hk. apply in_map_iff in Hk. destruct Hk as (h' & Hk & Hh').
        destruct (Hin h' Hh') as [_ Hl]. rewrite Hk in Hl.
        destruct Hfree as [Hnone|(t0 & Ht0 & Hlt)]; [congruence|].
        rewrite Hl in Ht0. injection Ht0 as <-. rewrite Hcool in Hlt.
        assert (Hz : (t - t == 0)%Q) by ring. rewrite Hz in Hlt. lra. }
      split; [rewrite Hg, Hgen; now rewrite app_assoc|].
      split; [now rewrite Hct'|].
      split; [|split].
      * rewrite map_app. cbn [map].
        apply (Permutation.Permutation_NoDup (Permutation_cons_append _ _)).
        now constructor.
      * intros h' Hh'. apply in_app_or in Hh'. rewrite Hc.
        destruct Hh' as [Hh'|[<-|[]]].
        -- destruct (Hin h' Hh') as [Hi Hl]. split; [apply in_or_app; now left|].
           destruct (decide (angle_key (snd h) = angle_key (snd h'))) as [->|Hne].
           ++ apply lookup_insert_eq.
           ++ now rewrite lookup_insert_ne.
        -- split; [apply in_or_app; right; now left|apply lookup_insert_eq].
      * intros k Hk. rewrite Hc. rewrite lookup_insert_ne.
        -- apply Hother. intros h' Hh'. apply Hk. apply in_or_app. now left.
        -- apply Hk. apply in_or_app. right. now left.
Qed.

(** A sector that is cooling down stays so through a batch. *)
Lemma batch_blocked (self : DevModeHandler) (t : Q) (hits : list (string * Q))
    (k : string) (t0 : Q) :
  note_cooldown self !! k = Some t0 ->
  (t - t0 <= cooldown_time self)%Q ->
  let r := queue_motion_hits self t hits in
  exists added,
    generated_notes r = generated_notes self ++ added
    /\ cooldown_time r = cooldown_time self
    /\ note_cooldown r !! k = Some t0
    /\ (forall h, In h added -> angle_key (snd h) <> k).
Proof.
  intros Hk Hle. induction hits as [|h hits IH] using rev_ind; intros r.
  - exists []. subst r. cbn. rewrite app_nil_r.
    split; [reflexivity|]. split; [reflexivity|]. split; [exact Hk|intros h []].
  - destruct IH as (added & Hgen & Hcool & Hl & Hne).
    subst r. rewrite queue_motion_hits_snoc.
    set (s := queue_motion_hits self t hits) in *.
    destruct (queue_hit_cases s t h) as [Hct' [[Hsame _]|(Hg & Hc & Hfree)]].
    + exists added. now rewrite Hsame.
    + assert (Hkey : angle_key (snd h) <> k).
      { intros <-. rewrite Hl in Hfree.
        destruct Hfree as [Hnone|(t1 & Ht1 & Hlt)]; [discriminate|].
        injection Ht1 as <-. rewrite Hcool in Hlt. lra. }
      exists (added ++ [h]).
      split; [rewrite Hg, Hgen; now rewrite app_assoc|].
      split; [now rewrite Hct'|].
      split; [rewrite Hc; now rewrite lookup_insert_ne|].
      intros h' Hh'. apply in_app_or in Hh'.
      destruct Hh' as [Hh'|[<-|[]]]; [now apply Hne|exact Hkey].
Qed.

(** A batch only appends to the queue. *)
Lemma batch_appends (self : DevModeHandler) (t : Q) (hits : list (string * Q)) :
  exists added,
    generated_notes (queue_motion_hits self t hits) = generated_notes self ++ added.
Proof.
  induction hits as [|h hits IH] using rev_ind.
  - exists []. cbn. now rewrite app_nil_r.
  - destruct IH as (added & Hgen). rewrite queue_motion_hits_snoc.
    destruct (queue_hit_cases (queue_motion_hits self t hits) t h)
      as [_ [[Hsame _]|(Hg & _)]].
    + exists added. now rewrite Hsame.
    + exists (added ++ [h]). rewrite Hg, Hgen. now rewrite app_assoc.
Qed.

(** A sector that is free gets a note from the first hit in it. *)
Lemma batch_free (t : Q) (hits : list (string * Q)) :
  forall (self : DevModeHandler) (a : Q),
  (note_cooldown self !! angle_key a = None
   \/ exists t0, note_cooldown self !! angle_key a = Some t0
                 /\ (cooldown_time self < t - t0)%Q) ->
  (exists ty, In (ty, a) hits) ->
  exists added h,
    generated_notes (queue_motion_hits self t hits) = generated_notes self ++ added
    /\ In h added /\ In h hits /\ angle_key (snd h) = angle_key a.
Proof.
  induction hits as [|h hits IH]; intros self a Hfree [ty Hin]; [destruct Hin|].
  change (queue_motion_hits self t (h :: hits))
    with (queue_motion_hits (queue_hit self t h) t hits).
  destruct (decide (angle_key (snd h) = angle_key a)) as [Heq|Hne].
  - destruct (queue_hit_cases self t h) as [_ [[_ (t0 & Ht0 & Hle)]|(Hg & _)]].
    + exfalso. rewrite Heq in Ht0.
      destruct Hfree as [Hnone|(t1 & Ht1 & Hlt)]; [congruence|].
      rewrite Ht0 in Ht1. injection Ht1 as <-. lra.
    + destruct (batch_appends (queue_hit self t h) t hits) as (more & Hmore).
      exists (h :: more), h. rewrite Hmore, Hg, <- app_assoc.
      split; [reflexivity|]. split; [now left|]. split; [now left|exact Heq].
  - assert (Hin' : exists ty, In (ty, a) hits).
    { destruct Hin as [->|Hin]; [now elim Hne|now exists ty]. }
    destruct (queue_hit_cases self t h) as [Hct [[Hsame _]|(Hg & Hc & _)]].
    + rewrite Hsame.
      destruct (IH self a Hfree Hin') as (added & h' & Hgen & Ha & Hh & Hk).
      exists added, h'. split; [exact Hgen|]. split; [exact Ha|].
      split; [now right|exact Hk].
    + assert (Hfree' : note_cooldown (queue_hit self t h) !! angle_key a = None
                       \/ exists t0, note_cooldown (queue_hit self t h) !! angle_key a = Some t0
                                     /\ (cooldown_time (queue_hit self t h) < t - t0)%Q).
      { rewrite Hc, Hct. now rewrite lookup_insert_ne. }
      destruct (IH _ a Hfree' Hin') as (added & h' & Hgen & Ha & Hh & Hk).
      exists (h :: added), h'. rewrite Hgen, Hg, <- app_assoc.
      split; [reflexivity|]. split; [now right|]. split; [now right|exact Hk].
Qed.

Section MotionFacts.
Context `{Libm} `{OpenCV}.
Variable gray : Frame -> Frame.
Variable motion_contours : Frame -> Frame -> list Contour.
Variable moments : Contour -> Q * Q * Q.

(** [detect_hand_motion] reports nothing on the first frame and
    remembers it; from then on it reports at most one region per
    contour, each a TAP whose angle lies in 0 <= angle < 360 and so in
    one of the eight sectors that start at 0, 45, ..., 315 degrees,
    and it remembers the frame it was given. *)
Theorem motion_regions_are_taps_in_a_sector (self : DevModeHandler)
    (prev_frame : option Frame) (frame : Frame) :
  let out := detect_hand_motion gray motion_contours moments self prev_frame frame in
  snd out = Some (gray frame)
  /\ (prev_frame = None -> fst out = [])
  /\ (forall prev, prev_frame = Some prev ->
        (length (fst out) <= length (motion_contours prev (gray frame)))%nat)
  /\ (forall hit, In hit (fst out) ->
        fst hit = "TAP"
        /\ (0 <= snd hit)%Q /\ (snd hit < 360)%Q
        /\ exists k, (0 <= k < 8)%Z /\ sector_start (snd hit) = (45 * k)%Z).
Proof.
  assert (Hloop : forall cs,
            (length (motion_loop moments self cs) <= length cs)%nat
            /\ forall hit, In hit (motion_loop moments self cs) ->
                 fst hit = "TAP" /\ (0 <= snd hit)%Q /\ (snd hit < 360)%Q
                 /\ exists k, (0 <= k < 8)%Z /\ sector_start (snd hit) = (45 * k)%Z).
  { induction cs as [|c cs [IHl IHh]]; [split; [cbn; lia|intros hit []]|].
    cbn [motion_loop].
    destruct (Py.Qltb _ _ && Py.Qltb _ _); [|split; [cbn [length]; lia|exact IHh]].
    destruct (moments c) as [[m00 m10] m01].
    destruct (negb (Qeq_bool m00 0)); [|split; [cbn [length]; lia|exact IHh]].
    split; [cbn [length]; lia|].
    intros hit [<-|Hin]; [|now apply IHh]. cbn [fst snd].
    destruct (mod_360_range (degrees_atan2 (inject_Z (Py.int (m01 / m00) - snd (center self)))
                                           (inject_Z (Py.int (m10 / m00) - fst (center self)))))
      as [Hlo Hhi].
    split; [reflexivity|]. split; [exact Hlo|]. split; [exact Hhi|].
    destruct (sector_of_angle _ Hlo Hhi) as (k & Hk & Hs & _). now exists k. }
  intros out. subst out. unfold detect_hand_motion.
  destruct prev_frame as [prev|]; cbn [fst snd].
  - split; [reflexivity|]. split; [discriminate|]. split.
    + intros prev' [= <-]. apply Hloop.
    + apply Hloop.
  - split; [reflexivity|]. split; [reflexivity|]. split; [discriminate|intros hit []].
Qed.

End MotionFacts.

(** One pass of [handle_keyboard_input] over the motion hits only
    appends to the queue, appends hits of that pass in pairwise
    different sectors, and leaves the cooldown time alone: a sector
    gets at most one note per pass, whatever the table held before,
    so a pass over angles in 0 <= angle < 360 queues at most eight
    notes.  The cooldown time must not be negative. *)
Theorem one_note_per_sector_per_pass (self : DevModeHandler) (current_time : Q)
    (motion_hits : list (string * Q)) :
  (0 <= cooldown_time self)%Q ->
  let r := queue_motion_hits self current_time motion_hits in
  exists added,
    generated_notes r = generated_notes self ++ added
    /\ cooldown_time r = cooldown_time self
    /\ (forall hit, In hit added -> In hit motion_hits)
    /\ List.NoDup (map (fun hit => sector_start (snd hit)) added)
    /\ ((forall hit, In hit motion_hits -> (0 <= snd hit)%Q /\ (snd hit < 360)%Q) ->
        (length added <= 8)%nat).
Proof.
  intros Hct r.
  destruct (batch_spec self current_time motion_hits Hct)
    as (added & Hgen & Hcool & Hnd & Hin & _).
  assert (Hsec : List.NoDup (map (fun hit => sector_start (snd hit)) added)).
  { clear - Hnd. induction added as [|h added IH]; [constructor|].
    cbn [map] in *. inversion Hnd as [|k ks Hk Hks]; subst. constructor; [|now apply IH].
    intros Hs. apply Hk. apply in_map_iff in Hs. destruct Hs as (h' & Hs & Hh').
    apply in_map_iff. exists h'. split; [|exact Hh'].
    now apply angle_key_sector. }
  exists added. split; [exact Hgen|]. split; [exact Hcool|].
  split; [intros hit Hhit; now apply Hin|]. split; [exact Hsec|].
  intros Hrange.
  rewrite <- (length_map (fun hit => sector_start (snd hit)) added).
  change 8%nat with (length [0; 45; 90; 135; 180; 225; 270; 315]%Z).
  apply NoDup_incl_length; [exact Hsec|].
  intros z Hz. apply in_map_iff in Hz. destruct Hz as (h & <- & Hh).
  destruct (Hrange h (proj1 (Hin h Hh))) as [Hlo Hhi].
  destruct (sector_of_angle _ Hlo Hhi) as (k & Hk & -> & _).
  assert (Hcases : (k = 0 \/ k = 1 \/ k = 2 \/ k = 3 \/ k = 4 \/ k = 5 \/ k = 6 \/ k = 7)%Z)
    by lia.
  cbn [In]. intuition (subst k; auto).
Qed.

Lemma one_note_per_sector_per_pass_witness :
  (0 <= cooldown_time init)%Q
  /\ exists added,
       generated_notes (queue_motion_hits init 0 [("TAP", 10%Q); ("TAP", 20%Q); ("TAP", 50%Q)])
       = generated_notes init ++ added
       /\ List.NoDup (map (fun hit => sector_start (snd hit)) added).
Proof.
  assert (Hct : (0 <= cooldown_time init)%Q) by (vm_compute; discriminate).
  split; [exact Hct|].
  destruct (one_note_per_sector_per_pass init 0
              [("TAP", 10%Q); ("TAP", 20%Q); ("TAP", 50%Q)] Hct)
    as (added & Hgen & _ & _ & Hnd & _).
  exists added. split; [exact Hgen|exact Hnd].
Defined.

(** Once a pass at time [t] has queued a note in a sector, a pass at a
    time [t'] with [t' - t <= cooldown_time] queues nothing in that
    sector, also after the queue has been fetched and cleared with
    [get_generated_notes]: fetching returns the queue and leaves the
    cooldown table alone. *)
Theorem cooling_sector_stays_silent (self : DevModeHandler) (t t' : Q)
    (hits hits' added : list (string * Q)) (hit : string * Q) :
  (0 <= cooldown_time self)%Q ->
  generated_notes (queue_motion_hits self t hits) = generated_notes self ++ added ->
  In hit added ->
  (t' - t <= cooldown_time self)%Q ->
  let r := queue_motion_hits self t hits in
  let r' := queue_motion_hits (snd (get_generated_notes r)) t' hits' in
  fst (get_generated_notes r) = generated_notes self ++ added
  /\ forall hit', In hit' (generated_notes r') ->
                  sector_start (snd hit') <> sector_start (snd hit).
Proof.
  intros Hct Hgen Hhit Hle r r'. split; [exact Hgen|].
  destruct (batch_spec self t hits Hct) as (added0 & Hgen0 & Hcool & _ & Hin & _).
  fold r in Hgen, Hgen0, Hcool, Hin.
  assert (added0 = added) as ->.
  { rewrite Hgen in Hgen0. now apply app_inv_head in Hgen0. }
  destruct (Hin hit Hhit) as [_ Hl].
  destruct (batch_blocked (snd (get_generated_notes r)) t' hits' (angle_key (snd hit)) t)
    as (added' & Hgen' & _ & _ & Hne).
  - exact Hl.
  - cbn. now rewrite Hcool.
  - fold r' in Hgen'. cbn in Hgen'. intros hit' Hin' Hs.
    rewrite Hgen' in Hin'. apply (Hne hit' Hin'). now apply angle_key_sector.
Qed.

Lemma cooling_sector_stays_silent_witness :
  (0 <= cooldown_time init)%Q
  /\ forall hit', In hit' (generated_notes
                          (queue_motion_hits
                             (snd (get_generated_notes
                                     (queue_motion_hits init 0 [("TAP", 10%Q)])))
                             100 [("TAP", 20%Q); ("TAP", 50%Q)])) ->
               sector_start (snd hit') <> sector_start (snd ("TAP", 10%Q)).
Proof.
  split; [vm_compute; discriminate|].
  refine (proj2 (cooling_sector_stays_silent init 0 100 [("TAP", 10%Q)]
                   [("TAP", 20%Q); ("TAP", 50%Q)] [("TAP", 10%Q)] ("TAP", 10%Q)
                   _ _ _ _)).
  - vm_compute. discriminate.
  - vm_compute. reflexivity.
  - left. reflexivity.
  - vm_compute. discriminate.
Defined.

(** A sector whose cooldown is over, or that was never hit, is not
    held back by the other sectors: a pass whose hits include one in
    that sector queues a hit of that pass in that sector. *)
Theorem free_sector_gets_its_note (self : DevModeHandler) (current_time : Q)
    (motion_hits : list (string * Q)) (hit_type : string) (angle : Q) :
  (note_cooldown self !! angle_key angle = None
   \/ exists t0, note_cooldown self !! angle_key angle = Some t0
                 /\ (cooldown_time self < current_time - t0)%Q) ->
  In (hit_type, angle) motion_hits ->
  exists added hit,
    generated_notes (queue_motion_hits self current_time motion_hits)
    = generated_notes self ++ added
    /\ In hit added /\ In hit motion_hits
    /\ sector_start (snd hit) = sector_start angle.
Proof.
  intros Hfree Hin.
  destruct (batch_free current_time motion_hits self angle Hfree
              (ex_intro _ hit_type Hin)) as (added & hit & Hgen & Ha & Hh & Hk).
  exists added, hit. split; [exact Hgen|]. split; [exact Ha|]. split; [exact Hh|].
  now apply angle_key_sector.
Qed.

Lemma free_sector_gets_its_note_witness :
  exists added hit,
    generated_notes (queue_motion_hits init 0 [("TAP", 100%Q); ("TAP", 10%Q)])
    = generated_notes init ++ added
    /\ In hit added /\ sector_start (snd hit) = sector_start 10.
Proof.
  destruct (free_sector_gets_its_note init 0 [("TAP", 100%Q); ("TAP", 10%Q)] "TAP" 10)
    as (added & hit & Hgen & Ha & _ & Hs).
  - left. vm_compute. reflexivity.
  - right. left. reflexivity.
  - exists added, hit. split; [exact Hgen|]. split; [exact Ha|exact Hs].
Defined.

End DevModeFacts.

(** ** Button detection and the analysis of a frame *)

Module ButtonFacts.
Import VideoAnalyzer Spec.

Lemma button_name_inj (i j : nat) : button_name i = button_name j -> i = j.
Proof.
  unfold button_name. intros Heq. simpl in Heq. inversion Heq as [Hs].
  apply DevModeFacts.str_inj in Hs. lia.
Qed.

Section Detection.
Context `{Libm} `{OpenCV}.
Variable button_contours : Frame -> list Contour.
Variable moments : Contour -> Q * Q * Q.

Lemma button_loop_cons (c : Z * Z) (r : Z) (i : nat) (contour : Contour)
    (rest : list Contour) (positions : gmap string (Z * Z)) :
  exists positions',
    button_loop moments c r i (contour :: rest) positions
    = button_loop moments c r (S i) rest positions'
    /\ ((exists pos, button_contour moments c r contour pos
                     /\ positions' = <[button_name i := pos]> positions)
        \/ ((forall pos, ~ button_contour moments c r contour pos)
            /\ positions' = positions)).
Proof.
  cbn [button_loop]. unfold button_contour, centroid, distance, ring_inner, ring_outer,
    button_min_area, button_max_area.
  remember (Float.mul (Float.round (7 # 10)) (Float.of_int r)) as inner eqn:Hinner.
  remember (Float.mul (Float.round (9 # 10)) (Float.of_int r)) as outer eqn:Houter.
  clear Hinner Houter.
  destruct (Py.Qltb 100 (contourArea contour)) eqn:Elo; cbn [andb].
  2:{ eexists. split; [reflexivity|]. right. split; [|reflexivity].
      intros pos (Hlo & _). apply PyFacts.Qltb_ge in Elo. lra. }
  destruct (Py.Qltb (contourArea contour) 1000) eqn:Ehi.
  2:{ eexists. split; [reflexivity|]. right. split; [|reflexivity].
      intros pos (_ & Hhi & _). apply PyFacts.Qltb_ge in Ehi. lra. }
  apply PyFacts.Qltb_lt in Elo, Ehi.
  destruct (moments contour) as [[m00 m10] m01].
  destruct (Qeq_bool m00 0); cbn [negb].
  { eexists. split; [reflexivity|]. right. split; [|reflexivity].
    intros pos (_ & _ & [=] & _). }
  cbv zeta.
  set (cx := Py.int (Float.div m10 m00)). set (cy := Py.int (Float.div m01 m00)).
  set (d := sqrt (inject_Z ((cx - fst c) * (cx - fst c) + (cy - snd c) * (cy - snd c)))).
  destruct (Py.Qltb inner d) eqn:Ein; cbn [andb].
  2:{ eexists. split; [reflexivity|]. right. split; [|reflexivity].
      intros pos (_ & _ & [= <-] & Hin & _). cbn [fst snd] in Hin. fold d in Hin.
      apply PyFacts.Qltb_ge in Ein. lra. }
  destruct (Py.Qltb d outer) eqn:Eout.
  2:{ eexists. split; [reflexivity|]. right. split; [|reflexivity].
      intros pos (_ & _ & [= <-] & _ & Hout). cbn [fst snd] in Hout. fold d in Hout.
      apply PyFacts.Qltb_ge in Eout. lra. }
  apply PyFacts.Qltb_lt in Ein, Eout.
  eexists. split; [reflexivity|]. left. exists (cx, cy).
  split; [|reflexivity]. cbn [fst snd]. fold d.
  split; [exact Elo|]. split; [exact Ehi|]. split; [reflexivity|].
  split; [exact Ein|exact Eout].
Qed.

Lemma button_contour_pos (c : Z * Z) (r : Z) (contour : Contour) (p q : Z * Z) :
  button_contour moments c r contour p -> button_contour moments c r contour q -> p = q.
Proof. intros (_ & _ & Hp & _) (_ & _ & Hq & _). congruence. Qed.

(** What the loop leaves in the dictionary, when the names from [i] on
    are free. *)
Lemma button_loop_spec (c : Z * Z) (r : Z) (contours : list Contour) :
  forall (i : nat) (positions : gmap string (Z * Z)),
  (forall k, (i <= k)%nat -> positions !! button_name k = None) ->
  forall name pos,
    button_loop moments c r i contours positions !! name = Some pos
    <-> positions !! name = Some pos
        \/ exists j contour,
             name = button_name (i + j)
             /\ nth_error contours j = Some contour
             /\ button_contour moments c r contour pos.
Proof.
  induction contours as [|contour rest IH]; intros i positions Hfree name pos.
  - cbn [button_loop]. split; [now left|].
    intros [Hl|(j & contour & _ & Hn & _)]; [exact Hl|]. destruct j; discriminate.
  - destruct (button_loop_cons c r i contour rest positions) as (positions' & -> & Hcase).
    assert (Hfree' : forall k, (S i <= k)%nat -> positions' !! button_name k = None).
    { intros k Hk. destruct Hcase as [(p & _ & ->)|[_ ->]]; [|apply Hfree; lia].
      rewrite lookup_insert_ne; [apply Hfree; lia|].
      intros Heq. apply button_name_inj in Heq. lia. }
    rewrite (IH (S i) positions' Hfree' name pos). split.
    + intros [Hl|(j & contour' & -> & Hn & Hb)].
      * destruct Hcase as [(p & Hp & ->)|[_ ->]]; [|now left].
        destruct (decide (button_name i = name)) as [<-|Hne].
        -- rewrite lookup_insert_eq in Hl. injection Hl as <-.
           right. exists 0%nat, contour. rewrite Nat.add_0_r.
           split; [reflexivity|]. split; [reflexivity|exact Hp].
        -- rewrite lookup_insert_ne in Hl by exact Hne. now left.
      * right. exists (S j), contour'. rewrite Nat.add_succ_r.
        split; [reflexivity|]. split; [exact Hn|exact Hb].
    + intros [Hl|(j & contour' & -> & Hn & Hb)].
      * left. destruct Hcase as [(p & _ & ->)|[_ ->]]; [|exact Hl].
        rewrite lookup_insert_ne; [exact Hl|].
        intros <-. rewrite (Hfree i) in Hl by lia. discriminate.
      * destruct j as [|j].
        -- cbn in Hn. injection Hn as <-. left. rewrite Nat.add_0_r.
           destruct Hcase as [(p & Hp & ->)|[Hno _]]; [|now elim (Hno pos)].
           rewrite lookup_insert_eq. f_equal. exact (button_contour_pos c r contour p pos Hp Hb).
        -- right. exists j, contour'. rewrite Nat.add_succ_r.
           split; [reflexivity|]. split; [exact Hn|exact Hb].
Qed.

(** On a known screen [detect_buttons] runs the loop on an empty
    dictionary. *)
Lemma detect_buttons_known (self : VideoAnalyzer) (frame : Frame) (c : Z * Z) (r : Z) :
  screen_center self = Some c -> screen_radius self = Some r -> r <> 0%Z ->
  detect_buttons button_contours moments self frame
  = set_button_positions self (button_loop moments c r 0 (button_contours frame) ∅).
Proof.
  intros Hc Hr Hne. unfold detect_buttons. rewrite Hc, Hr.
  destruct (Z.eqb_spec r 0) as [->|_]; [now elim Hne|reflexivity].
Qed.

(** What the loop leaves in a dictionary that was empty. *)
Lemma button_loop_fresh (c : Z * Z) (r : Z) (contours : list Contour) (name : string)
    (pos : Z * Z) :
  button_loop moments c r 0 contours ∅ !! name = Some pos
  <-> exists i contour,
        name = button_name i
        /\ nth_error contours i = Some contour
        /\ button_contour moments c r contour pos.
Proof.
  rewrite (button_loop_spec c r contours 0 ∅ (fun k _ => lookup_empty _)).
  rewrite lookup_empty. cbn [Nat.add]. split.
  - intros [Hl|Hr']; [discriminate|exact Hr'].
  - intros Hr'. now right.
Qed.

(** After [detect_buttons] on a screen with centre [c] and radius
    [r], the dictionary holds exactly the contours of the frame that
    count as buttons, each under the name BUTTON_i of its index [i]
    and at its centre of mass: between 100 and 1000 in area and with
    the centre of mass at a distance from [c] strictly between
    [0.7 * r] and [0.9 * r], the products as binary64 computes them.
    Whatever the dictionary held before is gone, no button replaces
    another, and the screen and the manual mapping stay as they
    were. *)
Theorem detected_buttons_lie_in_the_ring (self : VideoAnalyzer) (frame : Frame)
    (c : Z * Z) (r : Z) :
  screen_center self = Some c -> screen_radius self = Some r -> r <> 0%Z ->
  let after := detect_buttons button_contours moments self frame in
  (forall name pos,
     button_positions after !! name = Some pos
     <-> exists i contour,
           name = button_name i
           /\ nth_error (button_contours frame) i = Some contour
           /\ button_contour moments c r contour pos)
  /\ screen_center after = Some c /\ screen_radius after = Some r
  /\ manual_buttons after = manual_buttons self.
Proof.
  intros Hc Hr Hne after. subst after.
  rewrite (detect_buttons_known self frame c r Hc Hr Hne).
  cbn [button_positions screen_center screen_radius set_button_positions manual_buttons].
  split; [intros name pos; apply button_loop_fresh|].
  split; [exact Hc|]. split; [exact Hr|reflexivity].
Qed.

Lemma contour_loop_sets (self : VideoAnalyzer) (cs : list Contour) :
  fst (contour_loop self cs) = true ->
  exists c r, snd (contour_loop self cs) = set_screen self c r.
Proof.
  induction cs as [|x rest IH]; cbn [contour_loop]; [discriminate|].
  destruct (qualifies self x); [|exact IH].
  destruct (minEnclosingCircle x) as [[cx cy] radius]. cbn [fst snd].
  intros _. now eexists _, _.
Qed.

Lemma detect_screen_sets (self : VideoAnalyzer) (frame : option Frame) :
  fst (detect_screen self frame) = true ->
  exists c r, snd (detect_screen self frame) = set_screen self c r.
Proof.
  destruct frame as [f|]; unfold detect_screen; [|discriminate].
  destruct (all_mapped self).
  - cbv zeta. cbn [fst snd]. intros _. now eexists _, _.
  - destruct (edge_contours f) as [|x xs]; [discriminate|]. apply contour_loop_sets.
Qed.

(** [analyze_frame] returns results exactly when [detect_screen]
    succeeds on the frame: when detection fails, the test of the
    manual mapping never lets the call go on, and the analyzer is left
    as it was.  The results give the screen that the detection has
    set, and the analyzer's buttons; the manual mapping is not touched.
    When the radius is not 0 the buttons are those [detect_buttons]
    finds in the frame, all named BUTTON_i; when it is 0 they are the
    ones the analyzer already had. *)
Theorem analyze_frame_reports_the_detection (self : VideoAnalyzer)
    (frame : option Frame) :
  let out := analyze_frame button_contours moments self frame in
  (fst out = None <-> fst (detect_screen self frame) = false)
  /\ (fst out = None -> snd out = self)
  /\ (forall res, fst out = Some res ->
        exists f c r,
          frame = Some f
          /\ snd (detect_screen self frame) = set_screen self c r
          /\ results_screen_center res = Some c /\ results_screen_radius res = Some r
          /\ screen_center (snd out) = Some c /\ screen_radius (snd out) = Some r
          /\ results_button_positions res = button_positions (snd out)
          /\ manual_buttons (snd out) = manual_buttons self
          /\ (r = 0%Z -> snd out = set_screen self c r)
          /\ (r <> 0%Z ->
              forall name pos,
                button_positions (snd out) !! name = Some pos
                <-> exists i contour,
                      name = button_name i
                      /\ nth_error (button_contours f) i = Some contour
                      /\ button_contour moments c r contour pos)).
Proof.
  intros out. subst out. unfold analyze_frame.
  destruct frame as [f|].
  2:{ cbn. split; [tauto|]. split; [reflexivity|discriminate]. }
  destruct (detect_screen self (Some f)) as [found self'] eqn:Eds.
  pose proof (ScreenFacts.detect_screen_unchanged self (Some f)) as Hsame.
  pose proof (detect_screen_sets self (Some f)) as Hsets.
  pose proof (ScreenFacts.detect_screen_fails_iff self (Some f)) as Hfails.
  rewrite Eds in Hsame, Hsets, Hfails. cbn [fst snd] in Hsame, Hsets, Hfails.
  destruct found; cbn [negb andb fst snd].
  - destruct (Hsets eq_refl) as (c & r & ->).
    split; [split; discriminate|]. split; [discriminate|].
    intros res [= <-]. exists f, c, r. cbn [results_screen_center results_screen_radius
                                           results_button_positions].
    split; [reflexivity|]. split; [reflexivity|].
    unfold screen_known. cbn [screen_center screen_radius set_screen].
    destruct (Z.eqb_spec r 0) as [->|Hne]; cbn [negb].
    + cbn [screen_center screen_radius set_screen manual_buttons button_positions].
      split; [reflexivity|]. split; [reflexivity|]. split; [reflexivity|].
      split; [reflexivity|]. split; [reflexivity|]. split; [reflexivity|].
      split; [reflexivity|]. intros Hne. now elim Hne.
    + rewrite (detect_buttons_known (set_screen self c r) f c r eq_refl eq_refl Hne).
      cbn [button_positions screen_center screen_radius set_button_positions
           manual_buttons set_screen].
      split; [reflexivity|]. split; [reflexivity|]. split; [reflexivity|].
      split; [reflexivity|]. split; [reflexivity|]. split; [reflexivity|].
      split; [intros ->; now elim Hne|].
      intros _ name pos. apply button_loop_fresh.
  - rewrite (Hsame eq_refl).
    assert (Hnot : all_mapped self = false).
    { destruct (proj1 Hfails eq_refl) as [Hm _]. exact Hm. }
    rewrite Hnot. cbn [negb fst snd].
    split; [tauto|]. split; [reflexivity|discriminate].
Qed.

End Detection.

(** On the screen with centre (320, 240) and radius 200, the blob at
    (480, 240) is found as BUTTON_0. *)
Lemma detected_buttons_lie_in_the_ring_witness :
  button_positions
    (@detect_buttons Examples.libm Examples.opencv (fun f => f) Examples.moments
                     Examples.calibrated_analyzer Examples.one_button_frame)
  !! "BUTTON_0" = Some (480, 240)%Z.
Proof.
  refine (proj2 (proj1 (@detected_buttons_lie_in_the_ring Examples.libm Examples.opencv
                          (fun f => f) Examples.moments Examples.calibrated_analyzer
                          Examples.one_button_frame (320, 240)%Z 200
                          eq_refl eq_refl _) "BUTTON_0" (480, 240)%Z) _).
  - discriminate.
  - exists 0%nat, (Examples.mkContour 400 80 ((480, 240), 12)%Q).
    split; [reflexivity|]. split; [reflexivity|].
    unfold button_contour. repeat split; vm_compute; reflexivity.
Defined.

(** At the inner bound of the ring: on a screen of radius 90 a blob
    whose centre of mass is at distance 63 from the centre is stored,
    the bound [0.7 * 90] being 62.99999999999999; on a screen of
    radius 10 a blob at distance 7 is not. *)
Lemma button_at_the_inner_bound :
  let analyzer := fun r => set_screen init (320, 240)%Z r in
  let blob := fun x => [Examples.mkContour 400 80 ((inject_Z x, 240), 12)%Q] in
  button_positions
    (@detect_buttons Examples.libm Examples.opencv (fun f => f) Examples.moments
                     (analyzer 90%Z) (blob 383%Z))
  !! "BUTTON_0" = Some (383, 240)%Z
  /\ button_positions
       (@detect_buttons Examples.libm Examples.opencv (fun f => f) Examples.moments
                        (analyzer 10%Z) (blob 327%Z))
     !! "BUTTON_0" = None.
Proof. intros analyzer blob. split; vm_compute; reflexivity. Qed.

End ButtonFacts.
